(** * Grindel Backhus storefront: cart totals, menu validation, cart mutations

    A shallow embedding of the logic of the cart page (two revisions of
    [Cart], called [CartV1] and [CartV2] below) and of the header widget
    ([Navbar]), followed by the properties the specification states about
    them.

    Conventions of the embedding.
    - A JavaScript number that holds a price is an IEEE 754 binary64 value,
      [spec_float] at precision 53; [+] and [*] are [SFadd] and [SFmul].
    - Product identifiers, quantities and menu counts are integers ([Z]).
      JavaScript computes on them in binary64 as well, which is exact as long
      as every value and partial sum stays below 2^53 in magnitude.
    - A string is the sequence of bytes of its UTF-8 encoding, so the euro
      sign is three bytes.  Removing characters outside [0-9.], searching for
      a substring and comparing two strings give the same answers on the
      UTF-8 bytes as on the UTF-16 code units JavaScript works with.
    - An optional field ([price?: string], [count], [currentCount]) is an
      [option].  A missing [products], [totals] or [contents] array behaves
      in every expression below like the empty array ([?.] followed by
      [|| []] or by a test for [undefined]), and is modelled by [[]]. *)

From Stdlib Require Import ZArith List String Ascii Bool Lia SpecFloat DecimalString.
From Stdlib Require Import Permutation.
Import ListNotations.

Open Scope Z_scope.

(** ** JavaScript primitives used by the pages *)

Module JS.

(** *** Numbers *)

Definition Number : Type := spec_float.

Definition prec : Z := 53.
Definition emax : Z := 1024.

Definition NaN : Number := S754_nan.
Definition zero : Number := S754_zero false.

Definition add : Number -> Number -> Number := SFadd prec emax.
Definition mul : Number -> Number -> Number := SFmul prec emax.

Definition isNaN (x : Number) : bool :=
  match x with
  | S754_nan => true
  | _ => false
  end.

(** [ToBoolean] on a number: [NaN], [+0] and [-0] are falsy. *)
Definition truthy (x : Number) : bool :=
  match x with
  | S754_nan | S754_zero _ => false
  | _ => true
  end.

(** [x || 0] *)
Definition or_zero (x : Number) : Number :=
  if truthy x then x else zero.

(** [s || "0"] on an optional string: [undefined] and [""] are falsy. *)
Definition or_string_zero (s : option string) : string :=
  match s with
  | None | Some EmptyString => "0"
  | Some t => t
  end.

(** [n || 0] on an optional integer: [undefined] and [0] are falsy. *)
Definition or_zero_int (n : option Z) : Z :=
  match n with
  | None => 0
  | Some v => v
  end.

Definition Number_eqb (x y : Number) : bool :=
  match x, y with
  | S754_nan, S754_nan => true
  | S754_zero a, S754_zero b => Bool.eqb a b
  | S754_infinity a, S754_infinity b => Bool.eqb a b
  | S754_finite a m e, S754_finite b n f =>
      Bool.eqb a b && Pos.eqb m n && Z.eqb e f
  | _, _ => false
  end.

(** The binary64 value nearest to the integer [z] (ties to even). *)
Definition of_Z (z : Z) : Number := binary_normalize prec emax z 0 false.

(** The binary64 value nearest to [n / d], for [0 < n] and [0 < d]: the
    quotient is computed with enough bits for the position of the remainder
    to decide the rounding. *)
Definition of_ratio (neg : bool) (n d : Z) : Number :=
  let '(q, e, l) := SFdiv_core_binary prec emax n 0 d 0 in
  binary_round_aux prec emax neg q e l.

(** The value of the decimal literal [m * 10^e10], [0 <= m]. *)
Definition of_decimal (neg : bool) (m e10 : Z) : Number :=
  if m =? 0 then S754_zero neg
  else if 0 <=? e10 then of_ratio neg (m * 10 ^ e10) 1
  else of_ratio neg m (10 ^ (- e10)).

(** *** Characters and strings *)

Definition is_digit (c : ascii) : bool :=
  let n := N_of_ascii c in
  (48 <=? n)%N && (n <=? 57)%N.

Definition digit_value (c : ascii) : Z := Z.of_N (N_of_ascii c) - 48.

Definition byte (n : N) : ascii := ascii_of_N n.

(** Leading white space and line terminators, as [parseFloat] trims them:
    TAB, LF, VT, FF, CR, SP, U+00A0, U+1680, U+2000 to U+200A, U+2028,
    U+2029, U+202F, U+205F, U+3000 and U+FEFF, here in UTF-8. *)
Fixpoint trim_start (s : string) : string :=
  match s with
  | String c1 r1 =>
      let n1 := N_of_ascii c1 in
      if ((9 <=? n1) && (n1 <=? 13) || (n1 =? 32))%N then trim_start r1
      else
        match r1 with
        | String c2 r2 =>
            let n2 := N_of_ascii c2 in
            if ((n1 =? 194) && (n2 =? 160))%N then trim_start r2
            else
              match r2 with
              | String c3 r3 =>
                  let n3 := N_of_ascii c3 in
                  if ((n1 =? 225) && (n2 =? 154) && (n3 =? 128)
                      || (n1 =? 226) && (n2 =? 128)
                         && ((128 <=? n3) && (n3 <=? 138)
                             || (n3 =? 168) || (n3 =? 169) || (n3 =? 175))
                      || (n1 =? 226) && (n2 =? 129) && (n3 =? 159)
                      || (n1 =? 227) && (n2 =? 128) && (n3 =? 128)
                      || (n1 =? 239) && (n2 =? 187) && (n3 =? 191))%N
                  then trim_start r3
                  else s
              | EmptyString => s
              end
        | EmptyString => s
        end
  | EmptyString => s
  end.

(** Reads the longest run of decimal digits at the head of [s]: the value
    of [acc] followed by these digits, how many were read, and the rest. *)
Fixpoint scan_digits (s : string) (acc count : Z) : Z * Z * string :=
  match s with
  | String c r =>
      if is_digit c then scan_digits r (10 * acc + digit_value c) (count + 1)
      else (acc, count, s)
  | EmptyString => (acc, count, s)
  end.

(** An optional sign at the head of [s]. *)
Definition scan_sign (s : string) : bool * string :=
  match s with
  | String "-" r => (true, r)
  | String "+" r => (false, r)
  | _ => (false, s)
  end.

(** [ExponentPart]: [e] or [E], an optional sign and at least one digit;
    anything else is not part of the literal and counts as exponent 0. *)
Definition scan_exponent (s : string) : Z :=
  match s with
  | String c r =>
      if (Ascii.eqb c "e" || Ascii.eqb c "E")%bool then
        let '(neg, r1) := scan_sign r in
        let '(v, n, _) := scan_digits r1 0 0 in
        if n =? 0 then 0 else if neg then - v else v
      else 0
  | EmptyString => 0
  end.

(** [parseFloat]: the longest prefix of the trimmed input that is a
    [StrDecimalLiteral], rounded to the nearest binary64 value; [NaN] when
    no prefix is one. *)
Definition parseFloat (input : string) : Number :=
  let '(neg, s1) := scan_sign (trim_start input) in
  if prefix "Infinity" s1 then S754_infinity neg
  else
    let '(ip, ni, s2) := scan_digits s1 0 0 in
    let '(m, nf, s3) :=
      match s2 with
      | String "." r => scan_digits r ip 0
      | _ => (ip, 0, s2)
      end in
    if ni + nf =? 0 then NaN
    else of_decimal neg m (scan_exponent s3 - nf).

(** [s.replace(pat, rep)] for a string pattern: the first occurrence. *)
Fixpoint replace (pat rep s : string) : string :=
  if prefix pat s then rep ++ substring (length pat) (length s - length pat) s
  else
    match s with
    | String c r => String c (replace pat rep r)
    | EmptyString => EmptyString
    end.

(** [s.replace(/[^0-9.]/g, "")] *)
Fixpoint strip_non_numeric (s : string) : string :=
  match s with
  | String c r =>
      if (is_digit c || Ascii.eqb c ".")%bool then String c (strip_non_numeric r)
      else strip_non_numeric r
  | EmptyString => EmptyString
  end.

(** *** Printing numbers *)

(** The decimal digits of a natural number ([n >= 0]). *)
Definition digits_of (n : Z) : string :=
  NilEmpty.string_of_uint (N.to_uint (Z.to_N n)).

(** [ToString] of an integer below 10^21 in magnitude, as a template
    literal prints a count. *)
Definition Z_toString (z : Z) : string :=
  if z <? 0 then ("-" ++ digits_of (- z))%string else digits_of z.

Fixpoint zeros (n : nat) : string :=
  match n with
  | O => EmptyString
  | S k => String "0" (zeros k)
  end.

(** The integer [n] for which [n / 10^f] is nearest to [m * 2^e]; of two
    such integers the larger. *)
Definition nearest_scaled (m : positive) (e : Z) (f : nat) : Z :=
  let num := Zpos m * 10 ^ Z.of_nat f in
  if 0 <=? e then num * 2 ^ e
  else (2 * num + 2 ^ (- e)) / (2 * 2 ^ (- e)).

(** The digits of [n] with a decimal point before the last [f] of them,
    padded with zeros on the left to [f + 1] digits. *)
Definition fixed_notation (n : Z) (f : nat) : string :=
  let m := digits_of n in
  if Nat.eqb f 0 then m
  else
    let m' := (zeros (f + 1 - length m) ++ m)%string in
    let k := length m' in
    (substring 0 (k - f) m' ++ "." ++ substring (k - f) f m')%string.

(** [10^21 <= m * 2^e] *)
Definition at_least_1e21 (m : positive) (e : Z) : bool :=
  if 0 <=? e then 10 ^ 21 <=? Zpos m * 2 ^ e
  else 10 ^ 21 * 2 ^ (- e) <=? Zpos m.

(** [Number::toString] on a finite value of at least 10^21, an integer [N]
    of [nd] decimal digits: the fewest digits [s] such that [s * 10^(nd-k)]
    rounds to the value, of two candidates the nearer one (the even one on
    a tie), printed in exponent notation. *)
Definition shortest_candidate (x : Number) (N nd k : Z) : option Z :=
  let p := 10 ^ (nd - k) in
  let lo := N / p in
  let hi := lo + 1 in
  let ok_lo := Number_eqb (of_Z (lo * p)) x in
  let ok_hi := Number_eqb (of_Z (hi * p)) x in
  match ok_lo, ok_hi with
  | true, true =>
      match (N - lo * p) ?= (hi * p - N) with
      | Lt => Some lo
      | Gt => Some hi
      | Eq => Some (if Z.even lo then lo else hi)
      end
  | true, false => Some lo
  | false, true => Some hi
  | false, false => None
  end.

Fixpoint shortest_digits (x : Number) (N nd k : Z) (fuel : nat) : Z * Z :=
  match fuel with
  | O => (N, nd)
  | S fuel' =>
      match shortest_candidate x N nd k with
      | Some s => (s, k)
      | None => shortest_digits x N nd (k + 1) fuel'
      end
  end.

Definition exponent_notation (m : positive) (e : Z) : string :=
  let N := Zpos m * 2 ^ e in
  let nd := Z.of_nat (length (digits_of N)) in
  let '(s, k) := shortest_digits (S754_finite false m e) N nd 1 (Z.to_nat nd) in
  let '(ds, ex) := if s =? 10 ^ k then ("1"%string, nd) else (digits_of s, nd - 1) in
  match ds with
  | String d EmptyString => (String d "e+" ++ digits_of ex)%string
  | String d rest => (String d "." ++ rest ++ "e+" ++ digits_of ex)%string
  | EmptyString => EmptyString
  end.

(** [x.toFixed(f)] for [0 <= f <= 100]. *)
Definition toFixed (x : Number) (f : nat) : string :=
  match x with
  | S754_nan => "NaN"
  | S754_infinity s => if s then "-Infinity" else "Infinity"
  | S754_zero _ => fixed_notation 0 f
  | S754_finite s m e =>
      ((if s then "-" else "") ++
       (if at_least_1e21 m e then exponent_notation m e
        else fixed_notation (nearest_scaled m e f) f))%string
  end.

End JS.

(** ** Data returned by the cart query *)

(** [interface CartItem]; the fields that only feed the rendering ([name],
    [thumb], [leadTime]) are left out. *)
Record CartItem := {
  product_id : Z;
  cart_id : string;
  price : option string;
  quantity : Z
}.

(** An entry of [cartData.totals]. *)
Record TotalEntry := {
  title : string;
  text : string
}.

(** An entry of [cartData.cart.menu.contents]: [count] is the required
    number of items, [currentCount] the number the backend reports (read by
    the first revision only), [ids] the categories whose products count for
    the entry (read by the second revision only). *)
Record MenuContent := {
  name : string;
  count : option Z;
  currentCount : option Z;
  ids : list Z
}.

Record CartData := {
  products : list CartItem;
  totals : list TotalEntry;
  contents : list MenuContent
}.

(** ** The totals shown on the cart page

    The two revisions of the page compute [cartItems], [subTotal] and
    [totalPrice] with the same code. *)

Module Cart.

(** An element of [cartItems]: the product with its [price] replaced by a
    number. *)
Record PricedItem := {
  item : CartItem;
  price_number : JS.Number
}.

Definition cartItems (cartData : CartData) : list PricedItem :=
  map (fun product =>
         {| item := product;
            price_number := JS.parseFloat (JS.or_string_zero (price product)) |})
      (products cartData).

(** [(item.price || 0) * item.quantity] *)
Definition line_total (it : PricedItem) : JS.Number :=
  JS.mul (JS.or_zero (price_number it)) (JS.of_Z (quantity (item it))).

(** [cartItems.reduce((sum, item) => sum + (item.price || 0) * item.quantity, 0)] *)
Definition subTotal (items : list PricedItem) : JS.Number :=
  fold_left (fun sum it => JS.add sum (line_total it)) items JS.zero.

(** [cartData?.totals?.find((item) => item.title === "Total")] *)
Definition totalItem (cartData : CartData) : option TotalEntry :=
  find (fun entry => String.eqb (title entry) "Total") (totals cartData).

(** [parseFloat(totalItem.text.replace(/[^0-9.]/g, ""))] *)
Definition parseTotalText (t : string) : JS.Number :=
  JS.parseFloat (JS.strip_non_numeric t).

Definition totalPrice (cartData : CartData) : JS.Number :=
  match totalItem cartData with
  | Some entry => parseTotalText (text entry)
  | None => subTotal (cartItems cartData)
  end.

Record Totals := {
  subTotal_text : string;
  totalPrice_text : string
}.

(** The [useMemo] that yields [{ subTotal, totalPrice }], which the
    specification calls [computeTotals].  [cartItems] is an array in every
    case, so the branch for a non-array is never taken. *)
Definition computeTotals (cartData : CartData) : Totals :=
  {| subTotal_text := JS.toFixed (subTotal (cartItems cartData)) 2;
     totalPrice_text := JS.toFixed (totalPrice cartData) 2 |}.

End Cart.

(** ** The totals shown in the header *)

Module Navbar.

(** [state.cart?.products] is [None] while the cart is not loaded. *)
Definition getTotalItems (cartItems : option (list CartItem)) : Z :=
  match cartItems with
  | None => 0
  | Some items => fold_left (fun total it => total + quantity it) items 0
  end.

(** [item.price?.replace("€", "").replace(",", ".")], turned to a string by
    [parseFloat]: a missing price reads ["undefined"]. *)
Definition price_text (it : CartItem) : string :=
  match price it with
  | Some p => JS.replace "," "." (JS.replace "€" "" p)
  | None => "undefined"
  end.

Definition line_total (it : CartItem) : JS.Number :=
  let price := JS.parseFloat (price_text it) in
  let quantity := JS.of_Z (quantity it) in
  if (JS.isNaN price || JS.isNaN quantity)%bool then JS.zero
  else JS.mul price quantity.

Definition totalPrice (items : list CartItem) : JS.Number :=
  fold_left (fun total it => JS.add total (line_total it)) items JS.zero.

Definition getTotalPrice (cartItems : option (list CartItem)) : string :=
  match cartItems with
  | None => "0.00"
  | Some items => JS.toFixed (totalPrice items) 2
  end.

End Navbar.

(** ** Effects of the event handlers

    A handler talks to the mutation hooks, to [fetch], to the router and to
    the toaster.  Its embedding returns the effects it performs, in order,
    and how it completes: normally or by throwing, which models a rejected
    promise reaching an [await]. *)

(** The value thrown by [unwrap()] or by a failed [fetch]; the handlers read
    at most [error.data?.message]. *)
Record Error := {
  data_message : option string
}.

(** The body of a mutation's answer. *)
Record Response := {
  success : bool;
  message : option string
}.

Inductive MutationResult :=
| Fulfilled (response : Response)
| Rejected (error : Error).

(** A product as [/api/get-products-by-category] lists it. *)
Record CategoryProduct := {
  category_product_id : Z
}.

(** What [fetch(...).then((res) => res.json())] settles to: a rejection
    (the request failed, or the body is not JSON), or the parsed body, whose
    [products] may be missing. *)
Inductive FetchResult :=
| FetchRejected (error : Error)
| FetchJson (result_products : option (list CategoryProduct)).

(** The external collaborators. *)
Record Backend := {
  editProduct : string -> Z -> MutationResult;
  removeProduct : string -> Z -> MutationResult;
  getProductsByCategory : Z -> FetchResult
}.

Inductive Effect :=
| SetIsCheckingOut (value : bool)
| Fetch (categoryId : Z)
| EditProduct (id : string) (newQuantity : Z)
| RemoveProduct (id : string) (newQuantity : Z)
| Refetch
| ToastSuccess (msg : string)
| ToastError (msg : string)
| RouterPush (path : string)
| ConsoleLog
| ConsoleError (msg : string).

Inductive Completion (A : Type) :=
| Normal (value : A)
| Throw (error : Error).

Arguments Normal {A} value.
Arguments Throw {A} error.

Definition M (A : Type) : Type := list Effect * Completion A.

Definition ret {A} (a : A) : M A := ([], Normal a).

Definition bind {A B} (m : M A) (f : A -> M B) : M B :=
  match m with
  | (t, Normal a) => let '(t', r) := f a in (t ++ t', r)
  | (t, Throw e) => (t, Throw e)
  end.

Definition emit (e : Effect) : M unit := ([e], Normal tt).

Definition throw {A} (e : Error) : M A := ([], Throw e).

(** [try { m } catch (error) { handler(error) }] *)
Definition try_catch {A} (m : M A) (handler : Error -> M A) : M A :=
  match m with
  | (t, Throw e) => let '(t', r) := handler e in (t ++ t', r)
  | _ => m
  end.

Notation "x <- m ;; k" := (bind m (fun x => k))
  (at level 61, m at next level, right associativity).
Notation "m ;;; k" := (bind m (fun _ => k))
  (at level 61, right associativity).

Definition trace {A} (m : M A) : list Effect := fst m.

(** [value || fallback] on an optional string. *)
Definition or_default (value : option string) (fallback : string) : string :=
  match value with
  | None | Some EmptyString => fallback
  | Some s => s
  end.

(** ** First revision of the cart page *)

Module CartV1.

(** The mutation triggers are awaited without [unwrap()], so a failed
    mutation does not throw and the success toast always follows. *)
Definition handleIncrement (item : CartItem) : M unit :=
  let newQuantity := quantity item + 1 in
  emit (EditProduct (cart_id item) newQuantity) ;;;
  emit Refetch ;;;
  emit (ToastSuccess "Item quantity increased").

Definition handleRemove (item : CartItem) : M unit :=
  emit (RemoveProduct (cart_id item) 0) ;;;
  emit Refetch ;;;
  emit (ToastSuccess "Item removed from cart").

Definition handleDecrement (item : CartItem) : M unit :=
  if 1 <? quantity item then
    let newQuantity := quantity item - 1 in
    emit (EditProduct (cart_id item) newQuantity) ;;;
    emit Refetch ;;;
    emit (ToastSuccess "Item quantity decreased")
  else handleRemove item.

Definition requiredCount (content : MenuContent) : Z :=
  JS.or_zero_int (count content).

Definition reportedCount (content : MenuContent) : Z :=
  JS.or_zero_int (currentCount content).

Definition minimumMessage (required : Z) (group : string) (current : Z) : string :=
  ("Please select at least " ++ JS.Z_toString required ++ " " ++ group
   ++ " item" ++ (if (1 <? required)%Z then "s" else "")
   ++ ". You have selected " ++ JS.Z_toString current ++ ".")%string.

(** The [for] loop of [handleCheckout] and the navigation that follows it;
    [return] inside the loop leaves the handler. *)
Fixpoint for_contents (menuContents : list MenuContent) : M unit :=
  match menuContents with
  | [] => emit (RouterPush "/checkout")
  | content :: rest =>
      if reportedCount content <? requiredCount content then
        emit (ToastError (minimumMessage (requiredCount content) (name content)
                                         (reportedCount content)))
      else for_contents rest
  end.

Definition handleCheckout (cartData : CartData) : M unit :=
  for_contents (contents cartData).

End CartV1.

(** ** Second revision of the cart page *)

Module CartV2.

(** [.unwrap()]: the answer of a fulfilled mutation, or a throw. *)
Definition unwrap (r : MutationResult) : M Response :=
  match r with
  | Fulfilled response => ret response
  | Rejected error => throw error
  end.

Definition handleIncrement (backend : Backend) (item : CartItem) : M unit :=
  try_catch
    (let newQuantity := quantity item + 1 in
     response <- (emit (EditProduct (cart_id item) newQuantity) ;;;
                  unwrap (editProduct backend (cart_id item) newQuantity)) ;;
     emit Refetch ;;;
     emit ConsoleLog ;;;
     if success response then emit (ToastSuccess "Artikelmenge erhöht")
     else emit (ToastError "Fehler beim Erhöhen der Artikelmenge"))
    (fun error =>
       emit (ToastError (or_default (data_message error)
                                    "Fehler beim Erhöhen der Artikelmenge"))).

Definition handleRemove (backend : Backend) (item : CartItem) : M unit :=
  try_catch
    (response <- (emit (RemoveProduct (cart_id item) 0) ;;;
                  unwrap (removeProduct backend (cart_id item) 0)) ;;
     emit Refetch ;;;
     if success response then
       emit (ToastSuccess (or_default (message response)
                                      "Artikel aus dem Warenkorb entfernt"))
     else
       emit (ToastError (or_default (message response)
                                    "Fehler beim Entfernen des Artikels")))
    (fun error =>
       emit (ToastError (or_default (data_message error)
                                    "Fehler beim Entfernen des Artikels"))).

Definition handleDecrement (backend : Backend) (item : CartItem) : M unit :=
  if 1 <? quantity item then
    try_catch
      (let newQuantity := quantity item - 1 in
       response <- (emit (EditProduct (cart_id item) newQuantity) ;;;
                    unwrap (editProduct backend (cart_id item) newQuantity)) ;;
       emit Refetch ;;;
       if success response then emit (ToastSuccess "Artikelmenge verringert")
       else emit (ToastError "Fehler beim Verringern der Artikelmenge"))
      (fun error =>
         emit (ToastError (or_default (data_message error)
                                      "Fehler beim Verringern der Artikelmenge")))
  else handleRemove backend item.

(** [Promise.all]: the results in order, or the first rejection. *)
Fixpoint all_settled (results : list FetchResult)
  : Completion (list (option (list CategoryProduct))) :=
  match results with
  | [] => Normal []
  | FetchRejected error :: _ => Throw error
  | FetchJson result :: rest =>
      match all_settled rest with
      | Normal values => Normal (result :: values)
      | Throw error => Throw error
      end
  end.

(** [content.ids.map((id) => fetch(...))] starts one request per category,
    and [await Promise.all(productPromises)] waits for all of them. *)
Definition fetchCategories (backend : Backend) (categoryIds : list Z)
  : M (list (option (list CategoryProduct))) :=
  (map Fetch categoryIds,
   all_settled (map (getProductsByCategory backend) categoryIds)).

(** [results.reduce((acc, result) => result.products ? [...acc, ...result.products] : acc, [])] *)
Definition categoryProducts (results : list (option (list CategoryProduct)))
  : list CategoryProduct :=
  fold_left (fun acc result =>
               match result with
               | Some ps => acc ++ ps
               | None => acc
               end)
            results [].

(** [categoryProducts.some((p) => p.product_id.toString() === product.product_id.toString())] *)
Definition isInCategory (members : list CategoryProduct) (product : CartItem) : bool :=
  existsb (fun p => category_product_id p =? product_id product) members.

(** [cartData?.products?.reduce(...) || 0] *)
Definition currentCount (cartProducts : list CartItem)
           (members : list CategoryProduct) : Z :=
  let sum :=
    fold_left (fun sum product =>
                 if isInCategory members product then sum + quantity product
                 else sum)
              cartProducts 0 in
  if sum =? 0 then 0 else sum.

Definition requiredCount (content : MenuContent) : Z :=
  JS.or_zero_int (count content).

Definition minimumMessage (required : Z) (group : string) (current : Z) : string :=
  ("Bitte wählen Sie mindestens " ++ JS.Z_toString required ++ " " ++ group
   ++ " Artikel" ++ (if (1 <? required)%Z then "s" else "")
   ++ ". Sie haben " ++ JS.Z_toString current ++ " ausgewählt.")%string.

Definition validationFailedMessage : string :=
  "Fehler beim Validieren der Artikel im Warenkorb. Bitte versuchen Sie es erneut.".

(** The body of the [try] block: the [for] loop over the menu contents and
    the navigation that follows it; [return] inside the loop leaves the
    handler. *)
Fixpoint for_contents (backend : Backend) (cartData : CartData)
         (menuContents : list MenuContent) : M unit :=
  match menuContents with
  | [] => emit (RouterPush "/checkout")
  | content :: rest =>
      results <- fetchCategories backend (ids content) ;;
      let members := categoryProducts results in
      let required := requiredCount content in
      let current := currentCount (products cartData) members in
      if current <? required then
        emit (ToastError (minimumMessage required (name content) current)) ;;;
        emit (SetIsCheckingOut false)
      else for_contents backend cartData rest
  end.

Definition handleCheckout (backend : Backend) (cartData : CartData) : M unit :=
  emit (SetIsCheckingOut true) ;;;
  try_catch
    (for_contents backend cartData (contents cartData))
    (fun error =>
       emit (ConsoleError "Fehler beim Validieren der Artikel im Warenkorb:") ;;;
       emit (ToastError validationFailedMessage) ;;;
       emit (SetIsCheckingOut false)).

(** *** The checkout button

    [isCheckingOut] is a state of the page and the button carries
    [disabled={isCheckingOut}]: a click runs [handleCheckout] only while the
    state is [false].  The handler sets the state before it first suspends;
    its remaining effects happen later, one at a time, interleaved with
    other events of the page.  [pending] holds, for each attempt that has
    started and not finished, the effects it has yet to perform. *)

Record Page := {
  isCheckingOut : bool;
  pending : list (list Effect)
}.

Definition initial : Page := {| isCheckingOut := false; pending := [] |}.

Definition apply_effect (e : Effect) (flag : bool) : bool :=
  match e with
  | SetIsCheckingOut value => value
  | _ => flag
  end.

(** An attempt whose effects are exhausted is over. *)
Definition keep (rest : list Effect) : list (list Effect) :=
  match rest with
  | [] => []
  | _ => [rest]
  end.

Inductive step : Page -> Page -> Prop :=
| step_click (p : Page) (backend : Backend) (cartData : CartData)
             (first : Effect) (rest : list Effect) :
    isCheckingOut p = false ->
    trace (handleCheckout backend cartData) = first :: rest ->
    step p {| isCheckingOut := apply_effect first (isCheckingOut p);
              pending := pending p ++ keep rest |}
| step_resume (p : Page) (before after : list (list Effect))
              (next : Effect) (rest : list Effect) :
    pending p = before ++ (next :: rest) :: after ->
    step p {| isCheckingOut := apply_effect next (isCheckingOut p);
              pending := before ++ keep rest ++ after |}.

Inductive reachable : Page -> Prop :=
| reachable_initial : reachable initial
| reachable_step (p q : Page) : reachable p -> step p q -> reachable q.

End CartV2.

(** ** The specification's reading, for comparison

    The definitions of this module follow the words of the specification,
    not the source: they say what the claims expect, so that the source can
    be compared with them. *)

Module Spec.

(** "strips any non-numeric/non-separator characters": digits and the two
    separators are kept. *)
Definition is_price_char (c : ascii) : bool :=
  (JS.is_digit c || Ascii.eqb c "." || Ascii.eqb c ",")%bool.

Fixpoint strip (s : string) : string :=
  match s with
  | String c r => if is_price_char c then String c (strip r) else strip r
  | EmptyString => EmptyString
  end.

(** "normalizes a comma decimal separator to a dot" *)
Fixpoint comma_to_dot (s : string) : string :=
  match s with
  | String c r => String (if Ascii.eqb c "," then "."%char else c) (comma_to_dot r)
  | EmptyString => EmptyString
  end.

(** "yields 0.0 if the result is not a valid number" *)
Definition parsePrice (p : option string) : JS.Number :=
  match p with
  | None => JS.zero
  | Some s =>
      let x := JS.parseFloat (comma_to_dot (strip s)) in
      if JS.isNaN x then JS.zero else x
  end.

(** "Subtotal = sum over items of parsePrice(item.price) * item.quantity" *)
Definition subtotal (items : list CartItem) : JS.Number :=
  fold_left (fun sum it =>
               JS.add sum (JS.mul (parsePrice (price it)) (JS.of_Z (quantity it))))
            items JS.zero.

(** The cart query's answer for a cart that holds [items] only. *)
Definition cart_of (items : list CartItem) : CartData :=
  {| products := items; totals := []; contents := [] |}.

(** The subtotal claim, as stated, for the cart page and for the header. *)
Definition cart_subtotal_claim (items : list CartItem) : Prop :=
  Cart.subTotal (Cart.cartItems (cart_of items)) = subtotal items.

Definition header_total_claim (items : list CartItem) : Prop :=
  Navbar.totalPrice items = subtotal items.

(** The backend's total text, when there is one: [authoritativeTotalText]. *)
Definition authoritativeTotalText (cartData : CartData) : option string :=
  option_map text (Cart.totalItem cartData).

(** "parseCurrencyText": the specification reads the total's text as it
    reads a price, a currency sign and a comma or a dot as decimal separator
    being tolerated, so that "20,00 €" is 20.00; the result is [NaN] when
    the text does not parse. *)
Definition parseCurrencyText (t : string) : JS.Number :=
  JS.parseFloat (comma_to_dot (strip t)).

(** The total claim, as stated: the parsed text when it is present and
    parses to a number, the subtotal otherwise. *)
Definition total_claim (cartData : CartData) : Prop :=
  match authoritativeTotalText cartData with
  | Some t =>
      if JS.isNaN (parseCurrencyText t)
      then Cart.totalPrice cartData = Cart.subTotal (Cart.cartItems cartData)
      else Cart.totalPrice cartData = parseCurrencyText t
  | None => Cart.totalPrice cartData = Cart.subTotal (Cart.cartItems cartData)
  end.

(** "sum of quantities of every line item" of a list *)
Definition sum_quantities (items : list CartItem) : Z :=
  fold_right (fun it acc => quantity it + acc) 0 items.

(** The product identifiers of a membership list, and membership in it. *)
Definition memberProductIds (members : list CategoryProduct) : list Z :=
  map category_product_id members.

Definition is_member (members : list CategoryProduct) (it : CartItem) : bool :=
  if in_dec Z.eq_dec (product_id it) (memberProductIds members) then true else false.

End Spec.

(** ** Vocabulary of the statements *)

(** A sum taken from left to right, as [reduce] takes it. *)
Definition sum_in_order (values : list JS.Number) : JS.Number :=
  fold_left JS.add values JS.zero.

(** The price the header reads from an item: 0 when it is not a number. *)
Definition header_price (it : CartItem) : JS.Number :=
  let x := JS.parseFloat (Navbar.price_text it) in
  if JS.isNaN x then JS.zero else x.

(** The price the cart page reads from an item:
    [parseFloat(product.price || "0") || 0]. *)
Definition cart_price (it : CartItem) : JS.Number :=
  JS.or_zero (JS.parseFloat (JS.or_string_zero (price it))).

Definition all_digits (s : string) : bool :=
  forallb JS.is_digit (list_ascii_of_string s).

(** A text without digits, dots and commas, such as a currency sign with
    spaces around it. *)
Definition no_price_char (s : string) : bool :=
  forallb (fun c => negb (Spec.is_price_char c)) (list_ascii_of_string s).

(** The usual shape of a price text: digits, possibly a separator and more
    digits, then a text without digits and separators.  The separator is a
    dot, or a comma where [comma_allowed]. *)
Inductive price_form (comma_allowed : bool) : string -> Prop :=
| form_whole (ds suffix : string) :
    all_digits ds = true ->
    ds <> EmptyString ->
    no_price_char suffix = true ->
    price_form comma_allowed (ds ++ suffix)
| form_fraction (ds1 ds2 suffix : string) (sep : ascii) :
    all_digits ds1 = true ->
    all_digits ds2 = true ->
    (ds1 ++ ds2)%string <> EmptyString ->
    sep = "."%char \/ (comma_allowed = true /\ sep = ","%char) ->
    no_price_char suffix = true ->
    price_form comma_allowed (ds1 ++ String sep (ds2 ++ suffix)).

(** The price text of an item has this shape. *)
Definition priced_in_form (comma_allowed : bool) (it : CartItem) : Prop :=
  exists s, price it = Some s /\ price_form comma_allowed s.

Module CartV2Facts.

(** The membership list of a menu entry, when every lookup it needs
    settles with a body. *)
Definition members (backend : Backend) (content : MenuContent)
  : option (list CategoryProduct) :=
  match CartV2.all_settled (map (getProductsByCategory backend) (ids content)) with
  | Normal results => Some (CartV2.categoryProducts results)
  | Throw _ => None
  end.

(** The entry's lookups settle and its required count is met. *)
Definition passes (backend : Backend) (cartData : CartData)
           (content : MenuContent) : Prop :=
  exists ms, members backend content = Some ms
             /\ CartV2.requiredCount content <= CartV2.currentCount (products cartData) ms.

(** The requests made for a list of menu entries, in order. *)
Definition fetches (menuContents : list MenuContent) : list Effect :=
  map Fetch (flat_map ids menuContents).

(** The effects of the [catch] block. *)
Definition abort_effects : list Effect :=
  [ConsoleError "Fehler beim Validieren der Artikel im Warenkorb:";
   ToastError CartV2.validationFailedMessage;
   SetIsCheckingOut false].

(** A call of one of the two mutations. *)
Definition is_mutation (e : Effect) : bool :=
  match e with
  | EditProduct _ _ | RemoveProduct _ _ => true
  | _ => false
  end.

(** The three ways the loop can end. *)
Inductive loop_outcome : M unit -> Prop :=
| outcome_navigated (done : list MenuContent) :
    loop_outcome (fetches done ++ [RouterPush "/checkout"], Normal tt)
| outcome_unmet (done : list MenuContent) (required current : Z) (group : string) :
    loop_outcome
      (fetches done
         ++ [ToastError (CartV2.minimumMessage required group current);
             SetIsCheckingOut false],
       Normal tt)
| outcome_thrown (done : list MenuContent) (error : Error) :
    loop_outcome (fetches done, Throw error).

(** [SetIsCheckingOut false] occurs in [effects] at the last place only. *)
Definition enables_only_at_end (effects : list Effect) : Prop :=
  forall before after,
    effects = before ++ SetIsCheckingOut false :: after -> after = [].

End CartV2Facts.

Module CartV1Facts.

Definition passes (content : MenuContent) : Prop :=
  CartV1.requiredCount content <= CartV1.reportedCount content.

End CartV1Facts.

(** ** A sample cart

    The menu of the specification's example: two salads are required, from
    the products 1 and 2, and one dessert, product 3.  The salad products
    are listed under the categories 10 and 11, the dessert under 12; the
    lookup of any other category is rejected. *)

Module Example.

Definition line (product : Z) (priceText : string) (qty : Z) : CartItem :=
  {| product_id := product; cart_id := ("cart-" ++ JS.Z_toString product)%string;
     price := Some priceText; quantity := qty |}.

Definition salat : MenuContent :=
  {| name := "Salat"; count := Some 2; currentCount := Some 1; ids := [10; 11] |}.

Definition dessert : MenuContent :=
  {| name := "Dessert"; count := Some 1; currentCount := Some 0; ids := [12] |}.

(** An entry without a required count, whose category cannot be looked up. *)
Definition extras : MenuContent :=
  {| name := "Extras"; count := None; currentCount := None; ids := [99] |}.

(** An entry that requires one item and names no category. *)
Definition brot : MenuContent :=
  {| name := "Brot"; count := Some 1; currentCount := None; ids := [] |}.

(** An entry that requires nothing, with the salads of category 10 as
    members. *)
Definition beilage : MenuContent :=
  {| name := "Beilage"; count := Some 0; currentCount := Some 0; ids := [10] |}.


Definition cart (items : list CartItem) (totalEntries : list TotalEntry)
           (menu : list MenuContent) : CartData :=
  {| products := items; totals := totalEntries; contents := menu |}.

Definition accepted : MutationResult :=
  Fulfilled {| success := true; message := None |}.

Definition failure : Error := {| data_message := None |}.

Definition backend : Backend :=
  {| editProduct := fun _ _ => accepted;
     removeProduct := fun _ _ => accepted;
     getProductsByCategory := fun categoryId =>
       if categoryId =? 10 then FetchJson (Some [{| category_product_id := 1 |}])
       else if categoryId =? 11 then
         FetchJson (Some [{| category_product_id := 2 |};
                          {| category_product_id := 1 |}])
       else if categoryId =? 12 then
         FetchJson (Some [{| category_product_id := 3 |}])
       else FetchRejected failure |}.


(** The page after one click on the checkout button, with the request for
    the first menu entry under way. *)
Definition checking : CartV2.Page :=
  {| CartV2.isCheckingOut := true;
     CartV2.pending :=
       [[Fetch 10; Fetch 11; Fetch 12; RouterPush "/checkout"]] |}.

End Example.

(** ** A navigation entry of the header

    [NavItem] with a dropdown.  Its state is [isOpen]; [timeoutRef] holds the
    identifier of the timeout set last.  [timers] lists the timeouts that
    are scheduled and have neither fired nor been cleared, and [next_timer]
    is the identifier the next [setTimeout] returns (identifiers are
    positive, so a stored identifier is truthy). *)

Module NavItem.

Record State := {
  isOpen : bool;
  timeoutRef : option nat;
  timers : list nat;
  next_timer : nat
}.

Definition initial : State :=
  {| isOpen := false; timeoutRef := None; timers := []; next_timer := 1 |}.

(** [clearTimeout(id)]: without effect when [id] is not scheduled. *)
Definition clearTimeout (id : nat) (scheduled : list nat) : list nat :=
  filter (fun t => negb (Nat.eqb t id)) scheduled.

Definition handleMouseEnter (innerWidth : Z) (s : State) : State :=
  if 768 <? innerWidth then
    {| isOpen := true;
       timeoutRef := timeoutRef s;
       timers := match timeoutRef s with
                 | Some id => clearTimeout id (timers s)
                 | None => timers s
                 end;
       next_timer := next_timer s |}
  else s.

Definition handleMouseLeave (innerWidth : Z) (s : State) : State :=
  if 768 <? innerWidth then
    {| isOpen := isOpen s;
       timeoutRef := Some (next_timer s);
       timers := next_timer s :: timers s;
       next_timer := S (next_timer s) |}
  else s.

Definition handleClick (s : State) : State :=
  {| isOpen := negb (isOpen s);
     timeoutRef := timeoutRef s;
     timers := timers s;
     next_timer := next_timer s |}.

(** Where a [mousedown] lands: in the dropdown panel, which carries
    [dropdownRef], or anywhere else in the document; the title button is
    not part of the panel. *)
Inductive Target := InsidePanel | OutsidePanel.

Definition handleClickOutside (target : Target) (s : State) : State :=
  match target with
  | InsidePanel => s
  | OutsidePanel =>
      {| isOpen := false;
         timeoutRef := timeoutRef s;
         timers := timers s;
         next_timer := next_timer s |}
  end.

(** The callback of a timeout set by [handleMouseLeave] runs when the
    timeout is still scheduled. *)
Definition timeout_fires (id : nat) (s : State) : State :=
  if existsb (Nat.eqb id) (timers s) then
    {| isOpen := false;
       timeoutRef := timeoutRef s;
       timers := clearTimeout id (timers s);
       next_timer := next_timer s |}
  else s.

Inductive Event :=
| MouseEnter (innerWidth : Z)
| MouseLeave (innerWidth : Z)
| Click
| MouseDown (target : Target)
| TimeoutFires (id : nat).

Definition react (s : State) (e : Event) : State :=
  match e with
  | MouseEnter w => handleMouseEnter w s
  | MouseLeave w => handleMouseLeave w s
  | Click => handleClick s
  | MouseDown target => handleClickOutside target s
  | TimeoutFires id => timeout_fires id s
  end.

Definition run (events : list Event) (s : State) : State :=
  fold_left react events s.

(** The pointer enters and leaves the entry in turn, and the window is wide
    at each of these events; [inside] tells where the pointer is before the
    events. *)
Fixpoint hovers_on_wide_window (inside : bool) (events : list Event) : bool :=
  match events with
  | [] => true
  | MouseEnter w :: rest =>
      negb inside && (768 <? w) && hovers_on_wide_window true rest
  | MouseLeave w :: rest =>
      inside && (768 <? w) && hovers_on_wide_window false rest
  | _ :: rest => hovers_on_wide_window inside rest
  end.

(** Where the pointer is after the events. *)
Fixpoint pointer_inside (inside : bool) (events : list Event) : bool :=
  match events with
  | [] => inside
  | MouseEnter _ :: rest => pointer_inside true rest
  | MouseLeave _ :: rest => pointer_inside false rest
  | _ :: rest => pointer_inside inside rest
  end.

End NavItem.

(** ** Vocabulary of the further statements *)

Definition is_toast (e : Effect) : bool :=
  match e with
  | ToastSuccess _ | ToastError _ => true
  | _ => false
  end.

Definition is_success_toast (e : Effect) : bool :=
  match e with
  | ToastSuccess _ => true
  | _ => false
  end.

Definition is_refetch (e : Effect) : bool :=
  match e with
  | Refetch => true
  | _ => false
  end.

Definition is_fetch (e : Effect) : bool :=
  match e with
  | Fetch _ => true
  | _ => false
  end.

(** What the backend answers to a call of a mutation. *)
Definition answer (backend : Backend) (e : Effect) : option MutationResult :=
  match e with
  | EditProduct id q => Some (editProduct backend id q)
  | RemoveProduct id q => Some (removeProduct backend id q)
  | _ => None
  end.

(** The call is answered, whatever the answer says. *)
Definition fulfilled (backend : Backend) (e : Effect) : bool :=
  match answer backend e with
  | Some (Fulfilled _) => true
  | _ => false
  end.

(** The call is answered with [success: true]. *)
Definition accepted (backend : Backend) (e : Effect) : bool :=
  match answer backend e with
  | Some (Fulfilled response) => success response
  | _ => false
  end.

(** What a handler of a quantity change owes the user: one toast, a success
    toast exactly when the mutation was accepted, and a refetch exactly when
    the mutation was answered. *)
Definition feedback_matches (backend : Backend) (effects : list Effect) : Prop :=
  List.length (filter is_toast effects) = 1%nat
  /\ existsb is_success_toast effects = existsb (accepted backend) effects
  /\ existsb is_refetch effects = existsb (fulfilled backend) effects.

(** The value of [isCheckingOut] once all of [effects] have happened. *)
Definition flag_after (effects : list Effect) (flag : bool) : bool :=
  fold_left (fun f e => CartV2.apply_effect e f) effects flag.

(** The products an answer lists, none when [products] is missing. *)
Definition listed (result : option (list CategoryProduct)) : list CategoryProduct :=
  match result with
  | Some ps => ps
  | None => []
  end.

(** A cart that holds further lines behind those of [cartData]. *)
Definition with_more_items (cartData : CartData) (more : list CartItem) : CartData :=
  {| products := products cartData ++ more;
     totals := totals cartData;
     contents := contents cartData |}.

(** A number that [toFixed] prints in fixed notation: finite and below
    10^21 in magnitude. *)
Definition prints_fixed (x : JS.Number) : bool :=
  match x with
  | S754_zero _ => true
  | S754_finite _ m e => negb (JS.at_least_1e21 m e)
  | _ => false
  end.

(** A text without a comma. *)
Definition no_comma (s : string) : bool :=
  forallb (fun c => negb (Ascii.eqb c ",")) (list_ascii_of_string s).

(** Quantities for which the integers of the embedding are the numbers the
    code computes with: none negative, and their sum below 2^53, so that
    every sum of some of them, taken in any order, is exact in binary64. *)
Definition counts_exactly (items : list CartItem) : Prop :=
  Forall (fun it => 0 <= quantity it) items
  /\ Spec.sum_quantities items < 2 ^ 53.

(** The counts with the additions of the code's numbers.  The quantities
    and counts of the pages above are integers; the code adds them as
    binary64 numbers. *)
Module Binary64.

(** [getTotalItems] of the header. *)
Definition getTotalItems (cartItems : option (list CartItem)) : JS.Number :=
  match cartItems with
  | None => JS.zero
  | Some items =>
      fold_left (fun total it =>
                   let quantity := JS.of_Z (quantity it) in
                   JS.add total (if JS.isNaN quantity then JS.zero else quantity))
                items JS.zero
  end.

(** [cartData?.products?.reduce(...) || 0] of the second cart page. *)
Definition currentCount (cartProducts : list CartItem)
           (members : list CategoryProduct) : JS.Number :=
  JS.or_zero
    (fold_left (fun sum product =>
                  if CartV2.isInCategory members product
                  then JS.add sum (JS.of_Z (quantity product))
                  else sum)
               cartProducts JS.zero).

(** A mantissa with [k] zero bits appended. *)
Definition shifted (p : positive) (k : nat) : positive := Nat.iter k xO p.

(** The binary64 number of a positive integer below 2^53: its bits, filled
    up with zeros to the 53 bits of a mantissa. *)
Definition canonical (p : positive) : JS.Number :=
  S754_finite false
    (shifted p (Z.to_nat (53 - Zpos (digits2_pos p))))
    (Zpos (digits2_pos p) - 53).

End Binary64.




(** A text of blanks. *)
Definition all_blanks (s : string) : bool :=
  forallb (fun c => Ascii.eqb c " ") (list_ascii_of_string s).

(** A text without digits and dots. *)
Definition no_numeric_char (s : string) : bool :=
  forallb (fun c => negb (JS.is_digit c || Ascii.eqb c "."))
          (list_ascii_of_string s).

(** * Properties *)

(** ** The second revision's checkout loop, one entry at a time *)

Section CheckoutLoop.

Variable backend : Backend.
Variable cartData : CartData.

Lemma for_contents_rejected (g : MenuContent) (rest : list MenuContent) :
  CartV2Facts.members backend g = None ->
  exists error,
    CartV2.for_contents backend cartData (g :: rest)
    = (map Fetch (ids g), Throw error).
Proof.
  unfold CartV2Facts.members. intros H. cbn [CartV2.for_contents].
  unfold CartV2.fetchCategories, bind.
  destruct (CartV2.all_settled (map (getProductsByCategory backend) (ids g)))
    as [results | error]; [discriminate | ].
  now exists error.
Qed.

Lemma for_contents_unmet (g : MenuContent) (rest : list MenuContent)
      (ms : list CategoryProduct) :
  CartV2Facts.members backend g = Some ms ->
  CartV2.currentCount (products cartData) ms < CartV2.requiredCount g ->
  CartV2.for_contents backend cartData (g :: rest)
  = (map Fetch (ids g)
       ++ [ToastError (CartV2.minimumMessage (CartV2.requiredCount g) (name g)
                                             (CartV2.currentCount (products cartData) ms));
           SetIsCheckingOut false],
     Normal tt).
Proof.
  unfold CartV2Facts.members. intros H Hlt. cbn [CartV2.for_contents].
  unfold CartV2.fetchCategories, bind.
  destruct (CartV2.all_settled (map (getProductsByCategory backend) (ids g)))
    as [results | error]; [ | discriminate].
  injection H as <-.
  apply Z.ltb_lt in Hlt. rewrite Hlt. reflexivity.
Qed.

Lemma for_contents_met (g : MenuContent) (rest : list MenuContent)
      (ms : list CategoryProduct) :
  CartV2Facts.members backend g = Some ms ->
  CartV2.requiredCount g <= CartV2.currentCount (products cartData) ms ->
  CartV2.for_contents backend cartData (g :: rest)
  = (map Fetch (ids g) ++ fst (CartV2.for_contents backend cartData rest),
     snd (CartV2.for_contents backend cartData rest)).
Proof.
  unfold CartV2Facts.members. intros H Hle. cbn [CartV2.for_contents].
  unfold CartV2.fetchCategories, bind.
  destruct (CartV2.all_settled (map (getProductsByCategory backend) (ids g)))
    as [results | error]; [ | discriminate].
  injection H as <-.
  apply Z.ltb_ge in Hle. rewrite Hle.
  now destruct (CartV2.for_contents backend cartData rest).
Qed.

Lemma fetches_cons (g : MenuContent) (rest : list MenuContent) :
  CartV2Facts.fetches (g :: rest) = map Fetch (ids g) ++ CartV2Facts.fetches rest.
Proof. unfold CartV2Facts.fetches. cbn [flat_map]. now rewrite map_app. Qed.

Lemma fetches_app (l1 l2 : list MenuContent) :
  CartV2Facts.fetches (l1 ++ l2) = CartV2Facts.fetches l1 ++ CartV2Facts.fetches l2.
Proof. unfold CartV2Facts.fetches. now rewrite flat_map_app, map_app. Qed.

(** Entries that pass are walked through: their requests are made and the
    loop goes on with the entries behind them. *)
Lemma for_contents_passing (pre rest : list MenuContent) :
  Forall (CartV2Facts.passes backend cartData) pre ->
  CartV2.for_contents backend cartData (pre ++ rest)
  = (CartV2Facts.fetches pre ++ fst (CartV2.for_contents backend cartData rest),
     snd (CartV2.for_contents backend cartData rest)).
Proof.
  induction 1 as [ | g pre [ms [Hms Hle]] _ IH].
  - cbn. now destruct (CartV2.for_contents backend cartData rest).
  - cbn [app]. rewrite (for_contents_met g (pre ++ rest) ms Hms Hle), IH.
    cbn [fst snd]. now rewrite fetches_cons, app_assoc.
Qed.

Lemma for_contents_outcome (menuContents : list MenuContent) :
  CartV2Facts.loop_outcome (CartV2.for_contents backend cartData menuContents).
Proof.
  induction menuContents as [ | g rest IH].
  - apply (CartV2Facts.outcome_navigated []).
  - destruct (CartV2Facts.members backend g) as [ms | ] eqn:Hms.
    + destruct (Z_lt_le_dec (CartV2.currentCount (products cartData) ms) (CartV2.requiredCount g)) as [Hlt | Hle].
      * rewrite (for_contents_unmet g rest ms Hms Hlt).
        replace (map Fetch (ids g)) with (CartV2Facts.fetches [g])
          by (unfold CartV2Facts.fetches; cbn; now rewrite app_nil_r).
        apply CartV2Facts.outcome_unmet.
      * rewrite (for_contents_met g rest ms Hms Hle).
        remember (CartV2.for_contents backend cartData rest) as r eqn:Hr.
        destruct IH as [done | done required current group | done error];
          cbn [fst snd]; try rewrite app_assoc; rewrite <- fetches_cons.
        -- apply CartV2Facts.outcome_navigated.
        -- apply CartV2Facts.outcome_unmet.
        -- apply CartV2Facts.outcome_thrown.
    + destruct (for_contents_rejected g rest Hms) as [error ->].
      replace (map Fetch (ids g)) with (CartV2Facts.fetches [g])
        by (unfold CartV2Facts.fetches; cbn; now rewrite app_nil_r).
      apply CartV2Facts.outcome_thrown.
Qed.

End CheckoutLoop.

(** ** The checkout handler as a whole *)

Lemma handleCheckout_normal (backend : Backend) (cartData : CartData)
      (effects : list Effect) :
  CartV2.for_contents backend cartData (contents cartData) = (effects, Normal tt) ->
  CartV2.handleCheckout backend cartData
  = (SetIsCheckingOut true :: effects, Normal tt).
Proof.
  intros H. unfold CartV2.handleCheckout. rewrite H. reflexivity.
Qed.

Lemma handleCheckout_thrown (backend : Backend) (cartData : CartData)
      (effects : list Effect) (error : Error) :
  CartV2.for_contents backend cartData (contents cartData) = (effects, Throw error) ->
  CartV2.handleCheckout backend cartData
  = (SetIsCheckingOut true :: effects ++ CartV2Facts.abort_effects, Normal tt).
Proof.
  intros H. unfold CartV2.handleCheckout. rewrite H. reflexivity.
Qed.

Lemma not_in_fetches (e : Effect) (l : list MenuContent) :
  (forall c, e <> Fetch c) -> ~ In e (CartV2Facts.fetches l).
Proof.
  intros Hne Hin. unfold CartV2Facts.fetches in Hin.
  apply in_map_iff in Hin. destruct Hin as [c [Hc _]].
  now apply (Hne c).
Qed.

Lemma navigation_needs_all_passing (backend : Backend) (cartData : CartData)
      (menuContents : list MenuContent) (path : string) :
  In (RouterPush path) (fst (CartV2.for_contents backend cartData menuContents)) ->
  Forall (CartV2Facts.passes backend cartData) menuContents.
Proof.
  induction menuContents as [ | g rest IH]; intros Hin; [constructor | ].
  assert (Hfetch : ~ In (RouterPush path) (map Fetch (ids g))).
  { intros H. apply in_map_iff in H. destruct H as [c [Hc _]]. discriminate. }
  destruct (CartV2Facts.members backend g) as [ms | ] eqn:Hms.
  - destruct (Z_lt_le_dec (CartV2.currentCount (products cartData) ms)
                          (CartV2.requiredCount g)) as [Hlt | Hle].
    + rewrite (for_contents_unmet backend cartData g rest ms Hms Hlt) in Hin.
      cbn [fst] in Hin. apply in_app_or in Hin. destruct Hin as [Hin | Hin].
      * contradiction.
      * cbn in Hin. destruct Hin as [Hin | [Hin | []]]; discriminate.
    + rewrite (for_contents_met backend cartData g rest ms Hms Hle) in Hin.
      cbn [fst] in Hin. apply in_app_or in Hin. destruct Hin as [Hin | Hin].
      * contradiction.
      * constructor; [now exists ms | now apply IH].
  - destruct (for_contents_rejected backend cartData g rest Hms) as [error Heq].
    rewrite Heq in Hin. contradiction.
Qed.

(** The first revision's loop, one entry at a time. *)
Lemma v1_for_contents_passing (pre rest : list MenuContent) :
  Forall CartV1Facts.passes pre ->
  CartV1.for_contents (pre ++ rest) = CartV1.for_contents rest.
Proof.
  induction 1 as [ | g pre Hg _ IH]; [reflexivity | ].
  cbn [app CartV1.for_contents]. unfold CartV1Facts.passes in Hg.
  apply Z.ltb_ge in Hg. now rewrite Hg.
Qed.

Lemma v1_navigation_needs_all_passing (menuContents : list MenuContent)
      (path : string) :
  In (RouterPush path) (fst (CartV1.for_contents menuContents)) ->
  Forall CartV1Facts.passes menuContents.
Proof.
  induction menuContents as [ | g rest IH]; intros Hin; [constructor | ].
  cbn [CartV1.for_contents] in Hin.
  destruct (CartV1.reportedCount g <? CartV1.requiredCount g) eqn:Hlt.
  - cbn in Hin. destruct Hin as [Hin | []]. discriminate.
  - constructor; [ | now apply IH]. now apply Z.ltb_ge in Hlt.
Qed.

(** C3.  [handleCheckout] walks the menu entries in their order.  When the
    entries before [g] all meet their required count and [g] does not, it
    reports [g] and stops: it asks for the products of the entries up to [g]
    only, shows the message built from [g]'s name, required count and
    current count, and never looks at the entries behind [g], whatever they
    are.  It navigates to the checkout exactly when every entry meets its
    required count.  Both revisions of the page behave this way; the first
    reads the current count the backend reports instead of computing it. *)
Theorem checkout_reports_first_unmet_group
        (backend : Backend) (cartData : CartData) :
  (forall pre g post ms,
      contents cartData = pre ++ g :: post ->
      Forall (CartV2Facts.passes backend cartData) pre ->
      CartV2Facts.members backend g = Some ms ->
      CartV2.currentCount (products cartData) ms < CartV2.requiredCount g ->
      CartV2.handleCheckout backend cartData
      = (SetIsCheckingOut true
           :: CartV2Facts.fetches (pre ++ [g])
           ++ [ToastError
                 (CartV2.minimumMessage (CartV2.requiredCount g) (name g)
                    (CartV2.currentCount (products cartData) ms));
               SetIsCheckingOut false],
         Normal tt))
  /\ (In (RouterPush "/checkout") (trace (CartV2.handleCheckout backend cartData))
      <-> Forall (CartV2Facts.passes backend cartData) (contents cartData))
  /\ (forall pre g post,
         contents cartData = pre ++ g :: post ->
         Forall CartV1Facts.passes pre ->
         CartV1.reportedCount g < CartV1.requiredCount g ->
         CartV1.handleCheckout cartData
         = ([ToastError
               (CartV1.minimumMessage (CartV1.requiredCount g) (name g)
                  (CartV1.reportedCount g))],
            Normal tt))
  /\ (In (RouterPush "/checkout") (trace (CartV1.handleCheckout cartData))
      <-> Forall CartV1Facts.passes (contents cartData)).
Proof.
  repeat split.
  - intros pre g post ms Hsplit Hpre Hms Hlt.
    apply handleCheckout_normal. rewrite Hsplit.
    rewrite (for_contents_passing backend cartData pre (g :: post) Hpre).
    rewrite (for_contents_unmet backend cartData g post ms Hms Hlt).
    cbn [fst snd]. rewrite fetches_app.
    replace (CartV2Facts.fetches [g]) with (map Fetch (ids g))
      by (unfold CartV2Facts.fetches; cbn; now rewrite app_nil_r).
    now rewrite <- app_assoc.
  - intros Hin. unfold trace in Hin.
    destruct (CartV2.for_contents backend cartData (contents cartData))
      as [effects [[] | error]] eqn:Hloop.
    + rewrite (handleCheckout_normal backend cartData effects Hloop) in Hin.
      cbn [fst] in Hin. destruct Hin as [Hin | Hin]; [discriminate | ].
      apply (navigation_needs_all_passing backend cartData _ "/checkout").
      now rewrite Hloop.
    + rewrite (handleCheckout_thrown backend cartData effects error Hloop) in Hin.
      cbn [fst] in Hin. destruct Hin as [Hin | Hin]; [discriminate | ].
      apply in_app_or in Hin. destruct Hin as [Hin | Hin].
      * apply (navigation_needs_all_passing backend cartData _ "/checkout").
        now rewrite Hloop.
      * cbn in Hin. destruct Hin as [Hin | [Hin | [Hin | []]]]; discriminate.
  - intros Hall. unfold trace.
    pose proof (for_contents_passing backend cartData (contents cartData) [] Hall)
      as Hloop.
    rewrite app_nil_r in Hloop. cbn [CartV2.for_contents emit fst snd] in Hloop.
    rewrite (handleCheckout_normal backend cartData _ Hloop).
    cbn [fst]. right. apply in_or_app. right. now left.
  - intros pre g post Hsplit Hpre Hlt.
    unfold CartV1.handleCheckout. rewrite Hsplit.
    rewrite (v1_for_contents_passing pre (g :: post) Hpre).
    cbn [CartV1.for_contents]. apply Z.ltb_lt in Hlt. now rewrite Hlt.
  - intros Hin. unfold trace, CartV1.handleCheckout in Hin.
    now apply (v1_navigation_needs_all_passing _ "/checkout").
  - intros Hall. unfold trace, CartV1.handleCheckout.
    pose proof (v1_for_contents_passing (contents cartData) [] Hall) as Hloop.
    rewrite app_nil_r in Hloop. rewrite Hloop. now left.
Qed.

(** With one salad of each kind in the cart the salad entry passes and the
    dessert entry is the one reported; the entry behind it, whose lookup
    would be rejected, is not looked at. *)
Lemma checkout_reports_first_unmet_group_witness :
  CartV2.handleCheckout Example.backend
    (Example.cart [Example.line 1 "4.50" 1; Example.line 2 "5.00" 1] []
                  [Example.salat; Example.dessert; Example.extras])
  = ([SetIsCheckingOut true; Fetch 10; Fetch 11; Fetch 12;
      ToastError
        "Bitte wählen Sie mindestens 1 Dessert Artikel. Sie haben 0 ausgewählt.";
      SetIsCheckingOut false],
     Normal tt).
Proof.
  refine (proj1 (checkout_reports_first_unmet_group
                   Example.backend
                   (Example.cart [Example.line 1 "4.50" 1; Example.line 2 "5.00" 1]
                                 [] [Example.salat; Example.dessert; Example.extras]))
                [Example.salat] Example.dessert [Example.extras]
                [{| category_product_id := 3 |}] eq_refl _ eq_refl _).
  - constructor; [ | constructor].
    exists [{| category_product_id := 1 |}; {| category_product_id := 2 |};
            {| category_product_id := 1 |}].
    split; [reflexivity | vm_compute; discriminate].
  - vm_compute. reflexivity.
Defined.

(** ** Counting the items of a menu entry *)

Lemma isInCategory_is_member (ms : list CategoryProduct) (it : CartItem) :
  CartV2.isInCategory ms it = Spec.is_member ms it.
Proof.
  unfold CartV2.isInCategory, Spec.is_member, Spec.memberProductIds.
  destruct (in_dec Z.eq_dec (product_id it) (map category_product_id ms))
    as [Hin | Hout].
  - apply existsb_exists. apply in_map_iff in Hin.
    destruct Hin as [p [Hp Hin]]. exists p. split; [exact Hin | ].
    now apply Z.eqb_eq.
  - apply not_true_is_false. intros H. apply existsb_exists in H.
    destruct H as [p [Hin Hp]]. apply Z.eqb_eq in Hp.
    apply Hout. apply in_map_iff. now exists p.
Qed.

Lemma count_fold (ms : list CategoryProduct) (items : list CartItem) (acc : Z) :
  fold_left (fun sum product =>
               if CartV2.isInCategory ms product then sum + quantity product
               else sum)
            items acc
  = acc + Spec.sum_quantities (filter (Spec.is_member ms) items).
Proof.
  revert acc. induction items as [ | it items IH]; intros acc; cbn [fold_left filter].
  - cbn. lia.
  - rewrite IH, isInCategory_is_member.
    destruct (Spec.is_member ms it); cbn [Spec.sum_quantities fold_right];
      fold (Spec.sum_quantities (filter (Spec.is_member ms) items)); lia.
Qed.

Lemma currentCount_sum (items : list CartItem) (ms : list CategoryProduct) :
  CartV2.currentCount items ms
  = Spec.sum_quantities (filter (Spec.is_member ms) items).
Proof.
  unfold CartV2.currentCount. rewrite count_fold.
  destruct (0 + Spec.sum_quantities (filter (Spec.is_member ms) items) =? 0) eqn:H.
  - apply Z.eqb_eq in H. lia.
  - lia.
Qed.

Lemma currentCount_nonnegative (items : list CartItem) (ms : list CategoryProduct) :
  Forall (fun it => 0 <= quantity it) items ->
  0 <= CartV2.currentCount items ms.
Proof.
  intros Hall. rewrite currentCount_sum.
  induction Hall as [ | it items Hit _ IH]; cbn [filter]; [cbn; lia | ].
  destruct (Spec.is_member ms it); [ | exact IH].
  cbn [Spec.sum_quantities fold_right].
  fold (Spec.sum_quantities (filter (Spec.is_member ms) items)). lia.
Qed.

(** C4.  The current count of a menu entry is the sum of the quantities of
    exactly those cart items whose product is among the entry's members,
    however often a product is listed.  An item whose product is not among
    them changes no count.  Without members the count is 0, and an entry
    that is reached with no members and a positive required count is
    reported with current count 0. *)
Theorem currentCount_counts_member_items :
  (forall (items : list CartItem) (ms : list CategoryProduct),
      CartV2.currentCount items ms
      = Spec.sum_quantities (filter (Spec.is_member ms) items))
  /\ (forall (before after : list CartItem) (it : CartItem)
             (ms : list CategoryProduct),
         ~ In (product_id it) (Spec.memberProductIds ms) ->
         CartV2.currentCount (before ++ it :: after) ms
         = CartV2.currentCount (before ++ after) ms)
  /\ (forall items : list CartItem, CartV2.currentCount items [] = 0)
  /\ (forall (backend : Backend) (cartData : CartData)
             (pre post : list MenuContent) (g : MenuContent),
         contents cartData = pre ++ g :: post ->
         Forall (CartV2Facts.passes backend cartData) pre ->
         CartV2Facts.members backend g = Some [] ->
         0 < CartV2.requiredCount g ->
         CartV2.handleCheckout backend cartData
         = (SetIsCheckingOut true
              :: CartV2Facts.fetches (pre ++ [g])
              ++ [ToastError
                    (CartV2.minimumMessage (CartV2.requiredCount g) (name g) 0);
                  SetIsCheckingOut false],
            Normal tt)).
Proof.
  assert (Hempty : forall items, CartV2.currentCount items [] = 0).
  { intros items. rewrite currentCount_sum.
    induction items as [ | it items IH]; [reflexivity | exact IH]. }
  repeat split.
  - apply currentCount_sum.
  - intros before after it ms Hout. rewrite !currentCount_sum, !filter_app.
    cbn [filter]. unfold Spec.is_member at 2.
    destruct (in_dec Z.eq_dec (product_id it) (Spec.memberProductIds ms));
      [contradiction | reflexivity].
  - exact Hempty.
  - intros backend cartData pre post g Hsplit Hpre Hms Hpos.
    apply handleCheckout_normal. rewrite Hsplit.
    rewrite (for_contents_passing backend cartData pre (g :: post) Hpre).
    rewrite (for_contents_unmet backend cartData g post [] Hms)
      by (rewrite Hempty; exact Hpos).
    cbn [fst snd]. rewrite Hempty, fetches_app.
    replace (CartV2Facts.fetches [g]) with (map Fetch (ids g))
      by (unfold CartV2Facts.fetches; cbn; now rewrite app_nil_r).
    now rewrite <- app_assoc.
Qed.

(** An entry that names no category has no members: with bread required and
    none selectable, the bread entry is reported with a count of 0. *)
Lemma currentCount_counts_member_items_witness :
  CartV2.handleCheckout Example.backend
    (Example.cart [Example.line 1 "4.50" 2] [] [Example.salat; Example.brot])
  = ([SetIsCheckingOut true; Fetch 10; Fetch 11;
      ToastError
        "Bitte wählen Sie mindestens 1 Brot Artikel. Sie haben 0 ausgewählt.";
      SetIsCheckingOut false],
     Normal tt).
Proof.
  refine (proj2 (proj2 (proj2 currentCount_counts_member_items))
                Example.backend
                (Example.cart [Example.line 1 "4.50" 2] []
                              [Example.salat; Example.brot])
                [Example.salat] [] Example.brot eq_refl _ eq_refl _).
  - constructor; [ | constructor].
    exists [{| category_product_id := 1 |}; {| category_product_id := 2 |};
            {| category_product_id := 1 |}].
    split; [reflexivity | vm_compute; discriminate].
  - vm_compute. reflexivity.
Defined.

(** ** Entries that require nothing *)

(** C7.  A menu entry whose required count is 0 is never the entry that is
    reported: with the cart's quantities not negative, as the data model has
    them, its check does not fire whatever its members are, and the loop
    goes on with the entries behind it as soon as its lookups have settled.
    In the first revision the same holds when the count the backend reports
    is not negative. *)
Theorem zero_required_group_always_passes
        (cartData : CartData) (g : MenuContent) :
  Forall (fun it => 0 <= quantity it) (products cartData) ->
  CartV2.requiredCount g = 0 ->
  (forall ms : list CategoryProduct,
      (CartV2.currentCount (products cartData) ms <? CartV2.requiredCount g)
      = false)
  /\ (forall (backend : Backend) (rest : list MenuContent),
         CartV2.for_contents backend cartData (g :: rest)
         = (CartV2.fetchCategories backend (ids g) ;;;
            CartV2.for_contents backend cartData rest))
  /\ (forall rest : list MenuContent,
         0 <= CartV1.reportedCount g ->
         CartV1.for_contents (g :: rest) = CartV1.for_contents rest).
Proof.
  intros Hall Hzero.
  assert (Hcheck : forall ms,
             (CartV2.currentCount (products cartData) ms
              <? CartV2.requiredCount g) = false).
  { intros ms. apply Z.ltb_ge. rewrite Hzero.
    now apply currentCount_nonnegative. }
  repeat split.
  - exact Hcheck.
  - intros backend rest. cbn [CartV2.for_contents]. unfold bind.
    destruct (CartV2.fetchCategories backend (ids g)) as [effects [results | error]];
      [ | reflexivity].
    now rewrite Hcheck.
  - intros rest Hreported. cbn [CartV1.for_contents].
    replace (CartV1.requiredCount g) with 0 by (symmetry; exact Hzero).
    apply Z.ltb_ge in Hreported. now rewrite Hreported.
Qed.

(** The entry that requires nothing has the salads as members, its lookup
    settles, and the cart holds no salad: its check does not fire, the walk
    goes on to the dessert entry, which is met, and the attempt navigates.
    An entry that required a salad would be reported here. *)
Lemma zero_required_group_always_passes_witness :
  (CartV2.currentCount [Example.line 3 "3.00" 1] [{| category_product_id := 1 |}]
   <? CartV2.requiredCount Example.beilage) = false
  /\ CartV2.for_contents Example.backend
       (Example.cart [Example.line 3 "3.00" 1] [] [])
       [Example.beilage; Example.dessert]
     = (CartV2.fetchCategories Example.backend [10] ;;;
        CartV2.for_contents Example.backend
          (Example.cart [Example.line 3 "3.00" 1] [] []) [Example.dessert])
  /\ CartV2.for_contents Example.backend
       (Example.cart [Example.line 3 "3.00" 1] [] [])
       [Example.beilage; Example.dessert]
     = ([Fetch 10; Fetch 12; RouterPush "/checkout"], Normal tt)
  /\ CartV1.for_contents [Example.beilage; Example.dessert]
     = CartV1.for_contents [Example.dessert].
Proof.
  assert (Hq : Forall (fun it => 0 <= quantity it)
                      (products (Example.cart [Example.line 3 "3.00" 1] [] []))).
  { constructor; [cbn; lia | constructor]. }
  pose proof (zero_required_group_always_passes
                (Example.cart [Example.line 3 "3.00" 1] [] [])
                Example.beilage Hq eq_refl) as [H1 [H2 H3]].
  split; [exact (H1 [{| category_product_id := 1 |}]) | ].
  split; [exact (H2 Example.backend [Example.dessert]) | ].
  split; [exact (eq_trans (H2 Example.backend [Example.dessert]) eq_refl) | ].
  apply (H3 [Example.dessert]). cbn. lia.
Defined.

(** ** Changing a quantity *)

Lemma handleIncrement_trace (backend : Backend) (item : CartItem) :
  exists tail,
    trace (CartV2.handleIncrement backend item)
    = EditProduct (cart_id item) (quantity item + 1) :: tail
    /\ filter CartV2Facts.is_mutation tail = [].
Proof.
  unfold CartV2.handleIncrement, trace, CartV2.unwrap.
  destruct (editProduct backend (cart_id item) (quantity item + 1))
    as [[[] msg] | error]; cbn; eexists; split; reflexivity.
Qed.

Lemma handleRemove_trace (backend : Backend) (item : CartItem) :
  exists tail,
    trace (CartV2.handleRemove backend item)
    = RemoveProduct (cart_id item) 0 :: tail
    /\ filter CartV2Facts.is_mutation tail = [].
Proof.
  unfold CartV2.handleRemove, trace, CartV2.unwrap.
  destruct (removeProduct backend (cart_id item) 0)
    as [[[] msg] | error]; cbn; eexists; split; reflexivity.
Qed.

Lemma handleDecrement_trace (backend : Backend) (item : CartItem) :
  1 < quantity item ->
  exists tail,
    trace (CartV2.handleDecrement backend item)
    = EditProduct (cart_id item) (quantity item - 1) :: tail
    /\ filter CartV2Facts.is_mutation tail = [].
Proof.
  intros Hq. unfold CartV2.handleDecrement, trace, CartV2.unwrap.
  apply Z.ltb_lt in Hq. rewrite Hq.
  destruct (editProduct backend (cart_id item) (quantity item - 1))
    as [[[] msg] | error]; cbn; eexists; split; reflexivity.
Qed.

Lemma handleDecrement_removes (backend : Backend) (item : CartItem) :
  quantity item <= 1 ->
  CartV2.handleDecrement backend item = CartV2.handleRemove backend item.
Proof.
  intros Hq. unfold CartV2.handleDecrement.
  apply Z.ltb_ge in Hq. now rewrite Hq.
Qed.

Lemma not_in_without_mutation (e : Effect) (tail : list Effect) :
  CartV2Facts.is_mutation e = true ->
  filter CartV2Facts.is_mutation tail = [] ->
  ~ In e tail.
Proof.
  intros He Hnone Hin.
  assert (Hf : In e (filter CartV2Facts.is_mutation tail))
    by (apply filter_In; now split).
  now rewrite Hnone in Hf.
Qed.

(** C5.  Incrementing an item sends exactly its quantity plus one to the
    edit-quantity mutation.  Decrementing an item of quantity above 1 sends
    its quantity minus one.  Decrementing an item of quantity 1 is the
    removal of the item: the handler does what [handleRemove] does and calls
    the remove mutation only.  For an item of the cart, whose quantity is at
    least 1, no handler ever sends the quantity 0 to the edit-quantity
    mutation. *)
Theorem quantity_changes_sent (backend : Backend) (item : CartItem) :
  filter CartV2Facts.is_mutation (trace (CartV2.handleIncrement backend item))
  = [EditProduct (cart_id item) (quantity item + 1)]
  /\ (1 < quantity item ->
      filter CartV2Facts.is_mutation (trace (CartV2.handleDecrement backend item))
      = [EditProduct (cart_id item) (quantity item - 1)])
  /\ (quantity item = 1 ->
      CartV2.handleDecrement backend item = CartV2.handleRemove backend item
      /\ filter CartV2Facts.is_mutation
                (trace (CartV2.handleDecrement backend item))
         = [RemoveProduct (cart_id item) 0])
  /\ (1 <= quantity item ->
      forall id : string,
        ~ In (EditProduct id 0) (trace (CartV2.handleIncrement backend item))
        /\ ~ In (EditProduct id 0) (trace (CartV2.handleDecrement backend item))
        /\ ~ In (EditProduct id 0) (trace (CartV2.handleRemove backend item))).
Proof.
  destruct (handleIncrement_trace backend item) as [ti [Hi Hti]].
  destruct (handleRemove_trace backend item) as [tr [Hr Htr]].
  assert (Hremove : forall id,
             ~ In (EditProduct id 0) (trace (CartV2.handleRemove backend item))).
  { intros id Hin. rewrite Hr in Hin. destruct Hin as [Hin | Hin];
      [discriminate | ].
    now apply (not_in_without_mutation (EditProduct id 0) tr). }
  split; [ | split; [ | split]].
  - rewrite Hi. cbn. now rewrite Hti.
  - intros Hq. destruct (handleDecrement_trace backend item Hq) as [td [Hd Htd]].
    rewrite Hd. cbn. now rewrite Htd.
  - intros Hq. split.
    + apply handleDecrement_removes. lia.
    + rewrite handleDecrement_removes by lia. rewrite Hr. cbn. now rewrite Htr.
  - intros Hq id. split; [ | split].
    + intros Hin. rewrite Hi in Hin. destruct Hin as [Hin | Hin].
      * injection Hin as _ Hzero. lia.
      * now apply (not_in_without_mutation (EditProduct id 0) ti).
    + destruct (Z_lt_le_dec 1 (quantity item)) as [Hgt | Hle].
      * destruct (handleDecrement_trace backend item Hgt) as [td [Hd Htd]].
        intros Hin. rewrite Hd in Hin. destruct Hin as [Hin | Hin].
        -- injection Hin as _ Hzero. lia.
        -- now apply (not_in_without_mutation (EditProduct id 0) td).
      * rewrite handleDecrement_removes by exact Hle. apply Hremove.
    + apply Hremove.
Qed.

(** Decrementing the last salad removes it, and increments and decrements
    of a cart item never carry the quantity 0. *)
Lemma quantity_changes_sent_witness :
  (CartV2.handleDecrement Example.backend (Example.line 1 "4.50" 1)
   = CartV2.handleRemove Example.backend (Example.line 1 "4.50" 1)
   /\ filter CartV2Facts.is_mutation
        (trace (CartV2.handleDecrement Example.backend (Example.line 1 "4.50" 1)))
      = [RemoveProduct "cart-1" 0])
  /\ filter CartV2Facts.is_mutation
       (trace (CartV2.handleDecrement Example.backend (Example.line 1 "4.50" 3)))
     = [EditProduct "cart-1" 2]
  /\ ~ In (EditProduct "cart-1" 0)
          (trace (CartV2.handleIncrement Example.backend (Example.line 1 "4.50" 1))).
Proof.
  split; [ | split].
  - exact (proj1 (proj2 (proj2 (quantity_changes_sent
                                  Example.backend (Example.line 1 "4.50" 1))))
                 eq_refl).
  - refine (proj1 (proj2 (quantity_changes_sent
                            Example.backend (Example.line 1 "4.50" 3))) _).
    cbn. lia.
  - refine (proj1 (proj2 (proj2 (proj2 (quantity_changes_sent
                                          Example.backend
                                          (Example.line 1 "4.50" 1))))
                         _ "cart-1"%string)).
    cbn. lia.
Defined.

(** ** A failed lookup *)








(** ** One checkout attempt at a time *)

Lemma last_place_only (x : Effect) (pre before after : list Effect) :
  ~ In x pre ->
  pre ++ [x] = before ++ x :: after ->
  after = [].
Proof.
  revert before. induction pre as [ | y pre IH]; intros before Hout Heq.
  - destruct before as [ | b before]; cbn in Heq.
    + now injection Heq as <-.
    + injection Heq as _ Heq. now destruct before.
  - destruct before as [ | b before]; cbn in Heq.
    + injection Heq as Hy _. exfalso. apply Hout. now left.
    + injection Heq as _ Heq. apply (IH before); [ | exact Heq].
      intros Hin. apply Hout. now right.
Qed.

Lemma absent_enables_only_at_end (effects : list Effect) :
  ~ In (SetIsCheckingOut false) effects ->
  CartV2Facts.enables_only_at_end effects.
Proof.
  intros Hout before after Heq. exfalso. apply Hout. rewrite Heq.
  apply in_or_app. right. now left.
Qed.

(** What follows [setIsCheckingOut(true)] in an attempt is not empty and
    enables the button at its very end, if at all. *)
Lemma handleCheckout_shape (backend : Backend) (cartData : CartData) :
  exists rest,
    trace (CartV2.handleCheckout backend cartData) = SetIsCheckingOut true :: rest
    /\ rest <> []
    /\ CartV2Facts.enables_only_at_end rest.
Proof.
  unfold trace.
  pose proof (for_contents_outcome backend cartData (contents cartData)) as Hout.
  inversion Hout as [done Heq | done required current group Heq | done error Heq];
    symmetry in Heq.
  - rewrite (handleCheckout_normal backend cartData _ Heq). cbn [fst].
    eexists; split; [reflexivity | split].
    + now destruct (CartV2Facts.fetches done).
    + apply absent_enables_only_at_end. intros Hin.
      apply in_app_or in Hin. destruct Hin as [Hin | [Hin | []]].
      * revert Hin. apply not_in_fetches. discriminate.
      * discriminate.
  - rewrite (handleCheckout_normal backend cartData _ Heq). cbn [fst].
    eexists; split; [reflexivity | split].
    + now destruct (CartV2Facts.fetches done).
    + intros before after Hsplit.
      apply (last_place_only (SetIsCheckingOut false)
               (CartV2Facts.fetches done
                  ++ [ToastError (CartV2.minimumMessage required group current)])
               before after).
      * intros Hin. apply in_app_or in Hin. destruct Hin as [Hin | [Hin | []]].
        -- revert Hin. apply not_in_fetches. discriminate.
        -- discriminate.
      * rewrite <- Hsplit, <- app_assoc. reflexivity.
  - rewrite (handleCheckout_thrown backend cartData _ error Heq). cbn [fst].
    eexists; split; [reflexivity | split].
    + now destruct (CartV2Facts.fetches done).
    + intros before after Hsplit.
      apply (last_place_only (SetIsCheckingOut false)
               (CartV2Facts.fetches done
                  ++ [ConsoleError "Fehler beim Validieren der Artikel im Warenkorb:";
                      ToastError CartV2.validationFailedMessage])
               before after).
      * intros Hin. apply in_app_or in Hin.
        destruct Hin as [Hin | [Hin | [Hin | []]]].
        -- revert Hin. apply not_in_fetches. discriminate.
        -- discriminate.
        -- discriminate.
      * rewrite <- Hsplit, <- app_assoc. reflexivity.
Qed.

(** Either no attempt is under way, or exactly one is, with effects left to
    perform, the button disabled, and the button enabled again by the last
    of these effects at the earliest. *)
Lemma reachable_invariant (p : CartV2.Page) :
  CartV2.reachable p ->
  CartV2.pending p = []
  \/ exists rest,
      CartV2.pending p = [rest]
      /\ rest <> []
      /\ CartV2.isCheckingOut p = true
      /\ CartV2Facts.enables_only_at_end rest.
Proof.
  induction 1 as [ | p q _ IH Hstep]; [now left | ].
  destruct Hstep as [p backend cartData first rest Hflag Htrace
                    | p before after next rest Hpending]; cbn.
  - destruct IH as [Hnone | [r [_ [_ [Htrue _]]]]]; [ | congruence].
    destruct (handleCheckout_shape backend cartData) as [rest' [Hshape [Hne Honly]]].
    rewrite Htrace in Hshape. injection Hshape as -> ->.
    right. exists rest'. rewrite Hnone.
    destruct rest' as [ | e rest']; [congruence | ]. now repeat split.
  - destruct IH as [Hnone | [r [Hone [Hne [Htrue Honly]]]]].
    + rewrite Hnone in Hpending. now destruct before.
    + rewrite Hone in Hpending.
      destruct before as [ | b before]; cbn in Hpending.
      2: { injection Hpending as _ Hpending. now destruct before. }
      injection Hpending as -> <-. cbn [app]. rewrite app_nil_r.
      destruct rest as [ | e rest]; [now left | ].
      right. exists (e :: rest). cbn [CartV2.keep]. repeat split.
      * discriminate.
      * rewrite Htrue. destruct next as [[] | | | | | | | | | ]; try reflexivity.
        exfalso. specialize (Honly [] (e :: rest) eq_refl). discriminate.
      * intros before after' Hsplit.
        apply (Honly (next :: before) after'). cbn. now rewrite Hsplit.
Qed.

(** C9.  In every state the cart page can reach, at most one checkout
    attempt is under way; while one is under way [isCheckingOut] holds, so
    the button is disabled during the whole attempt; and whenever the button
    is enabled, which is when a click can start an attempt, none is under
    way. *)
Theorem one_checkout_attempt_at_a_time (p : CartV2.Page) :
  CartV2.reachable p ->
  (List.length (CartV2.pending p) <= 1)%nat
  /\ (forall attempt, In attempt (CartV2.pending p) -> CartV2.isCheckingOut p = true)
  /\ (CartV2.isCheckingOut p = false -> CartV2.pending p = []).
Proof.
  intros Hreach.
  destruct (reachable_invariant p Hreach) as [Hnone | [rest [Hone [_ [Htrue _]]]]].
  - rewrite Hnone. cbn. repeat split; [lia | contradiction].
  - rewrite Hone. cbn. repeat split; [lia | | congruence].
    intros _ _. exact Htrue.
Qed.

(** After a click on a cart whose three menu entries are met, the one
    attempt is under way and the button is disabled. *)
Lemma one_checkout_attempt_at_a_time_witness :
  (List.length (CartV2.pending Example.checking) <= 1)%nat
  /\ (forall attempt,
         In attempt (CartV2.pending Example.checking) ->
         CartV2.isCheckingOut Example.checking = true)
  /\ (CartV2.isCheckingOut Example.checking = false ->
      CartV2.pending Example.checking = []).
Proof.
  apply one_checkout_attempt_at_a_time.
  apply (CartV2.reachable_step CartV2.initial Example.checking
                               CartV2.reachable_initial).
  exact (CartV2.step_click CartV2.initial Example.backend
           (Example.cart [Example.line 1 "4.50" 2; Example.line 3 "3.00" 1] []
                         [Example.salat; Example.dessert])
           (SetIsCheckingOut true)
           [Fetch 10; Fetch 11; Fetch 12; RouterPush "/checkout"]
           eq_refl eq_refl).
Defined.

(** ** Rounding never yields [NaN] *)

Lemma shr_1_nonnegative (mrs : shr_record) :
  0 <= shr_m mrs -> 0 <= shr_m (shr_1 mrs).
Proof.
  destruct mrs as [m r s]. cbn [shr_m].
  destruct m as [ | [p | p | ] | p]; cbn; lia.
Qed.

Lemma iter_shr_1_nonnegative (p : positive) (mrs : shr_record) :
  0 <= shr_m mrs -> 0 <= shr_m (iter_pos shr_1 p mrs).
Proof.
  revert mrs. induction p as [p IH | p IH | ]; intros mrs H; cbn [iter_pos].
  - apply IH, IH. now apply shr_1_nonnegative.
  - now apply IH, IH.
  - now apply shr_1_nonnegative.
Qed.

Lemma shr_fexp_nonnegative (m e : Z) (l : location) :
  0 <= m -> 0 <= shr_m (fst (shr_fexp JS.prec JS.emax m e l)).
Proof.
  intros H. unfold shr_fexp, shr.
  assert (H0 : 0 <= shr_m (shr_record_of_loc m l))
    by (destruct l as [ | []]; exact H).
  destruct (fexp JS.prec JS.emax (Zdigits2 m + e) - e) as [ | p | p]; cbn [fst];
    [exact H0 | | exact H0].
  now apply iter_shr_1_nonnegative.
Qed.

Lemma round_nearest_even_nonnegative (m : Z) (l : location) :
  0 <= m -> 0 <= round_nearest_even m l.
Proof.
  intros H. destruct l as [ | []]; cbn; try lia.
  destruct (Z.even m); lia.
Qed.

Lemma binary_round_aux_not_NaN (sx : bool) (mx ex : Z) (lx : location) :
  0 <= mx -> JS.isNaN (binary_round_aux JS.prec JS.emax sx mx ex lx) = false.
Proof.
  intros H. unfold binary_round_aux.
  pose proof (shr_fexp_nonnegative mx ex lx H) as H1.
  destruct (shr_fexp JS.prec JS.emax mx ex lx) as [mrs' e']. cbn [fst] in H1.
  pose proof (shr_fexp_nonnegative
                (round_nearest_even (shr_m mrs') (loc_of_shr_record mrs')) e'
                loc_Exact
                (round_nearest_even_nonnegative _ _ H1)) as H2.
  destruct (shr_fexp JS.prec JS.emax
              (round_nearest_even (shr_m mrs') (loc_of_shr_record mrs')) e'
              loc_Exact) as [mrs'' e'']. cbn [fst] in H2.
  destruct (shr_m mrs'') as [ | m | m]; [reflexivity | | lia].
  now destruct (e'' <=? JS.emax - JS.prec).
Qed.

Lemma binary_round_aux_zero_sign (sx b : bool) (mx ex : Z) (lx : location) :
  binary_round_aux JS.prec JS.emax sx mx ex lx = S754_zero b -> b = sx.
Proof.
  unfold binary_round_aux.
  destruct (shr_fexp JS.prec JS.emax mx ex lx) as [mrs' e'].
  destruct (shr_fexp JS.prec JS.emax
              (round_nearest_even (shr_m mrs') (loc_of_shr_record mrs')) e'
              loc_Exact) as [mrs'' e''].
  destruct (shr_m mrs'') as [ | m | m]; try discriminate.
  - now intros [= ->].
  - destruct (e'' <=? JS.emax - JS.prec); discriminate.
Qed.

Lemma of_Z_not_NaN (z : Z) : JS.isNaN (JS.of_Z z) = false.
Proof.
  unfold JS.of_Z, binary_normalize.
  destruct z as [ | m | m]; [reflexivity | | ]; unfold binary_round;
    destruct (shl_align m 0 (fexp JS.prec JS.emax (Z.pos (digits2_pos m) + 0)));
    now apply binary_round_aux_not_NaN.
Qed.

Lemma of_ratio_not_NaN (neg : bool) (n d : Z) :
  0 < n -> 0 < d -> JS.isNaN (JS.of_ratio neg n d) = false.
Proof.
  intros Hn Hd. unfold JS.of_ratio, SFdiv_core_binary.
  set (s := 0 - 0 - Z.min (fexp JS.prec JS.emax (Zdigits2 n + 0 - (Zdigits2 d + 0))) (0 - 0)).
  set (m' := match s with Z.pos _ => Z.shiftl n s | 0 => n | Z.neg _ => 0 end).
  assert (Hm : 0 <= m').
  { unfold m'. destruct s; try lia. apply Z.shiftl_nonneg. lia. }
  pose proof (Z_div_mod m' d ltac:(lia)) as Hdiv.
  destruct (Z.div_eucl m' d) as [q r].
  apply binary_round_aux_not_NaN.
  destruct Hdiv as [Heq Hr]. nia.
Qed.

Lemma of_decimal_not_NaN (neg : bool) (m e10 : Z) :
  0 <= m -> JS.isNaN (JS.of_decimal neg m e10) = false.
Proof.
  intros Hm. unfold JS.of_decimal.
  destruct (m =? 0) eqn:Hz; [reflexivity | ]. apply Z.eqb_neq in Hz.
  destruct (0 <=? e10) eqn:He.
  - apply of_ratio_not_NaN; [ | lia].
    apply Z.leb_le in He. apply Z.mul_pos_pos; [lia | ]. now apply Z.pow_pos_nonneg.
  - apply of_ratio_not_NaN; [lia | ].
    apply Z.leb_gt in He. apply Z.pow_pos_nonneg; lia.
Qed.

Lemma of_decimal_zero_sign (neg b : bool) (m e10 : Z) :
  JS.of_decimal neg m e10 = S754_zero b -> b = neg.
Proof.
  unfold JS.of_decimal, JS.of_ratio.
  destruct (m =? 0); [now intros [= ->] | ].
  destruct (0 <=? e10).
  - destruct (SFdiv_core_binary JS.prec JS.emax (m * 10 ^ e10) 0 1 0) as [[q e] l].
    apply binary_round_aux_zero_sign.
  - destruct (SFdiv_core_binary JS.prec JS.emax m 0 (10 ^ (- e10)) 0) as [[q e] l].
    apply binary_round_aux_zero_sign.
Qed.

(** ** Reading a price text *)

(** In front of a digit or a dot there is no white space to trim, no sign
    and no [Infinity]. *)
Lemma head_of_number (c : ascii) (r : string) :
  (JS.is_digit c || Ascii.eqb c ".")%bool = true ->
  JS.trim_start (String c r) = String c r
  /\ JS.scan_sign (String c r) = (false, String c r)
  /\ prefix "Infinity" (String c r) = false.
Proof.
  destruct c as [b0 b1 b2 b3 b4 b5 b6 b7].
  destruct b0, b1, b2, b3, b4, b5, b6, b7; try discriminate; intros _;
    (split; [destruct r as [ | c2 [ | c3 r]]; reflexivity | split; reflexivity]).
Qed.

Lemma all_digits_cons (c : ascii) (s : string) :
  all_digits (String c s) = true -> JS.is_digit c = true /\ all_digits s = true.
Proof. unfold all_digits. cbn. apply andb_true_iff. Qed.

Lemma no_price_char_cons (c : ascii) (s : string) :
  no_price_char (String c s) = true ->
  JS.is_digit c = false /\ Ascii.eqb c "." = false /\ Ascii.eqb c "," = false
  /\ no_price_char s = true.
Proof.
  unfold no_price_char, Spec.is_price_char. cbn. intros H.
  apply andb_true_iff in H. destruct H as [Hc Hs].
  apply negb_true_iff in Hc. apply orb_false_iff in Hc. destruct Hc as [Hc H2].
  apply orb_false_iff in Hc. now destruct Hc.
Qed.

(** Scanning runs through a block of digits, whatever follows it. *)
Lemma scan_digits_block (ds : string) :
  all_digits ds = true ->
  forall acc, exists v,
    0 <= acc -> 0 <= v /\
    forall rest count,
      JS.scan_digits (ds ++ rest) acc count
      = JS.scan_digits rest v (count + Z.of_nat (length ds)).
Proof.
  induction ds as [ | c ds IH]; intros Hds acc.
  - exists acc. intros Hacc. split; [exact Hacc | ]. intros rest count.
    cbn. now rewrite Z.add_0_r.
  - apply all_digits_cons in Hds. destruct Hds as [Hc Hds].
    destruct (IH Hds (10 * acc + JS.digit_value c)) as [v Hv].
    exists v. intros Hacc.
    assert (Hd : 0 <= JS.digit_value c).
    { unfold JS.digit_value. unfold JS.is_digit in Hc.
      apply andb_true_iff in Hc. destruct Hc as [Hc _].
      apply N.leb_le in Hc. lia. }
    destruct (Hv ltac:(lia)) as [Hv0 Hscan]. split; [exact Hv0 | ].
    intros rest count. cbn [append JS.scan_digits]. rewrite Hc, Hscan.
    f_equal. cbn [length]. lia.
Qed.

(** Scanning stops in front of a text without digits. *)
Lemma scan_digits_stop (rest : string) (v count : Z) :
  match rest with
  | String c _ => JS.is_digit c = false
  | EmptyString => True
  end ->
  JS.scan_digits rest v count = (v, count, rest).
Proof.
  destruct rest as [ | c r]; [reflexivity | ]. cbn. now intros ->.
Qed.

Lemma no_price_char_head (suffix : string) :
  no_price_char suffix = true ->
  match suffix with
  | String c _ => JS.is_digit c = false
  | EmptyString => True
  end.
Proof.
  destruct suffix as [ | c r]; [easy | ]. intros H.
  now apply no_price_char_cons in H.
Qed.

Lemma scan_exponent_without_digits (suffix : string) :
  no_price_char suffix = true -> JS.scan_exponent suffix = 0.
Proof.
  destruct suffix as [ | c r]; [reflexivity | ]. intros H.
  apply no_price_char_cons in H. destruct H as [_ [_ [_ Hr]]].
  unfold JS.scan_exponent.
  destruct (Ascii.eqb c "e" || Ascii.eqb c "E")%bool; [ | reflexivity].
  assert (Hstop : forall t, no_price_char t = true -> JS.scan_digits t 0 0 = (0, 0, t)).
  { intros t Ht. apply scan_digits_stop. now apply no_price_char_head. }
  destruct r as [ | c2 r2]; [reflexivity | ].
  pose proof (no_price_char_cons c2 r2 Hr) as [Hc2 [_ [_ Hr2]]].
  assert (Hcases : JS.scan_sign (String c2 r2) = (true, r2)
                   \/ JS.scan_sign (String c2 r2) = (false, r2)
                   \/ JS.scan_sign (String c2 r2) = (false, String c2 r2)).
  { destruct c2 as [b0 b1 b2 b3 b4 b5 b6 b7].
    destruct b0, b1, b2, b3, b4, b5, b6, b7; cbn; tauto. }
  destruct Hcases as [-> | [-> | ->]].
  - now rewrite (Hstop r2 Hr2).
  - now rewrite (Hstop r2 Hr2).
  - now rewrite (Hstop (String c2 r2) Hr).
Qed.

Lemma head_of_block (ds rest : string) (c : ascii) :
  all_digits ds = true ->
  (JS.is_digit c || Ascii.eqb c ".")%bool = true ->
  exists c' r', (ds ++ String c rest)%string = String c' r'
                /\ (JS.is_digit c' || Ascii.eqb c' ".")%bool = true.
Proof.
  intros Hds Hc. destruct ds as [ | d ds]; cbn [append].
  - now exists c, rest.
  - apply all_digits_cons in Hds. destruct Hds as [Hd _].
    exists d, (ds ++ String c rest)%string. now rewrite Hd.
Qed.

Lemma length_positive (s : string) :
  s <> EmptyString -> 0 < Z.of_nat (length s).
Proof. destruct s; [congruence | cbn [length]; lia]. Qed.

Lemma length_append (s t : string) :
  length (s ++ t) = (length s + length t)%nat.
Proof. induction s as [ | c s IH]; cbn; [reflexivity | now rewrite IH]. Qed.

(** A number with a fraction reads the same whatever text without digits
    and separators follows it. *)
Lemma parseFloat_fraction (ds1 ds2 : string) :
  all_digits ds1 = true ->
  all_digits ds2 = true ->
  (ds1 ++ ds2)%string <> EmptyString ->
  exists m,
    0 <= m /\
    forall suffix,
      no_price_char suffix = true ->
      JS.parseFloat (ds1 ++ String "." (ds2 ++ suffix))
      = JS.of_decimal false m (- Z.of_nat (length ds2)).
Proof.
  intros H1 H2 Hne.
  destruct (scan_digits_block ds1 H1 0) as [ip Hip].
  destruct (Hip ltac:(lia)) as [Hip0 Hscan1].
  destruct (scan_digits_block ds2 H2 ip) as [m Hm].
  destruct (Hm Hip0) as [Hm0 Hscan2].
  exists m. split; [exact Hm0 | ]. intros suffix Hsuffix.
  destruct (head_of_block ds1 (ds2 ++ suffix) "." H1 eq_refl) as [c [r [Heq Hc]]].
  destruct (head_of_number c r Hc) as [Htrim [Hsign Hinf]].
  unfold JS.parseFloat. rewrite Heq, Htrim, Hsign, Hinf, <- Heq.
  rewrite Hscan1, (scan_digits_stop (String "." (ds2 ++ suffix))) by reflexivity.
  rewrite Hscan2, (scan_digits_stop suffix) by now apply no_price_char_head.
  rewrite (scan_exponent_without_digits suffix Hsuffix).
  apply length_positive in Hne. rewrite length_append in Hne.
  destruct (0 + Z.of_nat (length ds1) + (0 + Z.of_nat (length ds2)) =? 0) eqn:Hz.
  - apply Z.eqb_eq in Hz. lia.
  - f_equal.
Qed.

(** So does a whole number. *)
Lemma parseFloat_whole (ds : string) :
  all_digits ds = true ->
  ds <> EmptyString ->
  exists m,
    0 <= m /\
    forall suffix,
      no_price_char suffix = true ->
      JS.parseFloat (ds ++ suffix) = JS.of_decimal false m 0.
Proof.
  intros Hds Hne.
  destruct (scan_digits_block ds Hds 0) as [m Hm].
  destruct (Hm ltac:(lia)) as [Hm0 Hscan].
  exists m. split; [exact Hm0 | ]. intros suffix Hsuffix.
  destruct ds as [ | d ds]; [congruence | ].
  pose proof (all_digits_cons d ds Hds) as [Hd _].
  destruct (head_of_number d (ds ++ suffix)) as [Htrim [Hsign Hinf]];
    [now rewrite Hd | ].
  unfold JS.parseFloat. cbn [append] in *. rewrite Htrim, Hsign, Hinf.
  rewrite Hscan, (scan_digits_stop suffix) by now apply no_price_char_head.
  assert (Hdot : match suffix with
                 | String "." r => JS.scan_digits r m 0
                 | _ => (m, 0, suffix)
                 end = (m, 0, suffix)).
  { destruct suffix as [ | c r]; [reflexivity | ].
    apply no_price_char_cons in Hsuffix. destruct Hsuffix as [_ [Hc _]].
    destruct c as [b0 b1 b2 b3 b4 b5 b6 b7].
    destruct b0, b1, b2, b3, b4, b5, b6, b7; try reflexivity; discriminate. }
  rewrite Hdot, (scan_exponent_without_digits suffix Hsuffix).
  destruct (0 + Z.of_nat (length (String d ds)) + 0 =? 0) eqn:Hz.
  - apply Z.eqb_eq in Hz. cbn [length] in Hz. lia.
  - reflexivity.
Qed.

(** ** Rewriting a price text *)

Lemma substring_all (s : string) : substring 0 (length s) s = s.
Proof. induction s as [ | c s IH]; cbn; [reflexivity | now rewrite IH]. Qed.

Lemma prefix_split (pat s : string) :
  prefix pat s = true ->
  exists r, s = (pat ++ r)%string
            /\ substring (length pat) (length s - length pat) s = r.
Proof.
  revert s. induction pat as [ | a pat IH]; intros s H.
  - exists s. split; [reflexivity | ]. cbn [length].
    rewrite Nat.sub_0_r. apply substring_all.
  - destruct s as [ | b s]; [discriminate | ]. cbn [prefix] in H.
    destruct (ascii_dec a b) as [<- | ]; [ | discriminate].
    destruct (IH s H) as [r [Hs Hr]]. exists r. split.
    + cbn [append]. now rewrite <- Hs.
    + cbn [length substring Nat.sub]. exact Hr.
Qed.

Lemma replace_found (pat rep s : string) :
  prefix pat s = true ->
  exists r, s = (pat ++ r)%string /\ JS.replace pat rep s = (rep ++ r)%string.
Proof.
  intros H. destruct (prefix_split pat s H) as [r [Hs Hr]].
  exists r. split; [exact Hs | ].
  destruct s; cbn [JS.replace]; rewrite H; now rewrite Hr.
Qed.

Lemma replace_skip (pat rep : string) (c : ascii) (s : string) :
  prefix pat (String c s) = false ->
  JS.replace pat rep (String c s) = String c (JS.replace pat rep s).
Proof. intros H. cbn [JS.replace]. now rewrite H. Qed.

Lemma prefix_head_differs (a c : ascii) (pat s : string) :
  a <> c -> prefix (String a pat) (String c s) = false.
Proof. intros H. cbn [prefix]. now destruct (ascii_dec a c). Qed.

Lemma replace_through_digits (a : ascii) (pat rep ds r : string) :
  JS.is_digit a = false ->
  all_digits ds = true ->
  JS.replace (String a pat) rep (ds ++ r)
  = (ds ++ JS.replace (String a pat) rep r)%string.
Proof.
  intros Ha. induction ds as [ | d ds IH]; intros Hds; [reflexivity | ].
  apply all_digits_cons in Hds. destruct Hds as [Hd Hds].
  cbn [append]. rewrite replace_skip, IH by
    (try assumption; apply prefix_head_differs; intros ->; congruence).
  reflexivity.
Qed.

Lemma list_ascii_of_append (s t : string) :
  list_ascii_of_string (s ++ t)
  = list_ascii_of_string s ++ list_ascii_of_string t.
Proof. induction s as [ | c s IH]; cbn; [reflexivity | now rewrite IH]. Qed.

Lemma no_price_char_append (s t : string) :
  no_price_char (s ++ t) = true -> no_price_char t = true.
Proof.
  unfold no_price_char. rewrite list_ascii_of_append, forallb_app.
  intros H. apply andb_true_iff in H. tauto.
Qed.

(** Removing the euro sign from a text without digits and separators leaves
    such a text. *)
Lemma replace_euro_suffix (suffix : string) :
  no_price_char suffix = true ->
  no_price_char (JS.replace "€" "" suffix) = true.
Proof.
  induction suffix as [ | c r IH]; intros H; [reflexivity | ].
  destruct (prefix "€" (String c r)) eqn:Hp.
  - destruct (replace_found "€" "" (String c r) Hp) as [t [Hs ->]].
    rewrite Hs in H. now apply no_price_char_append in H.
  - rewrite (replace_skip _ _ _ _ Hp).
    pose proof (no_price_char_cons c r H) as [Hc1 [Hc2 [Hc3 Hr]]].
    unfold no_price_char in *. cbn [list_ascii_of_string forallb].
    rewrite (IH Hr). unfold Spec.is_price_char. now rewrite Hc1, Hc2, Hc3.
Qed.

(** A text without separators holds no comma to replace. *)
Lemma replace_comma_suffix (suffix : string) :
  no_price_char suffix = true ->
  JS.replace "," "." suffix = suffix.
Proof.
  induction suffix as [ | c r IH]; intros H; [reflexivity | ].
  pose proof (no_price_char_cons c r H) as [_ [_ [Hc Hr]]].
  rewrite replace_skip, (IH Hr); [reflexivity | ].
  apply prefix_head_differs. intros <-. discriminate.
Qed.

Lemma replace_comma_found (r : string) :
  JS.replace "," "." (String "," r) = String "." r.
Proof.
  assert (Hp : prefix "," (String "," r) = true).
  { cbn [prefix]. destruct (ascii_dec "," ","); [now destruct r | congruence]. }
  destruct (replace_found "," "." (String "," r) Hp) as [t [Hs ->]].
  cbn in Hs. now injection Hs as <-.
Qed.

(** The text the header parses, for each shape of the price text. *)
Lemma header_text_whole (ds suffix : string) :
  all_digits ds = true ->
  no_price_char suffix = true ->
  exists suffix',
    no_price_char suffix' = true
    /\ JS.replace "," "." (JS.replace "€" "" (ds ++ suffix))
       = (ds ++ suffix')%string.
Proof.
  intros Hds Hs. exists (JS.replace "€" "" suffix).
  pose proof (replace_euro_suffix suffix Hs) as Hs'. split; [exact Hs' | ].
  change "€"%string with (String (JS.byte 226) (String (JS.byte 130) (String (JS.byte 172) ""))).
  rewrite replace_through_digits by (reflexivity || assumption).
  rewrite replace_through_digits by (reflexivity || assumption).
  now rewrite replace_comma_suffix.
Qed.

Lemma header_text_fraction (ds1 ds2 suffix : string) (sep : ascii) :
  all_digits ds1 = true ->
  all_digits ds2 = true ->
  sep = "."%char \/ sep = ","%char ->
  no_price_char suffix = true ->
  exists suffix',
    no_price_char suffix' = true
    /\ JS.replace "," "." (JS.replace "€" "" (ds1 ++ String sep (ds2 ++ suffix)))
       = (ds1 ++ String "." (ds2 ++ suffix'))%string.
Proof.
  intros H1 H2 Hsep Hs. exists (JS.replace "€" "" suffix).
  pose proof (replace_euro_suffix suffix Hs) as Hs'. split; [exact Hs' | ].
  change "€"%string with (String (JS.byte 226) (String (JS.byte 130) (String (JS.byte 172) ""))) at 2.
  rewrite replace_through_digits by (reflexivity || assumption).
  rewrite (replace_skip _ _ sep)
    by (apply prefix_head_differs; destruct Hsep as [-> | ->]; discriminate).
  rewrite replace_through_digits by (reflexivity || assumption).
  change (String (JS.byte 226) (String (JS.byte 130) (String (JS.byte 172) ""))) with "€"%string.
  rewrite replace_through_digits by (reflexivity || assumption).
  destruct Hsep as [-> | ->].
  - rewrite replace_skip by (apply prefix_head_differs; discriminate).
    rewrite replace_through_digits by (reflexivity || assumption).
    now rewrite replace_comma_suffix.
  - now rewrite replace_comma_found.
Qed.

(** ** The specification's parser on a price text of the usual shape *)

Lemma digit_is_price_char (c : ascii) :
  JS.is_digit c = true -> Spec.is_price_char c = true /\ Ascii.eqb c "," = false.
Proof.
  intros H. unfold Spec.is_price_char. rewrite H. split; [reflexivity | ].
  apply Ascii.eqb_neq. intros ->. discriminate.
Qed.

Lemma strip_through_digits (ds r : string) :
  all_digits ds = true -> Spec.strip (ds ++ r) = (ds ++ Spec.strip r)%string.
Proof.
  induction ds as [ | d ds IH]; intros Hds; [reflexivity | ].
  apply all_digits_cons in Hds. destruct Hds as [Hd Hds].
  cbn [append Spec.strip]. destruct (digit_is_price_char d Hd) as [-> _].
  now rewrite IH.
Qed.

Lemma strip_suffix (suffix : string) :
  no_price_char suffix = true -> Spec.strip suffix = EmptyString.
Proof.
  induction suffix as [ | c r IH]; intros H; [reflexivity | ].
  pose proof (no_price_char_cons c r H) as [Hc1 [Hc2 [Hc3 Hr]]].
  cbn [Spec.strip]. unfold Spec.is_price_char. rewrite Hc1, Hc2, Hc3.
  now apply IH.
Qed.

Lemma comma_to_dot_through_digits (ds r : string) :
  all_digits ds = true ->
  Spec.comma_to_dot (ds ++ r) = (ds ++ Spec.comma_to_dot r)%string.
Proof.
  induction ds as [ | d ds IH]; intros Hds; [reflexivity | ].
  apply all_digits_cons in Hds. destruct Hds as [Hd Hds].
  cbn [append Spec.comma_to_dot]. destruct (digit_is_price_char d Hd) as [_ ->].
  now rewrite IH.
Qed.

Lemma spec_text_whole (ds suffix : string) :
  all_digits ds = true ->
  no_price_char suffix = true ->
  Spec.comma_to_dot (Spec.strip (ds ++ suffix)) = (ds ++ "")%string.
Proof.
  intros Hds Hs.
  rewrite strip_through_digits, (strip_suffix suffix Hs) by assumption.
  now rewrite comma_to_dot_through_digits.
Qed.

Lemma spec_text_fraction (ds1 ds2 suffix : string) (sep : ascii) :
  all_digits ds1 = true ->
  all_digits ds2 = true ->
  sep = "."%char \/ sep = ","%char ->
  no_price_char suffix = true ->
  Spec.comma_to_dot (Spec.strip (ds1 ++ String sep (ds2 ++ suffix)))
  = (ds1 ++ String "." (ds2 ++ ""))%string.
Proof.
  intros H1 H2 Hsep Hs. rewrite strip_through_digits by assumption.
  assert (Hstrip : Spec.strip (String sep (ds2 ++ suffix))
                   = String sep (ds2 ++ "")).
  { cbn [Spec.strip].
    replace (Spec.is_price_char sep) with true
      by (destruct Hsep as [-> | ->]; reflexivity).
    now rewrite strip_through_digits, (strip_suffix suffix Hs). }
  rewrite Hstrip, comma_to_dot_through_digits by assumption.
  cbn [Spec.comma_to_dot].
  rewrite comma_to_dot_through_digits by assumption.
  now destruct Hsep as [-> | ->].
Qed.

(** A parsed literal without sign is its own value under [|| 0] and under
    the test for [NaN]. *)
Lemma or_zero_of_decimal (m e10 : Z) :
  0 <= m ->
  JS.or_zero (JS.of_decimal false m e10) = JS.of_decimal false m e10
  /\ JS.isNaN (JS.of_decimal false m e10) = false.
Proof.
  intros Hm. pose proof (of_decimal_not_NaN false m e10 Hm) as Hnan.
  split; [ | exact Hnan].
  destruct (JS.of_decimal false m e10) as [b | b | | b p e] eqn:Hx;
    try reflexivity; [ | discriminate].
  apply of_decimal_zero_sign in Hx. now subst b.
Qed.

(** What the three parsers read from a price text of the usual shape. *)
Lemma parsed_price_in_form (comma_allowed : bool) (s : string) :
  price_form comma_allowed s ->
  exists x,
    JS.isNaN x = false
    /\ Spec.parsePrice (Some s) = x
    /\ JS.parseFloat (JS.replace "," "." (JS.replace "€" "" s)) = x
    /\ (comma_allowed = false ->
        JS.or_zero (JS.parseFloat (JS.or_string_zero (Some s))) = x).
Proof.
  intros Hform.
  destruct Hform as [ds suffix Hds Hne Hs | ds1 ds2 suffix sep H1 H2 Hne Hsep Hs].
  - destruct (parseFloat_whole ds Hds Hne) as [m [Hm Hparse]].
    destruct (or_zero_of_decimal m 0 Hm) as [Hor Hnan].
    destruct (header_text_whole ds suffix Hds Hs) as [suffix' [Hs' Htext]].
    exists (JS.of_decimal false m 0). repeat split.
    + exact Hnan.
    + unfold Spec.parsePrice. rewrite (spec_text_whole ds suffix Hds Hs).
      rewrite (Hparse EmptyString eq_refl). now rewrite Hnan.
    + rewrite Htext. now apply Hparse.
    + intros _.
      replace (JS.or_string_zero (Some (ds ++ suffix)%string))
        with (ds ++ suffix)%string by (destruct ds; [congruence | reflexivity]).
      now rewrite (Hparse suffix Hs).
  - destruct (parseFloat_fraction ds1 ds2 H1 H2 Hne) as [m [Hm Hparse]].
    destruct (or_zero_of_decimal m (- Z.of_nat (length ds2)) Hm) as [Hor Hnan].
    assert (Hsep' : sep = "."%char \/ sep = ","%char) by tauto.
    destruct (header_text_fraction ds1 ds2 suffix sep H1 H2 Hsep' Hs)
      as [suffix' [Hs' Htext]].
    exists (JS.of_decimal false m (- Z.of_nat (length ds2))). repeat split.
    + exact Hnan.
    + unfold Spec.parsePrice.
      rewrite (spec_text_fraction ds1 ds2 suffix sep H1 H2 Hsep' Hs).
      rewrite (Hparse EmptyString eq_refl). now rewrite Hnan.
    + rewrite Htext. now apply Hparse.
    + intros Hdot. destruct Hsep as [-> | [Hcomma _]]; [ | congruence].
      replace (JS.or_string_zero (Some (ds1 ++ String "." (ds2 ++ suffix))%string))
        with (ds1 ++ String "." (ds2 ++ suffix))%string
        by (destruct ds1; reflexivity).
      now rewrite (Hparse suffix Hs).
Qed.

(** ** The subtotal *)

Lemma fold_left_agree {A : Type} (f g : JS.Number -> A -> JS.Number)
      (l : list A) (a : JS.Number) :
  Forall (fun x => forall acc, f acc x = g acc x) l ->
  fold_left f l a = fold_left g l a.
Proof.
  intros H. revert a. induction H as [ | x l Hx _ IH]; intros a; [reflexivity | ].
  cbn [fold_left]. now rewrite Hx, IH.
Qed.

Lemma fold_left_sum {A : Type} (f : A -> JS.Number) (l : list A) (a : JS.Number) :
  fold_left (fun acc x => JS.add acc (f x)) l a = fold_left JS.add (map f l) a.
Proof.
  revert a. induction l as [ | x l IH]; intros a; [reflexivity | apply IH].
Qed.

(** The cart page's subtotal, over the products as the query returns them. *)
Lemma cart_subTotal_unfolded (cartData : CartData) :
  Cart.subTotal (Cart.cartItems cartData)
  = fold_left (fun sum it =>
                 JS.add sum (JS.mul (cart_price it) (JS.of_Z (quantity it))))
              (products cartData) JS.zero.
Proof.
  unfold Cart.subTotal, Cart.cartItems. generalize JS.zero.
  induction (products cartData) as [ | it l IH]; intros a; [reflexivity | apply IH].
Qed.

Lemma cart_price_not_NaN (it : CartItem) : JS.isNaN (cart_price it) = false.
Proof.
  unfold cart_price, JS.or_zero.
  now destruct (JS.parseFloat (JS.or_string_zero (price it))).
Qed.

Lemma header_line_total (it : CartItem) :
  Navbar.line_total it
  = if JS.isNaN (JS.parseFloat (Navbar.price_text it)) then JS.zero
    else JS.mul (JS.parseFloat (Navbar.price_text it)) (JS.of_Z (quantity it)).
Proof.
  unfold Navbar.line_total. rewrite of_Z_not_NaN.
  now destruct (JS.isNaN (JS.parseFloat (Navbar.price_text it))).
Qed.

(** C1, as the code has it.  For line items whose price texts have the usual
    shape (digits, possibly a separator and more digits, then a text without
    digits and separators such as a euro sign), the total of the header is
    the sum over the items of [parsePrice(item.price) * item.quantity] when
    the separator is a comma or a dot, and the subtotal of the cart page is
    this sum when the separator is a dot.  For every list of line items the
    header's total is the sum, in list order, of what the items contribute:
    0 for an item whose price is not a number, its price times its quantity
    otherwise.  The price the cart page reads from an item is never [NaN]:
    it is 0 when the text does not parse.  Both computations are total
    functions of the price texts and quantities; nothing in them can
    throw. *)
Theorem subtotal_sums_parsed_prices (cartData : CartData) :
  (Forall (priced_in_form false) (products cartData) ->
   Cart.subTotal (Cart.cartItems cartData) = Spec.subtotal (products cartData)
   /\ Cart.subTotal_text (Cart.computeTotals cartData)
      = JS.toFixed (Spec.subtotal (products cartData)) 2)
  /\ (Forall (priced_in_form true) (products cartData) ->
      Navbar.totalPrice (products cartData) = Spec.subtotal (products cartData)
      /\ Navbar.getTotalPrice (Some (products cartData))
         = JS.toFixed (Spec.subtotal (products cartData)) 2)
  /\ Navbar.totalPrice (products cartData)
     = sum_in_order (map Navbar.line_total (products cartData))
  /\ (forall it : CartItem,
         Navbar.line_total it
         = if JS.isNaN (JS.parseFloat (Navbar.price_text it)) then JS.zero
           else JS.mul (JS.parseFloat (Navbar.price_text it))
                       (JS.of_Z (quantity it)))
  /\ (forall it : CartItem,
         JS.isNaN (cart_price it) = false
         /\ (JS.isNaN (JS.parseFloat (JS.or_string_zero (price it))) = true ->
             cart_price it = JS.zero)).
Proof.
  assert (Hcart : Forall (priced_in_form false) (products cartData) ->
                  Cart.subTotal (Cart.cartItems cartData)
                  = Spec.subtotal (products cartData)).
  { intros Hall. rewrite cart_subTotal_unfolded. unfold Spec.subtotal.
    apply fold_left_agree. revert Hall. apply Forall_impl.
    intros it [s [Hprice Hform]] acc.
    destruct (parsed_price_in_form false s Hform) as [x [_ [Hspec [_ Hraw]]]].
    unfold cart_price. now rewrite Hprice, Hspec, (Hraw eq_refl). }
  assert (Hheader : Forall (priced_in_form true) (products cartData) ->
                    Navbar.totalPrice (products cartData)
                    = Spec.subtotal (products cartData)).
  { intros Hall. unfold Navbar.totalPrice, Spec.subtotal.
    apply fold_left_agree. revert Hall. apply Forall_impl.
    intros it [s [Hprice Hform]] acc.
    destruct (parsed_price_in_form true s Hform) as [x [Hnan [Hspec [Htext _]]]].
    rewrite header_line_total. unfold Navbar.price_text.
    now rewrite Hprice, Hspec, Htext, Hnan. }
  split; [ | split; [ | split; [ | split]]].
  - intros Hall. split; [now apply Hcart | ].
    unfold Cart.computeTotals. cbn [Cart.subTotal_text]. now rewrite Hcart.
  - intros Hall. split; [now apply Hheader | ].
    unfold Navbar.getTotalPrice. now rewrite Hheader.
  - unfold Navbar.totalPrice, sum_in_order. apply fold_left_sum.
  - apply header_line_total.
  - intros it. split; [apply cart_price_not_NaN | ].
    unfold cart_price, JS.or_zero.
    now destruct (JS.parseFloat (JS.or_string_zero (price it))).
Qed.

(** The specification's example, two items at "10,00 €" and one at "5 €",
    in the header; and two items at "12.50 €" on the cart page. *)
Lemma subtotal_sums_parsed_prices_witness :
  Navbar.getTotalPrice
    (Some [Example.line 1 "10,00 €" 2; Example.line 2 "5 €" 1])
  = JS.toFixed
      (Spec.subtotal [Example.line 1 "10,00 €" 2; Example.line 2 "5 €" 1]) 2
  /\ Cart.subTotal_text
       (Cart.computeTotals (Example.cart [Example.line 1 "12.50 €" 2] [] []))
     = JS.toFixed (Spec.subtotal [Example.line 1 "12.50 €" 2]) 2.
Proof.
  split.
  - refine (proj2 (proj1 (proj2 (subtotal_sums_parsed_prices
                                   (Example.cart
                                      [Example.line 1 "10,00 €" 2;
                                       Example.line 2 "5 €" 1] [] []))) _)).
    constructor; [ | constructor; [ | constructor]].
    + exists "10,00 €"%string. split; [reflexivity | ].
      apply (form_fraction true "10" "00" " €" ","); try reflexivity;
        [discriminate | now right].
    + exists "5 €"%string. split; [reflexivity | ].
      apply (form_whole true "5" " €"); try reflexivity. discriminate.
  - refine (proj2 (proj1 (subtotal_sums_parsed_prices
                            (Example.cart [Example.line 1 "12.50 €" 2] [] [])) _)).
    constructor; [ | constructor].
    exists "12.50 €"%string. split; [reflexivity | ].
    apply (form_fraction false "12" "50" " €" "."); try reflexivity;
      [discriminate | now left].
Defined.

(** On the cart page a comma ends the number, so "12,50 €" counts as 12; in
    the header only the euro sign is removed, so "$5" counts as 0. *)
Lemma subtotal_claim_counterexample :
  ~ Spec.cart_subtotal_claim [Example.line 1 "12,50 €" 1]
  /\ ~ Spec.header_total_claim [Example.line 1 "$5" 1].
Proof.
  split; intros H; vm_compute in H; discriminate H.
Qed.

Lemma subtotal_texts_of_counterexample :
  Cart.subTotal_text
    (Cart.computeTotals (Example.cart [Example.line 1 "12,50 €" 1] [] []))
  = "12.00"%string
  /\ JS.toFixed (Spec.subtotal [Example.line 1 "12,50 €" 1]) 2 = "12.50"%string
  /\ Navbar.getTotalPrice (Some [Example.line 1 "12,50 €" 1]) = "12.50"%string
  /\ Navbar.getTotalPrice (Some [Example.line 1 "$5" 1]) = "0.00"%string
  /\ JS.toFixed (Spec.subtotal [Example.line 1 "$5" 1]) 2 = "5.00"%string.
Proof. repeat split; vm_compute; reflexivity. Qed.

(** ** The total *)

Lemma find_first_total (before after : list TotalEntry) (entry : TotalEntry) :
  Forall (fun e => title e <> "Total"%string) before ->
  title entry = "Total"%string ->
  find (fun e => String.eqb (title e) "Total") (before ++ entry :: after)
  = Some entry.
Proof.
  intros Hbefore Hentry. induction Hbefore as [ | e before He _ IH]; cbn [app find].
  - now rewrite Hentry.
  - apply String.eqb_neq in He. now rewrite He.
Qed.

Lemma find_no_total (entries : list TotalEntry) :
  Forall (fun e => title e <> "Total"%string) entries ->
  find (fun e => String.eqb (title e) "Total") entries = None.
Proof.
  induction 1 as [ | e entries He _ IH]; [reflexivity | ].
  cbn [find]. apply String.eqb_neq in He. now rewrite He.
Qed.

Lemma totalPrice_text_absent (cartData : CartData) :
  Cart.totalItem cartData = None ->
  Cart.totalPrice cartData = Cart.subTotal (Cart.cartItems cartData)
  /\ Cart.totalPrice_text (Cart.computeTotals cartData)
     = Cart.subTotal_text (Cart.computeTotals cartData).
Proof.
  intros H. unfold Cart.computeTotals, Cart.totalPrice. cbn. now rewrite H.
Qed.

Lemma totalPrice_text_present (cartData : CartData) (entry : TotalEntry) :
  Cart.totalItem cartData = Some entry ->
  Cart.totalPrice cartData = JS.parseFloat (JS.strip_non_numeric (text entry))
  /\ Cart.totalPrice_text (Cart.computeTotals cartData)
     = JS.toFixed (JS.parseFloat (JS.strip_non_numeric (text entry))) 2.
Proof.
  intros H. unfold Cart.computeTotals, Cart.totalPrice. cbn. now rewrite H.
Qed.

(** On a text without a comma the specification's reading of the total is
    the code's: the same characters are removed and no separator is
    rewritten. *)
Lemma parseCurrencyText_without_comma (t : string) :
  no_comma t = true -> Spec.parseCurrencyText t = Cart.parseTotalText t.
Proof.
  intros H. unfold Spec.parseCurrencyText, Cart.parseTotalText. f_equal.
  induction t as [ | c t IH]; [reflexivity | ].
  unfold no_comma in H. cbn in H. apply andb_true_iff in H.
  destruct H as [Hc H]. apply negb_true_iff in Hc.
  cbn [Spec.strip JS.strip_non_numeric]. unfold Spec.is_price_char.
  rewrite Hc, orb_false_r.
  destruct (JS.is_digit c || Ascii.eqb c ".")%bool; [ | now apply IH].
  cbn [Spec.comma_to_dot]. rewrite Hc. f_equal. now apply IH.
Qed.

(** C2, as the code has it.  When the backend's total text is present,
    holds no comma and parses to a number as the specification parses it,
    [computeTotals] returns that number, a valid one, as the total, whatever
    the subtotal is; when the text is absent, the total is the computed
    subtotal. *)
Theorem total_prefers_authoritative_text (cartData : CartData) :
  (forall t : string,
      Spec.authoritativeTotalText cartData = Some t ->
      no_comma t = true ->
      JS.isNaN (Spec.parseCurrencyText t) = false ->
      Cart.totalPrice cartData = Spec.parseCurrencyText t
      /\ JS.isNaN (Cart.totalPrice cartData) = false
      /\ Cart.totalPrice_text (Cart.computeTotals cartData)
         = JS.toFixed (Spec.parseCurrencyText t) 2)
  /\ (Spec.authoritativeTotalText cartData = None ->
      Cart.totalPrice cartData = Cart.subTotal (Cart.cartItems cartData)
      /\ Cart.totalPrice_text (Cart.computeTotals cartData)
         = Cart.subTotal_text (Cart.computeTotals cartData)).
Proof.
  unfold Spec.authoritativeTotalText. split.
  - intros t Ht Hcomma Hvalid.
    destruct (Cart.totalItem cartData) as [entry | ] eqn:Hitem; [ | discriminate].
    injection Ht as <-.
    destruct (totalPrice_text_present cartData entry Hitem) as [Hnumber Htext].
    rewrite (parseCurrencyText_without_comma _ Hcomma) in *.
    unfold Cart.parseTotalText in *. rewrite Hnumber, Htext. now repeat split.
  - intros Hnone. apply totalPrice_text_absent.
    now destruct (Cart.totalItem cartData).
Qed.

(** The specification's two items with the backend's total "20.00 €", and
    the same items without a total. *)
Lemma total_prefers_authoritative_text_witness :
  (Cart.totalPrice
     (Example.cart [Example.line 1 "10,00 €" 2; Example.line 2 "5 €" 1]
                   [{| title := "Total"; text := "20.00 €" |}] [])
   = Spec.parseCurrencyText "20.00 €"
   /\ JS.isNaN
        (Cart.totalPrice
           (Example.cart [Example.line 1 "10,00 €" 2; Example.line 2 "5 €" 1]
                         [{| title := "Total"; text := "20.00 €" |}] []))
      = false
   /\ Cart.totalPrice_text
        (Cart.computeTotals
           (Example.cart [Example.line 1 "10,00 €" 2; Example.line 2 "5 €" 1]
                         [{| title := "Total"; text := "20.00 €" |}] []))
      = JS.toFixed (Spec.parseCurrencyText "20.00 €") 2)
  /\ Cart.totalPrice_text
       (Cart.computeTotals
          (Example.cart [Example.line 1 "10,00 €" 2; Example.line 2 "5 €" 1]
                        [] []))
     = Cart.subTotal_text
         (Cart.computeTotals
            (Example.cart [Example.line 1 "10,00 €" 2; Example.line 2 "5 €" 1]
                          [] [])).
Proof.
  split.
  - exact (proj1 (total_prefers_authoritative_text
                    (Example.cart
                       [Example.line 1 "10,00 €" 2; Example.line 2 "5 €" 1]
                       [{| title := "Total"; text := "20.00 €" |}] []))
                 "20.00 €"%string eq_refl eq_refl eq_refl).
  - exact (proj2 (proj2 (total_prefers_authoritative_text
                           (Example.cart
                              [Example.line 1 "10,00 €" 2; Example.line 2 "5 €" 1]
                              [] []))
                        eq_refl)).
Defined.

(** A total text without a digit is present and does not parse: the total
    is then [NaN], not the subtotal.  The total text "20,00 €" is present
    and parses to 20.00 as the specification reads it: the total is then
    2000.00. *)
Lemma total_claim_counterexample :
  ~ Spec.total_claim
      (Example.cart [Example.line 1 "5" 1]
                    [{| title := "Total"; text := "n/a" |}] [])
  /\ ~ Spec.total_claim
        (Example.cart [Example.line 1 "10,00 €" 2; Example.line 2 "5 €" 1]
                      [{| title := "Total"; text := "20,00 €" |}] []).
Proof.
  split; intros H; vm_compute in H; discriminate H.
Qed.

Lemma totals_of_examples :
  Cart.computeTotals
    (Example.cart [Example.line 1 "5" 1] [{| title := "Total"; text := "n/a" |}] [])
  = {| Cart.subTotal_text := "5.00"; Cart.totalPrice_text := "NaN" |}
  /\ Cart.computeTotals
       (Example.cart [Example.line 1 "10,00 €" 2; Example.line 2 "5 €" 1] [] [])
     = {| Cart.subTotal_text := "25.00"; Cart.totalPrice_text := "25.00" |}
  /\ Cart.computeTotals
       (Example.cart [Example.line 1 "10,00 €" 2; Example.line 2 "5 €" 1]
                     [{| title := "Total"; text := "20,00 €" |}] [])
     = {| Cart.subTotal_text := "25.00"; Cart.totalPrice_text := "2000.00" |}.
Proof. repeat split; vm_compute; reflexivity. Qed.

Lemma strip_non_numeric_filter (t : string) :
  list_ascii_of_string (JS.strip_non_numeric t)
  = filter (fun c => (JS.is_digit c || Ascii.eqb c ".")%bool)
           (list_ascii_of_string t).
Proof.
  induction t as [ | c t IH]; [reflexivity | ].
  cbn [JS.strip_non_numeric list_ascii_of_string filter].
  destruct (JS.is_digit c || Ascii.eqb c ".")%bool; cbn; now rewrite IH.
Qed.

(** C10.  The backend's total is read from the entry of [totals] titled
    exactly "Total", the first one if there are several: the total is what
    [parseFloat] reads from that entry's text once every character other
    than digits and dots is removed.  Entries with other titles are passed
    over, and when no entry is titled "Total" the total is the computed
    subtotal. *)
Theorem total_read_from_entry_titled_Total (cartData : CartData) :
  (forall before entry after,
      totals cartData = before ++ entry :: after ->
      Forall (fun e => title e <> "Total"%string) before ->
      title entry = "Total"%string ->
      Cart.totalPrice cartData
      = JS.parseFloat (JS.strip_non_numeric (text entry))
      /\ Cart.totalPrice_text (Cart.computeTotals cartData)
         = JS.toFixed (JS.parseFloat (JS.strip_non_numeric (text entry))) 2)
  /\ ((exists entry, In entry (totals cartData) /\ title entry = "Total"%string) ->
      exists entry,
        In entry (totals cartData) /\ title entry = "Total"%string
        /\ Cart.totalPrice cartData
           = JS.parseFloat (JS.strip_non_numeric (text entry)))
  /\ (Forall (fun e => title e <> "Total"%string) (totals cartData) ->
      Cart.totalPrice cartData = Cart.subTotal (Cart.cartItems cartData)
      /\ Cart.totalPrice_text (Cart.computeTotals cartData)
         = Cart.subTotal_text (Cart.computeTotals cartData))
  /\ (forall t : string,
         list_ascii_of_string (JS.strip_non_numeric t)
         = filter (fun c => (JS.is_digit c || Ascii.eqb c ".")%bool)
                  (list_ascii_of_string t)).
Proof.
  split; [ | split; [ | split]].
  - intros before entry after Hsplit Hbefore Hentry.
    apply totalPrice_text_present. unfold Cart.totalItem. rewrite Hsplit.
    now apply find_first_total.
  - intros [entry [Hin Htitle]].
    destruct (Cart.totalItem cartData) as [found | ] eqn:Hfind.
    + exists found. unfold Cart.totalItem in Hfind.
      pose proof (find_some _ _ Hfind) as [Hfound Heqb].
      apply String.eqb_eq in Heqb. repeat split; try assumption.
      now apply totalPrice_text_present.
    + exfalso. unfold Cart.totalItem in Hfind.
      pose proof (find_none _ _ Hfind entry Hin) as Hne. cbn in Hne.
      rewrite Htitle in Hne. discriminate.
  - intros Hnone. apply totalPrice_text_absent. now apply find_no_total.
  - apply strip_non_numeric_filter.
Qed.

(** The total entry behind a sub-total entry is the one that is read. *)
Lemma total_read_from_entry_titled_Total_witness :
  Cart.totalPrice_text
    (Cart.computeTotals
       (Example.cart [Example.line 1 "4.50" 2]
                     [{| title := "Sub-Total"; text := "9.00€" |};
                      {| title := "Total"; text := "10.71€" |}] []))
  = JS.toFixed (JS.parseFloat (JS.strip_non_numeric "10.71€")) 2
  /\ Cart.totalPrice_text
       (Cart.computeTotals
          (Example.cart [Example.line 1 "4.50" 2]
                        [{| title := "Sub-Total"; text := "9.00€" |};
                         {| title := "total"; text := "10.71€" |}] []))
     = Cart.subTotal_text
         (Cart.computeTotals
            (Example.cart [Example.line 1 "4.50" 2]
                          [{| title := "Sub-Total"; text := "9.00€" |};
                           {| title := "total"; text := "10.71€" |}] [])).
Proof.
  split.
  - refine (proj2 (proj1 (total_read_from_entry_titled_Total
                            (Example.cart [Example.line 1 "4.50" 2]
                               [{| title := "Sub-Total"; text := "9.00€" |};
                                {| title := "Total"; text := "10.71€" |}] []))
                         [{| title := "Sub-Total"; text := "9.00€" |}]
                         {| title := "Total"; text := "10.71€" |} []
                         eq_refl _ eq_refl)).
    constructor; [discriminate | constructor].
  - refine (proj2 (proj1 (proj2 (proj2 (total_read_from_entry_titled_Total
                            (Example.cart [Example.line 1 "4.50" 2]
                               [{| title := "Sub-Total"; text := "9.00€" |};
                                {| title := "total"; text := "10.71€" |}] []))))
                         _)).
    constructor; [discriminate | constructor; [discriminate | constructor]].
Defined.

(** ** The specification's examples, run *)

Example salad_example_of_the_specification :
  CartV2.handleCheckout Example.backend
    (Example.cart [Example.line 1 "4.50" 1] [] [Example.salat; Example.dessert])
  = ([SetIsCheckingOut true; Fetch 10; Fetch 11;
      ToastError
        "Bitte wählen Sie mindestens 2 Salat Artikels. Sie haben 1 ausgewählt.";
      SetIsCheckingOut false],
     Normal tt)
  /\ CartV1.handleCheckout
       (Example.cart [Example.line 1 "4.50" 1] [] [Example.salat; Example.dessert])
     = ([ToastError "Please select at least 2 Salat items. You have selected 1."],
        Normal tt).
Proof. split; vm_compute; reflexivity. Qed.

Example binary64_sums :
  JS.toFixed (Cart.subTotal
                (Cart.cartItems
                   (Example.cart [Example.line 1 "0.10" 1; Example.line 2 "0.20" 1]
                                 [] []))) 2
  = "0.30"%string
  /\ Cart.subTotal
       (Cart.cartItems
          (Example.cart [Example.line 1 "0.10" 1; Example.line 2 "0.20" 1] [] []))
     <> JS.parseFloat "0.3".
Proof. split; [vm_compute; reflexivity | intros H; vm_compute in H; discriminate H]. Qed.

(** * Further properties *)

(** ** The handlers of the second revision *)

(** X1.  No handler of the cart page lets an error escape: whatever the
    backend answers, a rejected mutation and a rejected lookup are caught,
    and the handler completes. *)
Theorem handlers_complete_normally
        (backend : Backend) (cartData : CartData) (item : CartItem) :
  snd (CartV2.handleIncrement backend item) = Normal tt
  /\ snd (CartV2.handleDecrement backend item) = Normal tt
  /\ snd (CartV2.handleRemove backend item) = Normal tt
  /\ snd (CartV2.handleCheckout backend cartData) = Normal tt.
Proof.
  assert (Hremove : snd (CartV2.handleRemove backend item) = Normal tt).
  { unfold CartV2.handleRemove, CartV2.unwrap.
    now destruct (removeProduct backend (cart_id item) 0) as [[[] msg] | error]. }
  repeat split.
  - unfold CartV2.handleIncrement, CartV2.unwrap.
    now destruct (editProduct backend (cart_id item) (quantity item + 1))
      as [[[] msg] | error].
  - unfold CartV2.handleDecrement, CartV2.unwrap.
    destruct (1 <? quantity item); [ | exact Hremove].
    now destruct (editProduct backend (cart_id item) (quantity item - 1))
      as [[[] msg] | error].
  - exact Hremove.
  - destruct (CartV2.for_contents backend cartData (contents cartData))
      as [effects [[] | error]] eqn:Hloop.
    + now rewrite (handleCheckout_normal backend cartData effects Hloop).
    + now rewrite (handleCheckout_thrown backend cartData effects error Hloop).
Qed.

(** X2.  Each handler of a quantity change shows exactly one toast.  The
    toast is a success toast exactly when the backend answered the mutation
    with [success: true], and the cart is fetched again exactly when the
    mutation was answered at all, also with [success: false]; after a
    rejected mutation nothing is fetched. *)
Theorem quantity_change_feedback (backend : Backend) (item : CartItem) :
  feedback_matches backend (trace (CartV2.handleIncrement backend item))
  /\ feedback_matches backend (trace (CartV2.handleDecrement backend item))
  /\ feedback_matches backend (trace (CartV2.handleRemove backend item)).
Proof.
  assert (Hremove :
            feedback_matches backend (trace (CartV2.handleRemove backend item))).
  { unfold feedback_matches, trace, CartV2.handleRemove, CartV2.unwrap.
    destruct (removeProduct backend (cart_id item) 0) as [[[] msg] | error] eqn:Hr;
      cbn -[Z.add Z.sub]; unfold accepted, fulfilled; cbn -[Z.add Z.sub];
      rewrite Hr; cbn; repeat split. }
  split; [ | split; [ | exact Hremove]].
  - unfold feedback_matches, trace, CartV2.handleIncrement, CartV2.unwrap.
    destruct (editProduct backend (cart_id item) (quantity item + 1))
      as [[[] msg] | error] eqn:Hr;
      cbn -[Z.add Z.sub]; unfold accepted, fulfilled; cbn -[Z.add Z.sub];
      rewrite Hr; cbn; repeat split.
  - unfold CartV2.handleDecrement.
    destruct (1 <? quantity item); [ | exact Hremove].
    unfold feedback_matches, trace, CartV2.unwrap.
    destruct (editProduct backend (cart_id item) (quantity item - 1))
      as [[[] msg] | error] eqn:Hr;
      cbn -[Z.add Z.sub]; unfold accepted, fulfilled; cbn -[Z.add Z.sub];
      rewrite Hr; cbn; repeat split.
Qed.

(** ** The run of a checkout attempt *)

(** The loop asks for the products of the entries it walks through, in
    their order, and ends in one of three ways. *)
Lemma for_contents_cases (backend : Backend) (cartData : CartData)
      (menuContents : list MenuContent) :
  exists done remaining,
    menuContents = done ++ remaining
    /\ (CartV2.for_contents backend cartData menuContents
        = (CartV2Facts.fetches done ++ [RouterPush "/checkout"], Normal tt)
        \/ (exists msg,
               CartV2.for_contents backend cartData menuContents
               = (CartV2Facts.fetches done
                    ++ [ToastError msg; SetIsCheckingOut false],
                  Normal tt))
        \/ (exists error,
               CartV2.for_contents backend cartData menuContents
               = (CartV2Facts.fetches done, Throw error))).
Proof.
  induction menuContents as [ | g rest IH].
  - exists [], []. split; [reflexivity | now left].
  - assert (Hone : CartV2Facts.fetches [g] = map Fetch (ids g))
      by (unfold CartV2Facts.fetches; cbn; now rewrite app_nil_r).
    destruct (CartV2Facts.members backend g) as [ms | ] eqn:Hms.
    + destruct (Z_lt_le_dec (CartV2.currentCount (products cartData) ms)
                            (CartV2.requiredCount g)) as [Hlt | Hle].
      * exists [g], rest. split; [reflexivity | right; left].
        eexists. rewrite (for_contents_unmet backend cartData g rest ms Hms Hlt).
        now rewrite Hone.
      * destruct IH as [done [remaining [Hsplit Hcases]]].
        exists (g :: done), remaining. split; [cbn; now rewrite Hsplit | ].
        rewrite (for_contents_met backend cartData g rest ms Hms Hle).
        rewrite fetches_cons.
        destruct Hcases as [-> | [[msg ->] | [error ->]]]; cbn [fst snd].
        -- left. now rewrite app_assoc.
        -- right; left. exists msg. now rewrite app_assoc.
        -- right; right. now exists error.
    + destruct (for_contents_rejected backend cartData g rest Hms) as [error ->].
      exists [g], rest. split; [reflexivity | right; right].
      exists error. now rewrite Hone.
Qed.

Lemma handleCheckout_cases (backend : Backend) (cartData : CartData) :
  exists done remaining,
    contents cartData = done ++ remaining
    /\ (trace (CartV2.handleCheckout backend cartData)
        = SetIsCheckingOut true
            :: CartV2Facts.fetches done ++ [RouterPush "/checkout"]
        \/ (exists msg,
               trace (CartV2.handleCheckout backend cartData)
               = SetIsCheckingOut true
                   :: CartV2Facts.fetches done
                   ++ [ToastError msg; SetIsCheckingOut false])
        \/ trace (CartV2.handleCheckout backend cartData)
           = SetIsCheckingOut true
               :: CartV2Facts.fetches done
               ++ [ConsoleError "Fehler beim Validieren der Artikel im Warenkorb:";
                   ToastError CartV2.validationFailedMessage;
                   SetIsCheckingOut false]).
Proof.
  destruct (for_contents_cases backend cartData (contents cartData))
    as [done [remaining [Hsplit Hcases]]].
  exists done, remaining. split; [exact Hsplit | ]. unfold trace.
  destruct Hcases as [H | [[msg H] | [error H]]].
  - left. now rewrite (handleCheckout_normal backend cartData _ H).
  - right; left. exists msg. now rewrite (handleCheckout_normal backend cartData _ H).
  - right; right. now rewrite (handleCheckout_thrown backend cartData _ error H).
Qed.

Lemma filter_fetches (p : Effect -> bool) (l : list MenuContent) :
  (forall c, p (Fetch c) = false) -> filter p (CartV2Facts.fetches l) = [].
Proof.
  intros Hp. unfold CartV2Facts.fetches.
  induction (flat_map ids l) as [ | c cs IH]; [reflexivity | ].
  cbn [map filter]. now rewrite Hp.
Qed.

Lemma filter_is_fetch_fetches (l : list MenuContent) :
  filter is_fetch (CartV2Facts.fetches l) = CartV2Facts.fetches l.
Proof.
  unfold CartV2Facts.fetches.
  induction (flat_map ids l) as [ | c cs IH]; [reflexivity | ].
  cbn [map filter is_fetch]. now rewrite IH.
Qed.

Lemma flag_after_app (l1 l2 : list Effect) (flag : bool) :
  flag_after (l1 ++ l2) flag = flag_after l2 (flag_after l1 flag).
Proof. unfold flag_after. apply fold_left_app. Qed.

Lemma flag_after_fetches (l : list MenuContent) (flag : bool) :
  flag_after (CartV2Facts.fetches l) flag = flag.
Proof.
  unfold CartV2Facts.fetches, flag_after.
  induction (flat_map ids l) as [ | c cs IH]; [reflexivity | exact IH].
Qed.

(** X3.  A checkout attempt ends in exactly one of two ways.  Either it
    navigates to the checkout, then it shows no toast and leaves
    [isCheckingOut] set, so that the button stays disabled; or it shows
    exactly one error toast and does not navigate, and then its last effects
    leave [isCheckingOut] cleared. *)
Theorem checkout_navigates_or_reports (backend : Backend) (cartData : CartData) :
  (In (RouterPush "/checkout") (trace (CartV2.handleCheckout backend cartData)) ->
   filter is_toast (trace (CartV2.handleCheckout backend cartData)) = []
   /\ forall flag,
       flag_after (trace (CartV2.handleCheckout backend cartData)) flag = true)
  /\ (~ In (RouterPush "/checkout")
           (trace (CartV2.handleCheckout backend cartData)) ->
      (exists msg,
          filter is_toast (trace (CartV2.handleCheckout backend cartData))
          = [ToastError msg])
      /\ forall flag,
          flag_after (trace (CartV2.handleCheckout backend cartData)) flag = false).
Proof.
  destruct (handleCheckout_cases backend cartData)
    as [done [remaining [_ [H | [[msg H] | H]]]]]; rewrite H; split.
  - intros _. split.
    + cbn [filter is_toast]. rewrite filter_app, filter_fetches by reflexivity.
      reflexivity.
    + intros flag. change (SetIsCheckingOut true :: ?l) with ([SetIsCheckingOut true] ++ l).
      now rewrite !flag_after_app, flag_after_fetches.
  - intros Hno. exfalso. apply Hno. right. apply in_or_app. right. now left.
  - intros [Hin | Hin]; [discriminate | ]. exfalso.
    apply in_app_or in Hin. destruct Hin as [Hin | Hin].
    + revert Hin. apply not_in_fetches. discriminate.
    + cbn in Hin. destruct Hin as [Hin | [Hin | []]]; discriminate.
  - intros _. split.
    + exists msg. cbn [filter is_toast].
      rewrite filter_app, filter_fetches by reflexivity. reflexivity.
    + intros flag. change (SetIsCheckingOut true :: ?l) with ([SetIsCheckingOut true] ++ l).
      now rewrite !flag_after_app, flag_after_fetches.
  - intros [Hin | Hin]; [discriminate | ]. exfalso.
    apply in_app_or in Hin. destruct Hin as [Hin | Hin].
    + revert Hin. apply not_in_fetches. discriminate.
    + cbn in Hin. destruct Hin as [Hin | [Hin | [Hin | []]]]; discriminate.
  - intros _. split.
    + exists CartV2.validationFailedMessage. cbn [filter is_toast].
      rewrite filter_app, filter_fetches by reflexivity. reflexivity.
    + intros flag. change (SetIsCheckingOut true :: ?l) with ([SetIsCheckingOut true] ++ l).
      now rewrite !flag_after_app, flag_after_fetches.
Qed.

(** X4.  A checkout attempt looks up the categories of the menu entries in
    the order of the menu, entry by entry, and nothing else: the lookups it
    makes are those of an initial part of the menu. *)
Theorem checkout_fetches_menu_prefix (backend : Backend) (cartData : CartData) :
  exists done remaining,
    contents cartData = done ++ remaining
    /\ filter is_fetch (trace (CartV2.handleCheckout backend cartData))
       = map Fetch (flat_map ids done).
Proof.
  destruct (handleCheckout_cases backend cartData)
    as [done [remaining [Hsplit Hcases]]].
  exists done, remaining. split; [exact Hsplit | ].
  fold (CartV2Facts.fetches done).
  destruct Hcases as [H | [[msg H] | H]]; rewrite H;
    cbn [filter is_fetch]; rewrite filter_app, filter_is_fetch_fetches;
    cbn; apply app_nil_r.
Qed.

(** X5.  Validating the cart changes nothing in it: a checkout attempt
    calls neither mutation, does not fetch the cart again and shows no
    success toast. *)
Theorem checkout_changes_nothing (backend : Backend) (cartData : CartData)
        (e : Effect) :
  In e (trace (CartV2.handleCheckout backend cartData)) ->
  CartV2Facts.is_mutation e = false
  /\ is_refetch e = false
  /\ is_success_toast e = false.
Proof.
  intros Hin.
  destruct (handleCheckout_cases backend cartData)
    as [done [remaining [_ [H | [[msg H] | H]]]]]; rewrite H in Hin;
    (destruct Hin as [<- | Hin]; [now repeat split | ]);
    apply in_app_or in Hin;
    (destruct Hin as [Hin | Hin];
     [ unfold CartV2Facts.fetches in Hin; apply in_map_iff in Hin;
       destruct Hin as [c [<- _]]; now repeat split | ]).
  - destruct Hin as [<- | []]. now repeat split.
  - destruct Hin as [<- | [<- | []]]; now repeat split.
  - destruct Hin as [<- | [<- | [<- | []]]]; now repeat split.
Qed.

(** ** More on counting *)

Lemma sum_quantities_app (l1 l2 : list CartItem) :
  Spec.sum_quantities (l1 ++ l2)
  = Spec.sum_quantities l1 + Spec.sum_quantities l2.
Proof.
  induction l1 as [ | it l1 IH]; cbn; [reflexivity | ].
  fold (Spec.sum_quantities (l1 ++ l2)). fold (Spec.sum_quantities l1). lia.
Qed.

Lemma sum_quantities_filter_permutation (p : CartItem -> bool)
      (l1 l2 : list CartItem) :
  Permutation l1 l2 ->
  Spec.sum_quantities (filter p l1) = Spec.sum_quantities (filter p l2).
Proof.
  induction 1 as [ | x l1 l2 _ IH | x y l | l1 l2 l3 _ IH1 _ IH2].
  - reflexivity.
  - cbn [filter]. destruct (p x); [ | exact IH].
    cbn. fold (Spec.sum_quantities (filter p l1)).
    fold (Spec.sum_quantities (filter p l2)). lia.
  - cbn [filter]. destruct (p x), (p y); cbn;
      fold (Spec.sum_quantities (filter p l)); lia.
  - congruence.
Qed.

Lemma sum_quantities_nonnegative (items : list CartItem) :
  Forall (fun it => 0 <= quantity it) items -> 0 <= Spec.sum_quantities items.
Proof.
  induction 1 as [ | it items Hit _ IH]; cbn; [lia | ].
  fold (Spec.sum_quantities items). lia.
Qed.

Lemma sum_quantities_filter_le (p : CartItem -> bool) (items : list CartItem) :
  Forall (fun it => 0 <= quantity it) items ->
  Spec.sum_quantities (filter p items) <= Spec.sum_quantities items.
Proof.
  induction 1 as [ | it items Hit _ IH]; cbn [filter]; [lia | ].
  destruct (p it); cbn; fold (Spec.sum_quantities items);
    try fold (Spec.sum_quantities (filter p items)); lia.
Qed.

(** *** The sums of the code's numbers *)

Lemma iter_pos_nat {A : Type} (f : A -> A) (n : positive) (x : A) :
  iter_pos f n x = Nat.iter (Pos.to_nat n) f x.
Proof.
  revert x. induction n as [n IH | n IH | ]; intros x; cbn [iter_pos].
  - rewrite !IH, Pos2Nat.inj_xI.
    replace (S (2 * Pos.to_nat n)) with (Pos.to_nat n + (Pos.to_nat n + 1))%nat by lia.
    now rewrite !Nat.iter_add.
  - rewrite !IH, Pos2Nat.inj_xO.
    replace (2 * Pos.to_nat n)%nat with (Pos.to_nat n + Pos.to_nat n)%nat by lia.
    now rewrite Nat.iter_add.
  - reflexivity.
Qed.

Lemma pos_iter_shifted (p d : positive) :
  Pos.iter xO p d = Binary64.shifted p (Pos.to_nat d).
Proof. apply Pos2Nat.inj_iter. Qed.

Lemma digits_shifted (p : positive) (k : nat) :
  Zpos (digits2_pos (Binary64.shifted p k)) = Zpos (digits2_pos p) + Z.of_nat k.
Proof.
  induction k as [ | k IH]; [cbn; lia | ].
  change (Binary64.shifted p (S k)) with (xO (Binary64.shifted p k)).
  cbn [digits2_pos]. lia.
Qed.

Lemma shifted_value (p : positive) (k : nat) :
  Zpos (Binary64.shifted p k) = Zpos p * 2 ^ Z.of_nat k.
Proof.
  induction k as [ | k IH]; [cbn; lia | ].
  change (Binary64.shifted p (S k)) with (xO (Binary64.shifted p k)).
  rewrite Nat2Z.inj_succ, Z.pow_succ_r by lia. lia.
Qed.

Lemma shifted_add (p : positive) (j k : nat) :
  Binary64.shifted (Binary64.shifted p j) k = Binary64.shifted p (k + j).
Proof. unfold Binary64.shifted. now rewrite Nat.iter_add. Qed.

Lemma shr_shifted (p : positive) (j k : nat) :
  Nat.iter k shr_1 {| shr_m := Zpos (Binary64.shifted p (k + j)); shr_r := false; shr_s := false |}
  = {| shr_m := Zpos (Binary64.shifted p j); shr_r := false; shr_s := false |}.
Proof.
  induction k as [ | k IH]; [reflexivity | ].
  rewrite Nat.iter_succ_r. cbn [Nat.add]. 
  change (Binary64.shifted p (S (k + j))) with (xO (Binary64.shifted p (k + j))).
  cbn [shr_1 orb]. exact IH.
Qed.

Lemma digits_bound (p : positive) :
  Zpos p < 2 ^ 53 -> Zpos (digits2_pos p) <= 53.
Proof.
  intros H.
  assert (Hsize : forall q, 2 ^ (Zpos (digits2_pos q) - 1) <= Zpos q).
  { induction q as [q IH | q IH | ]; cbn [digits2_pos].
    - replace (Zpos (Pos.succ (digits2_pos q)) - 1) with (Z.succ (Zpos (digits2_pos q) - 1)) by lia.
      rewrite Z.pow_succ_r by lia. lia.
    - replace (Zpos (Pos.succ (digits2_pos q)) - 1) with (Z.succ (Zpos (digits2_pos q) - 1)) by lia.
      rewrite Z.pow_succ_r by lia. lia.
    - cbn. lia. }
  specialize (Hsize p).
  destruct (Z_le_gt_dec (Zpos (digits2_pos p)) 53) as [Hle | Hgt]; [exact Hle | ].
  exfalso. assert (2 ^ 53 <= 2 ^ (Zpos (digits2_pos p) - 1)).
  { apply Z.pow_le_mono_r; lia. }
  lia.
Qed.

(** A mantissa of 53 bits is left as it is by the rounding. *)
Lemma round_canonical (m : positive) (e : Z) :
  Zpos (digits2_pos m) = 53 -> -52 <= e + 53 <= 1024 ->
  binary_round_aux 53 1024 false (Zpos m) e loc_Exact = S754_finite false m e.
Proof.
  intros Hd He. unfold binary_round_aux, shr_fexp.
  cbn [Zdigits2 shr_record_of_loc]. rewrite Hd.
  unfold fexp, emin.
  replace (Z.max (53 + e - 53) (3 - 1024 - 53) - e) with 0 by lia.
  cbn [shr shr_m loc_of_shr_record round_nearest_even Zdigits2 shr_record_of_loc].
  rewrite Hd.
  replace (Z.max (53 + e - 53) (3 - 1024 - 53) - e) with 0 by lia.
  cbn [shr shr_m].
  destruct (Z.leb_spec e (1024 - 53)); [reflexivity | lia].
Qed.

Lemma binary_round_shifted (p : positive) (k : nat) :
  Zpos (digits2_pos p) <= 53 ->
  binary_round 53 1024 false (Binary64.shifted p k) (- Z.of_nat k) = Binary64.canonical p.
Proof.
  intros Hd. unfold binary_round.
  rewrite digits_shifted.
  replace (fexp 53 1024 (Zpos (digits2_pos p) + Z.of_nat k + - Z.of_nat k))
    with (Zpos (digits2_pos p) - 53) by (unfold fexp, emin; lia).
  unfold shl_align.
  destruct (Zpos (digits2_pos p) - 53 - - Z.of_nat k) as [ | s | s] eqn:Hs.
  - (* the mantissa has 53 bits already *)
    assert (Hk : k = Z.to_nat (53 - Zpos (digits2_pos p))) by lia.
    rewrite round_canonical.
    + unfold Binary64.canonical. rewrite <- Hk. f_equal. lia.
    + rewrite digits_shifted. lia.
    + lia.
  - (* too many bits: the low ones, all zero, are Binary64.shifted out *)
    unfold binary_round_aux at 1, shr_fexp at 1.
    cbn [Zdigits2 shr_record_of_loc]. rewrite digits_shifted.
    replace (fexp 53 1024 (Zpos (digits2_pos p) + Z.of_nat k + - Z.of_nat k)
             - - Z.of_nat k) with (Zpos s) by (unfold fexp, emin; lia).
    cbn [shr]. rewrite iter_pos_nat.
    assert (Hshr : Nat.iter (Pos.to_nat s) shr_1
                     {| shr_m := Zpos (Binary64.shifted p k); shr_r := false; shr_s := false |}
                   = {| shr_m := Zpos (Binary64.shifted p (Z.to_nat (53 - Zpos (digits2_pos p))));
                        shr_r := false; shr_s := false |}).
    { replace k with (Pos.to_nat s + Z.to_nat (53 - Zpos (digits2_pos p)))%nat at 1 by lia.
      apply shr_shifted. }
    rewrite Hshr.
    cbn [shr_m loc_of_shr_record round_nearest_even].
    unfold shr_fexp.
    cbn [Zdigits2 shr_record_of_loc]. rewrite digits_shifted.
    replace (fexp 53 1024
               (Zpos (digits2_pos p) + Z.of_nat (Z.to_nat (53 - Zpos (digits2_pos p)))
                + (- Z.of_nat k + Zpos s)) - (- Z.of_nat k + Zpos s))
      with 0 by (unfold fexp, emin; lia).
    cbn [shr shr_m].
    destruct (Z.leb_spec (- Z.of_nat k + Zpos s) (1024 - 53)); [ | lia].
    unfold Binary64.canonical. f_equal. lia.
  - (* too few bits: the mantissa is Binary64.shifted to the left *)
    rewrite pos_iter_shifted, shifted_add.
    rewrite round_canonical.
    + unfold Binary64.canonical. f_equal. f_equal. lia.
    + rewrite digits_shifted. lia.
    + lia.
Qed.

Lemma of_Z_canonical (p : positive) :
  Zpos p < 2 ^ 53 -> JS.of_Z (Zpos p) = Binary64.canonical p.
Proof.
  intros H. unfold JS.of_Z, binary_normalize.
  apply (binary_round_shifted p 0). now apply digits_bound.
Qed.

Lemma add_canonical (p q : positive) :
  Zpos p + Zpos q < 2 ^ 53 ->
  JS.add (Binary64.canonical p) (Binary64.canonical q) = Binary64.canonical (p + q).
Proof.
  intros H.
  assert (Hp : Zpos (digits2_pos p) <= 53) by (apply digits_bound; lia).
  assert (Hq : Zpos (digits2_pos q) <= 53) by (apply digits_bound; lia).
  assert (Hpq : Zpos (digits2_pos (p + q)) <= 53) by (apply digits_bound; lia).
  unfold JS.add, Binary64.canonical at 1 2, SFadd. cbn [cond_Zopp].
  set (dp := Zpos (digits2_pos p)) in *. set (dq := Zpos (digits2_pos q)) in *.
  set (K := Z.to_nat (53 - Z.min dp dq)).
  assert (Hleft : fst (shl_align (Binary64.shifted p (Z.to_nat (53 - dp))) (dp - 53)
                                 (Z.min (dp - 53) (dq - 53)))
                  = Binary64.shifted p K).
  { unfold shl_align.
    destruct (Z.min (dp - 53) (dq - 53) - (dp - 53)) as [ | s | s] eqn:Hs.
    - cbn [fst]. f_equal. lia.
    - lia.
    - cbn [fst]. rewrite pos_iter_shifted, shifted_add. f_equal. lia. }
  assert (Hright : fst (shl_align (Binary64.shifted q (Z.to_nat (53 - dq))) (dq - 53)
                                  (Z.min (dp - 53) (dq - 53)))
                   = Binary64.shifted q K).
  { unfold shl_align.
    destruct (Z.min (dp - 53) (dq - 53) - (dq - 53)) as [ | s | s] eqn:Hs.
    - cbn [fst]. f_equal. lia.
    - lia.
    - cbn [fst]. rewrite pos_iter_shifted, shifted_add. f_equal. lia. }
  rewrite Hleft, Hright.
  assert (Hsum : Zpos (Binary64.shifted p K) + Zpos (Binary64.shifted q K) = Zpos (Binary64.shifted (p + q) K)).
  { rewrite !shifted_value. lia. }
  rewrite Hsum. cbn [binary_normalize].
  replace (Z.min (dp - 53) (dq - 53)) with (- Z.of_nat K) by lia.
  now apply binary_round_shifted.
Qed.

(** Adding two integers that are not negative is exact in binary64 as long
    as the sum is below 2^53. *)
Lemma add_of_Z (a b : Z) :
  0 <= a -> 0 <= b -> a + b < 2 ^ 53 ->
  JS.add (JS.of_Z a) (JS.of_Z b) = JS.of_Z (a + b).
Proof.
  intros Ha Hb H.
  destruct a as [ | p | p]; [ | | lia].
  - destruct b as [ | q | q]; [reflexivity | | lia].
    cbn [Z.add]. rewrite of_Z_canonical by lia. reflexivity.
  - destruct b as [ | q | q]; [ | | lia].
    + rewrite Z.add_0_r. rewrite of_Z_canonical by lia. reflexivity.
    + rewrite !of_Z_canonical by lia.
      change (Zpos p + Zpos q) with (Zpos (p + q)).
      rewrite of_Z_canonical by lia. now apply add_canonical.
Qed.

Lemma of_Z_or_zero (n : Z) :
  0 <= n < 2 ^ 53 -> JS.or_zero (JS.of_Z n) = JS.of_Z n.
Proof.
  intros H. destruct n as [ | p | p]; [reflexivity | | lia].
  rewrite of_Z_canonical by lia. reflexivity.
Qed.

Lemma counts_exactly_permutation (l1 l2 : list CartItem) :
  counts_exactly l1 -> Permutation l1 l2 -> counts_exactly l2.
Proof.
  intros [Hall Hsum] Hperm. split.
  - exact (Permutation_Forall Hperm Hall).
  - pose proof (sum_quantities_filter_permutation (fun _ => true) l1 l2 Hperm) as H.
    assert (Hfilter : forall l : list CartItem, filter (fun _ => true) l = l).
    { induction l as [ | x l IH]; cbn; [reflexivity | now rewrite IH]. }
    rewrite !Hfilter in H. now rewrite <- H.
Qed.

Lemma counts_exactly_parts (l1 l2 : list CartItem) :
  counts_exactly (l1 ++ l2) -> counts_exactly l1 /\ counts_exactly l2.
Proof.
  intros [Hall Hsum]. apply Forall_app in Hall. destruct Hall as [H1 H2].
  rewrite sum_quantities_app in Hsum.
  pose proof (sum_quantities_nonnegative l1 H1).
  pose proof (sum_quantities_nonnegative l2 H2).
  repeat split; try assumption; lia.
Qed.

Lemma binary64_count_fold (ms : list CategoryProduct) (items : list CartItem)
      (acc : Z) :
  0 <= acc ->
  Forall (fun it => 0 <= quantity it) items ->
  acc + Spec.sum_quantities items < 2 ^ 53 ->
  fold_left (fun sum product =>
               if CartV2.isInCategory ms product
               then JS.add sum (JS.of_Z (quantity product))
               else sum)
            items (JS.of_Z acc)
  = JS.of_Z (acc + Spec.sum_quantities (filter (Spec.is_member ms) items)).
Proof.
  intros Hacc Hall. revert acc Hacc.
  induction Hall as [ | it items Hit Hall IH]; intros acc Hacc Hsum;
    cbn [fold_left filter].
  - cbn. now rewrite Z.add_0_r.
  - cbn [Spec.sum_quantities fold_right] in Hsum.
    fold (Spec.sum_quantities items) in Hsum.
    pose proof (sum_quantities_nonnegative items Hall) as Hrest.
    rewrite isInCategory_is_member.
    destruct (Spec.is_member ms it).
    + rewrite add_of_Z by lia. rewrite IH by lia.
      cbn [Spec.sum_quantities fold_right].
      fold (Spec.sum_quantities (filter (Spec.is_member ms) items)).
      f_equal. lia.
    + apply IH; lia.
Qed.

Lemma binary64_currentCount (items : list CartItem) (ms : list CategoryProduct) :
  counts_exactly items ->
  Binary64.currentCount items ms = JS.of_Z (CartV2.currentCount items ms).
Proof.
  intros [Hall Hsum]. unfold Binary64.currentCount.
  change JS.zero with (JS.of_Z 0).
  rewrite binary64_count_fold by (try assumption; lia).
  rewrite currentCount_sum, Z.add_0_l.
  apply of_Z_or_zero.
  pose proof (sum_quantities_filter_le (Spec.is_member ms) items Hall).
  pose proof (currentCount_nonnegative items ms Hall) as Hpos.
  rewrite currentCount_sum in Hpos. lia.
Qed.

(** From 2^53 on the sum of the code's numbers depends on the order of the
    lines. *)
Lemma binary64_sum_depends_on_order :
  Binary64.getTotalItems
    (Some [Example.line 1 "1.00" (2 ^ 53); Example.line 2 "1.00" 1;
           Example.line 3 "1.00" 1])
  = JS.of_Z (2 ^ 53)
  /\ Binary64.getTotalItems
       (Some [Example.line 2 "1.00" 1; Example.line 3 "1.00" 1;
              Example.line 1 "1.00" (2 ^ 53)])
     = JS.of_Z (2 ^ 53 + 2).
Proof. split; vm_compute; reflexivity. Qed.

(** X6.  With quantities that are not negative and sum to less than 2^53,
    the count of a menu entry, as the integer of the embedding and as the
    binary64 number the code computes, does not depend on the order of the
    cart lines, and the count over two parts of a cart is the sum of the
    counts over the parts; the number the code computes is the integer. *)
Theorem currentCount_order_and_parts (ms : list CategoryProduct) :
  (forall l1 l2 : list CartItem,
      counts_exactly l1 ->
      Permutation l1 l2 ->
      CartV2.currentCount l1 ms = CartV2.currentCount l2 ms
      /\ Binary64.currentCount l1 ms = Binary64.currentCount l2 ms)
  /\ (forall l1 l2 : list CartItem,
         counts_exactly (l1 ++ l2) ->
         CartV2.currentCount (l1 ++ l2) ms
         = CartV2.currentCount l1 ms + CartV2.currentCount l2 ms
         /\ Binary64.currentCount (l1 ++ l2) ms
            = JS.add (Binary64.currentCount l1 ms) (Binary64.currentCount l2 ms))
  /\ (forall items : list CartItem,
         counts_exactly items ->
         Binary64.currentCount items ms
         = JS.of_Z (CartV2.currentCount items ms)).
Proof.
  assert (Horder : forall l1 l2 : list CartItem,
             Permutation l1 l2 ->
             CartV2.currentCount l1 ms = CartV2.currentCount l2 ms).
  { intros l1 l2 Hperm. rewrite !currentCount_sum.
    now apply sum_quantities_filter_permutation. }
  assert (Hparts : forall l1 l2 : list CartItem,
             CartV2.currentCount (l1 ++ l2) ms
             = CartV2.currentCount l1 ms + CartV2.currentCount l2 ms).
  { intros l1 l2. rewrite !currentCount_sum, filter_app.
    apply sum_quantities_app. }
  split; [ | split].
  - intros l1 l2 Hexact Hperm. split; [now apply Horder | ].
    rewrite !binary64_currentCount;
      [ | now apply (counts_exactly_permutation l1) | assumption].
    f_equal. now apply Horder.
  - intros l1 l2 Hexact. split; [apply Hparts | ].
    destruct (counts_exactly_parts l1 l2 Hexact) as [H1 H2].
    rewrite !binary64_currentCount by assumption.
    rewrite Hparts. symmetry. apply add_of_Z.
    + apply currentCount_nonnegative, H1.
    + apply currentCount_nonnegative, H2.
    + rewrite <- Hparts, currentCount_sum.
      destruct Hexact as [Hall Hsum].
      pose proof (sum_quantities_filter_le (Spec.is_member ms) _ Hall). lia.
  - intros items. apply binary64_currentCount.
Qed.

Lemma currentCount_order_and_parts_witness :
  counts_exactly [Example.line 1 "4.50" 2; Example.line 3 "3.00" 1]
  /\ CartV2.currentCount [Example.line 1 "4.50" 2; Example.line 3 "3.00" 1]
                         [{| category_product_id := 1 |}]
     = CartV2.currentCount [Example.line 3 "3.00" 1; Example.line 1 "4.50" 2]
                           [{| category_product_id := 1 |}]
  /\ Binary64.currentCount [Example.line 1 "4.50" 2; Example.line 3 "3.00" 1]
                           [{| category_product_id := 1 |}]
     = Binary64.currentCount [Example.line 3 "3.00" 1; Example.line 1 "4.50" 2]
                             [{| category_product_id := 1 |}].
Proof.
  assert (Hexact : counts_exactly
                     [Example.line 1 "4.50" 2; Example.line 3 "3.00" 1]).
  { split; [repeat constructor; cbn; lia | vm_compute; reflexivity]. }
  split; [exact Hexact | ].
  apply (proj1 (currentCount_order_and_parts [{| category_product_id := 1 |}]));
    [exact Hexact | apply perm_swap].
Defined.

Lemma is_member_same_ids (ms1 ms2 : list CategoryProduct) (it : CartItem) :
  (forall id, In id (Spec.memberProductIds ms1)
              <-> In id (Spec.memberProductIds ms2)) ->
  Spec.is_member ms1 it = Spec.is_member ms2 it.
Proof.
  intros Hsame. unfold Spec.is_member.
  destruct (in_dec Z.eq_dec (product_id it) (Spec.memberProductIds ms1)) as [H1 | H1];
    destruct (in_dec Z.eq_dec (product_id it) (Spec.memberProductIds ms2)) as [H2 | H2];
    try reflexivity; exfalso.
  - apply H2. now apply Hsame.
  - apply H1. now apply Hsame.
Qed.

(** X7.  The count of a menu entry depends on its members as a set only:
    two lists with the same product identifiers give the same count, in
    whatever order and however often the identifiers are listed.  In
    particular a product listed under two categories of an entry counts
    once. *)
Theorem currentCount_members_as_set
        (items : list CartItem) (ms1 ms2 : list CategoryProduct) :
  (forall id, In id (Spec.memberProductIds ms1)
              <-> In id (Spec.memberProductIds ms2)) ->
  CartV2.currentCount items ms1 = CartV2.currentCount items ms2.
Proof.
  intros Hsame. rewrite !currentCount_sum. f_equal.
  apply filter_ext. intros it. now apply is_member_same_ids.
Qed.

Lemma currentCount_members_as_set_witness :
  CartV2.currentCount [Example.line 1 "4.50" 2]
                      [{| category_product_id := 1 |};
                       {| category_product_id := 2 |};
                       {| category_product_id := 1 |}]
  = CartV2.currentCount [Example.line 1 "4.50" 2]
                        [{| category_product_id := 2 |};
                         {| category_product_id := 1 |}].
Proof.
  apply currentCount_members_as_set.
  intros id. cbn. tauto.
Defined.

Lemma categoryProducts_fold (results : list (option (list CategoryProduct)))
      (acc : list CategoryProduct) :
  fold_left (fun acc result =>
               match result with
               | Some ps => acc ++ ps
               | None => acc
               end)
            results acc
  = acc ++ List.concat (map listed results).
Proof.
  revert acc. induction results as [ | r results IH]; intros acc; cbn.
  - now rewrite app_nil_r.
  - rewrite IH. destruct r as [ps | ]; cbn; [now rewrite app_assoc | reflexivity].
Qed.

Lemma all_settled_results (backend : Backend) (categoryIds : list Z)
      (results : list (option (list CategoryProduct))) :
  CartV2.all_settled (map (getProductsByCategory backend) categoryIds)
  = Normal results ->
  map (getProductsByCategory backend) categoryIds = map FetchJson results.
Proof.
  revert results. induction categoryIds as [ | c cs IH]; intros results H.
  - cbn in H. now injection H as <-.
  - cbn [map CartV2.all_settled] in H.
    destruct (getProductsByCategory backend c) as [e | r] eqn:Hc; [discriminate | ].
    destruct (CartV2.all_settled (map (getProductsByCategory backend) cs))
      as [values | e] eqn:Hrest; [ | discriminate].
    injection H as <-. cbn [map]. now rewrite Hc, (IH values eq_refl).
Qed.

(** X8.  The members of a menu entry are the products that the answers to
    its lookups list, one list after the other; an answer without
    [products] adds nothing.  So, once the lookups of an entry have
    settled, a product is a member of the entry exactly when one of the
    entry's categories lists it. *)
Theorem members_are_listed_products (backend : Backend) (g : MenuContent)
        (ms : list CategoryProduct) :
  CartV2Facts.members backend g = Some ms ->
  (exists results,
      map (getProductsByCategory backend) (ids g) = map FetchJson results
      /\ ms = List.concat (map listed results))
  /\ (forall p : CategoryProduct,
         In p ms
         <-> exists c ps,
             In c (ids g)
             /\ getProductsByCategory backend c = FetchJson (Some ps)
             /\ In p ps).
Proof.
  unfold CartV2Facts.members. intros H.
  destruct (CartV2.all_settled (map (getProductsByCategory backend) (ids g)))
    as [results | error] eqn:Hall; [ | discriminate].
  injection H as <-.
  pose proof (all_settled_results backend (ids g) results Hall) as Hmap.
  assert (Hms : CartV2.categoryProducts results = List.concat (map listed results)).
  { unfold CartV2.categoryProducts. now rewrite categoryProducts_fold. }
  split; [exists results; now split | ].
  intros p. rewrite Hms, in_concat. split.
  - intros [ps [Hps Hp]]. apply in_map_iff in Hps.
    destruct Hps as [r [Hr Hin]].
    assert (Hjson : In (FetchJson r) (map (getProductsByCategory backend) (ids g)))
      by (rewrite Hmap; now apply in_map).
    apply in_map_iff in Hjson. destruct Hjson as [c [Hc Hcin]].
    destruct r as [qs | ]; cbn in Hr; subst ps; [ | contradiction].
    now exists c, qs.
  - intros [c [ps [Hc [Hanswer Hp]]]].
    exists ps. split; [ | exact Hp].
    assert (Hjson : In (FetchJson (Some ps)) (map FetchJson results)).
    { rewrite <- Hmap, <- Hanswer. now apply in_map. }
    apply in_map_iff in Hjson. destruct Hjson as [r [Hr Hin]].
    injection Hr as ->. apply in_map_iff. now exists (Some ps).
Qed.

Lemma members_are_listed_products_witness :
  In {| category_product_id := 2 |}
     [{| category_product_id := 1 |}; {| category_product_id := 2 |};
      {| category_product_id := 1 |}]
  <-> exists c ps,
      In c (ids Example.salat)
      /\ getProductsByCategory Example.backend c = FetchJson (Some ps)
      /\ In {| category_product_id := 2 |} ps.
Proof.
  exact (proj2 (members_are_listed_products
                  Example.backend Example.salat
                  [{| category_product_id := 1 |}; {| category_product_id := 2 |};
                   {| category_product_id := 1 |}] eq_refl)
               {| category_product_id := 2 |}).
Defined.

(** ** Counts, items and navigation *)

Lemma getTotalItems_fold (items : list CartItem) (acc : Z) :
  fold_left (fun total it => total + quantity it) items acc
  = acc + Spec.sum_quantities items.
Proof.
  revert acc. induction items as [ | it items IH]; intros acc; cbn.
  - lia.
  - rewrite IH. fold (Spec.sum_quantities items). lia.
Qed.

Lemma getTotalItems_sum (items : list CartItem) :
  Navbar.getTotalItems (Some items) = Spec.sum_quantities items.
Proof. unfold Navbar.getTotalItems. rewrite getTotalItems_fold. lia. Qed.

Lemma binary64_items_fold (items : list CartItem) (acc : Z) :
  0 <= acc ->
  Forall (fun it => 0 <= quantity it) items ->
  acc + Spec.sum_quantities items < 2 ^ 53 ->
  fold_left (fun total it =>
               let quantity := JS.of_Z (quantity it) in
               JS.add total (if JS.isNaN quantity then JS.zero else quantity))
            items (JS.of_Z acc)
  = JS.of_Z (acc + Spec.sum_quantities items).
Proof.
  intros Hacc Hall. revert acc Hacc.
  induction Hall as [ | it items Hit Hall IH]; intros acc Hacc Hsum;
    cbn [fold_left].
  - cbn. now rewrite Z.add_0_r.
  - cbn [Spec.sum_quantities fold_right] in *.
    fold (Spec.sum_quantities items) in *.
    pose proof (sum_quantities_nonnegative items Hall) as Hrest.
    cbv zeta. rewrite of_Z_not_NaN.
    rewrite add_of_Z by lia. rewrite IH by lia. f_equal. lia.
Qed.

Lemma binary64_getTotalItems (items : list CartItem) :
  counts_exactly items ->
  Binary64.getTotalItems (Some items)
  = JS.of_Z (Navbar.getTotalItems (Some items)).
Proof.
  intros [Hall Hsum]. unfold Binary64.getTotalItems.
  change JS.zero with (JS.of_Z 0) at 2.
  rewrite binary64_items_fold by (try assumption; lia).
  now rewrite getTotalItems_sum.
Qed.

(** X9.  The number on the cart badge of the header is the sum of the
    quantities of the cart lines.  With quantities that are not negative and
    sum to less than 2^53, the number, as the integer of the embedding and
    as the binary64 number the code computes, does not depend on the order
    of the lines, and the number for two parts of a cart is the sum of the
    numbers of the parts; the number the code computes is the integer.
    Before the cart is loaded it is 0. *)
Theorem getTotalItems_order_and_parts :
  (Navbar.getTotalItems None = 0 /\ Binary64.getTotalItems None = JS.zero)
  /\ (forall l1 l2 : list CartItem,
         counts_exactly l1 ->
         Permutation l1 l2 ->
         Navbar.getTotalItems (Some l1) = Navbar.getTotalItems (Some l2)
         /\ Binary64.getTotalItems (Some l1) = Binary64.getTotalItems (Some l2))
  /\ (forall l1 l2 : list CartItem,
         counts_exactly (l1 ++ l2) ->
         Navbar.getTotalItems (Some (l1 ++ l2))
         = Navbar.getTotalItems (Some l1) + Navbar.getTotalItems (Some l2)
         /\ Binary64.getTotalItems (Some (l1 ++ l2))
            = JS.add (Binary64.getTotalItems (Some l1))
                     (Binary64.getTotalItems (Some l2)))
  /\ (forall items : list CartItem,
         counts_exactly items ->
         Binary64.getTotalItems (Some items)
         = JS.of_Z (Navbar.getTotalItems (Some items))).
Proof.
  assert (Horder : forall l1 l2 : list CartItem,
             Permutation l1 l2 ->
             Navbar.getTotalItems (Some l1) = Navbar.getTotalItems (Some l2)).
  { intros l1 l2 Hperm. rewrite !getTotalItems_sum.
    pose proof (sum_quantities_filter_permutation (fun _ => true) l1 l2 Hperm) as H.
    assert (Hall : forall l : list CartItem, filter (fun _ => true) l = l).
    { induction l as [ | x l IH]; cbn; [reflexivity | now rewrite IH]. }
    now rewrite !Hall in H. }
  assert (Hparts : forall l1 l2 : list CartItem,
             Navbar.getTotalItems (Some (l1 ++ l2))
             = Navbar.getTotalItems (Some l1) + Navbar.getTotalItems (Some l2)).
  { intros l1 l2. rewrite !getTotalItems_sum. apply sum_quantities_app. }
  split; [split; reflexivity | split; [ | split]].
  - intros l1 l2 Hexact Hperm. split; [now apply Horder | ].
    rewrite !binary64_getTotalItems;
      [ | now apply (counts_exactly_permutation l1) | assumption].
    f_equal. now apply Horder.
  - intros l1 l2 Hexact. split; [apply Hparts | ].
    destruct (counts_exactly_parts l1 l2 Hexact) as [H1 H2].
    rewrite !binary64_getTotalItems by assumption.
    rewrite Hparts. symmetry. apply add_of_Z.
    + rewrite getTotalItems_sum. apply sum_quantities_nonnegative, H1.
    + rewrite getTotalItems_sum. apply sum_quantities_nonnegative, H2.
    + rewrite <- Hparts, getTotalItems_sum. apply Hexact.
  - intros items. apply binary64_getTotalItems.
Qed.

Lemma getTotalItems_order_and_parts_witness :
  counts_exactly [Example.line 1 "4.50" 2; Example.line 3 "3.00" 1]
  /\ Navbar.getTotalItems
       (Some [Example.line 1 "4.50" 2; Example.line 3 "3.00" 1])
     = Navbar.getTotalItems
         (Some [Example.line 3 "3.00" 1; Example.line 1 "4.50" 2])
  /\ Binary64.getTotalItems
       (Some [Example.line 1 "4.50" 2; Example.line 3 "3.00" 1])
     = Binary64.getTotalItems
         (Some [Example.line 3 "3.00" 1; Example.line 1 "4.50" 2]).
Proof.
  assert (Hexact : counts_exactly
                     [Example.line 1 "4.50" 2; Example.line 3 "3.00" 1]).
  { split; [repeat constructor; cbn; lia | vm_compute; reflexivity]. }
  split; [exact Hexact | ].
  apply (proj1 (proj2 getTotalItems_order_and_parts));
    [exact Hexact | apply perm_swap].
Defined.

(** X10.  With quantities that are not negative, the count of a menu entry
    lies between 0 and the number of items in the cart, the number the
    header shows on the badge. *)
Theorem currentCount_within_cart
        (items : list CartItem) (ms : list CategoryProduct) :
  Forall (fun it => 0 <= quantity it) items ->
  0 <= CartV2.currentCount items ms <= Navbar.getTotalItems (Some items).
Proof.
  intros Hall. rewrite getTotalItems_sum. split.
  - now apply currentCount_nonnegative.
  - rewrite currentCount_sum. now apply sum_quantities_filter_le.
Qed.

Lemma currentCount_within_cart_witness :
  0 <= CartV2.currentCount
         [Example.line 1 "4.50" 2; Example.line 3 "3.00" 1]
         [{| category_product_id := 1 |}]
    <= Navbar.getTotalItems
         (Some [Example.line 1 "4.50" 2; Example.line 3 "3.00" 1]).
Proof.
  apply currentCount_within_cart.
  constructor; [cbn; lia | constructor; [cbn; lia | constructor]].
Defined.

Lemma passes_with_more_items (backend : Backend) (cartData : CartData)
      (more : list CartItem) (g : MenuContent) :
  Forall (fun it => 0 <= quantity it) more ->
  CartV2Facts.passes backend cartData g ->
  CartV2Facts.passes backend (with_more_items cartData more) g.
Proof.
  intros Hmore [ms [Hms Hle]]. exists ms. split; [exact Hms | ].
  unfold with_more_items. cbn [products].
  rewrite currentCount_sum, filter_app, sum_quantities_app, <- !currentCount_sum.
  pose proof (currentCount_nonnegative more ms Hmore). lia.
Qed.

Lemma navigates_when_all_pass (backend : Backend) (cartData : CartData) :
  In (RouterPush "/checkout") (trace (CartV2.handleCheckout backend cartData))
  <-> Forall (CartV2Facts.passes backend cartData) (contents cartData).
Proof.
  unfold trace. split.
  - intros Hin.
    destruct (CartV2.for_contents backend cartData (contents cartData))
      as [effects [[] | error]] eqn:Hloop.
    + rewrite (handleCheckout_normal backend cartData effects Hloop) in Hin.
      destruct Hin as [Hin | Hin]; [discriminate | ].
      apply (navigation_needs_all_passing backend cartData _ "/checkout").
      now rewrite Hloop.
    + rewrite (handleCheckout_thrown backend cartData effects error Hloop) in Hin.
      destruct Hin as [Hin | Hin]; [discriminate | ].
      apply in_app_or in Hin. destruct Hin as [Hin | Hin].
      * apply (navigation_needs_all_passing backend cartData _ "/checkout").
        now rewrite Hloop.
      * cbn in Hin. destruct Hin as [Hin | [Hin | [Hin | []]]]; discriminate.
  - intros Hall.
    pose proof (for_contents_passing backend cartData (contents cartData) [] Hall)
      as Hloop.
    rewrite app_nil_r in Hloop. cbn [CartV2.for_contents emit fst snd] in Hloop.
    rewrite (handleCheckout_normal backend cartData _ Hloop).
    right. apply in_or_app. right. now left.
Qed.

(** X11.  Putting more into the cart never blocks a checkout that would go
    through: when an attempt navigates to the checkout, it also does with
    further lines in the cart, whatever their products, as long as their
    quantities are not negative and the lookups answer alike. *)
Theorem more_items_keep_checkout_open
        (backend : Backend) (cartData : CartData) (more : list CartItem) :
  Forall (fun it => 0 <= quantity it) more ->
  In (RouterPush "/checkout") (trace (CartV2.handleCheckout backend cartData)) ->
  In (RouterPush "/checkout")
     (trace (CartV2.handleCheckout backend (with_more_items cartData more))).
Proof.
  intros Hmore Hin. apply navigates_when_all_pass in Hin.
  apply navigates_when_all_pass. unfold with_more_items at 2. cbn [contents].
  revert Hin. apply Forall_impl. intros g. now apply passes_with_more_items.
Qed.

Lemma more_items_keep_checkout_open_witness :
  In (RouterPush "/checkout")
     (trace (CartV2.handleCheckout Example.backend
               (with_more_items
                  (Example.cart [Example.line 1 "4.50" 2; Example.line 3 "3.00" 1]
                                [] [Example.salat; Example.dessert])
                  [Example.line 7 "1.00" 4]))).
Proof.
  apply more_items_keep_checkout_open.
  - constructor; [cbn; lia | constructor].
  - vm_compute. tauto.
Defined.

(** ** The header and the cart page side by side *)

(** X12.  For price texts with a dot as separator (digits, possibly a dot
    and more digits, then a text without digits and separators), the header
    and the cart page compute the same amount from the same lines and show
    the same text. *)
Theorem header_and_cart_agree_on_dot_prices (cartData : CartData) :
  Forall (priced_in_form false) (products cartData) ->
  Navbar.totalPrice (products cartData) = Cart.subTotal (Cart.cartItems cartData)
  /\ Navbar.getTotalPrice (Some (products cartData))
     = Cart.subTotal_text (Cart.computeTotals cartData).
Proof.
  intros Hall.
  assert (Heq : Navbar.totalPrice (products cartData)
                = Cart.subTotal (Cart.cartItems cartData)).
  { rewrite cart_subTotal_unfolded. unfold Navbar.totalPrice.
    apply fold_left_agree. revert Hall. apply Forall_impl.
    intros it [s [Hprice Hform]] acc.
    destruct (parsed_price_in_form false s Hform) as [x [Hnan [_ [Htext Hraw]]]].
    rewrite header_line_total. unfold Navbar.price_text, cart_price.
    now rewrite Hprice, Htext, Hnan, (Hraw eq_refl). }
  split; [exact Heq | ].
  unfold Navbar.getTotalPrice, Cart.computeTotals. cbn [Cart.subTotal_text].
  now rewrite Heq.
Qed.

Lemma header_and_cart_agree_on_dot_prices_witness :
  Navbar.getTotalPrice (Some [Example.line 1 "12.50 €" 2; Example.line 2 "3 €" 1])
  = Cart.subTotal_text
      (Cart.computeTotals
         (Example.cart [Example.line 1 "12.50 €" 2; Example.line 2 "3 €" 1] [] [])).
Proof.
  refine (proj2 (header_and_cart_agree_on_dot_prices
                   (Example.cart [Example.line 1 "12.50 €" 2;
                                  Example.line 2 "3 €" 1] [] []) _)).
  constructor; [ | constructor; [ | constructor]].
  - exists "12.50 €"%string. split; [reflexivity | ].
    apply (form_fraction false "12" "50" " €" "."); try reflexivity;
      [discriminate | now left].
  - exists "3 €"%string. split; [reflexivity | ].
    apply (form_whole false "3" " €"); try reflexivity. discriminate.
Defined.

(** ** A euro sign in front of the price *)

Lemma prefix_of_append (pat r : string) : prefix pat (pat ++ r) = true.
Proof.
  induction pat as [ | a pat IH]; cbn; [now destruct r | ].
  destruct (ascii_dec a a); [exact IH | congruence].
Qed.

Lemma append_injective (pat r1 r2 : string) :
  (pat ++ r1)%string = (pat ++ r2)%string -> r1 = r2.
Proof.
  induction pat as [ | a pat IH]; cbn; [easy | ].
  intros H. injection H as H. now apply IH.
Qed.

Lemma replace_at_head (pat rep r : string) :
  JS.replace pat rep (pat ++ r) = (rep ++ r)%string.
Proof.
  destruct (replace_found pat rep (pat ++ r) (prefix_of_append pat r))
    as [t [Hs ->]].
  apply append_injective in Hs. now subst t.
Qed.

Lemma replace_comma_through_blanks (blanks r : string) :
  all_blanks blanks = true ->
  JS.replace "," "." (blanks ++ r) = (blanks ++ JS.replace "," "." r)%string.
Proof.
  induction blanks as [ | c blanks IH]; intros H; [reflexivity | ].
  unfold all_blanks in H. cbn in H. apply andb_true_iff in H.
  destruct H as [Hc H]. apply Ascii.eqb_eq in Hc. subst c.
  cbn [append]. rewrite replace_skip, (IH H); [reflexivity | ].
  apply prefix_head_differs. discriminate.
Qed.

Lemma trim_start_blanks (blanks r : string) :
  all_blanks blanks = true ->
  JS.trim_start (blanks ++ r) = JS.trim_start r.
Proof.
  induction blanks as [ | c blanks IH]; intros H; [reflexivity | ].
  unfold all_blanks in H. cbn in H. apply andb_true_iff in H.
  destruct H as [Hc H]. apply Ascii.eqb_eq in Hc. subst c.
  cbn [append]. rewrite <- (IH H). reflexivity.
Qed.

Lemma parseFloat_after_blanks (blanks r : string) :
  all_blanks blanks = true ->
  JS.parseFloat (blanks ++ r) = JS.parseFloat r.
Proof.
  intros H. unfold JS.parseFloat. now rewrite trim_start_blanks.
Qed.

(** With the comma replaced and the euro sign left in place a price text of
    the usual shape reads as with both rewritings. *)
Lemma comma_text_in_form (t : string) :
  price_form true t ->
  JS.parseFloat (JS.replace "," "." t)
  = JS.parseFloat (JS.replace "," "." (JS.replace "€" "" t)).
Proof.
  intros Hform.
  destruct Hform as [ds suffix Hds Hne Hs | ds1 ds2 suffix sep H1 H2 Hne Hsep Hs].
  - destruct (parseFloat_whole ds Hds Hne) as [m [_ Hparse]].
    destruct (header_text_whole ds suffix Hds Hs) as [suffix' [Hs' ->]].
    rewrite replace_through_digits by (reflexivity || assumption).
    rewrite (replace_comma_suffix suffix Hs).
    now rewrite (Hparse suffix Hs), (Hparse suffix' Hs').
  - destruct (parseFloat_fraction ds1 ds2 H1 H2 Hne) as [m [_ Hparse]].
    assert (Hsep' : sep = "."%char \/ sep = ","%char) by tauto.
    destruct (header_text_fraction ds1 ds2 suffix sep H1 H2 Hsep' Hs)
      as [suffix' [Hs' ->]].
    rewrite replace_through_digits by (reflexivity || assumption).
    assert (Htext : JS.replace "," "." (String sep (ds2 ++ suffix))
                    = String "." (ds2 ++ suffix)).
    { destruct Hsep' as [-> | ->].
      - rewrite replace_skip by (apply prefix_head_differs; discriminate).
        rewrite replace_through_digits by (reflexivity || assumption).
        now rewrite replace_comma_suffix.
      - apply replace_comma_found. }
    now rewrite Htext, (Hparse suffix Hs), (Hparse suffix' Hs').
Qed.

Lemma cart_price_behind_euro (r : string) :
  JS.parseFloat (JS.or_string_zero (Some ("€" ++ r)%string)) = JS.NaN.
Proof. reflexivity. Qed.

(** X13.  A euro sign and blanks in front of a price of the usual shape do
    not change what the header reads: the line counts as the same line
    without them.  The cart page reads every price text that begins with a
    euro sign as 0. *)
Theorem euro_sign_in_front (it plain : CartItem) (blanks t : string) :
  price it = Some ("€" ++ blanks ++ t)%string ->
  all_blanks blanks = true ->
  price_form true t ->
  price plain = Some t ->
  quantity plain = quantity it ->
  Navbar.line_total it = Navbar.line_total plain
  /\ cart_price it = JS.zero.
Proof.
  intros Hprice Hblanks Hform Hplain Hq. split.
  - rewrite !header_line_total. unfold Navbar.price_text.
    rewrite Hprice, Hplain, Hq, replace_at_head. cbn [append].
    rewrite replace_comma_through_blanks, parseFloat_after_blanks by assumption.
    now rewrite comma_text_in_form.
  - unfold cart_price. rewrite Hprice, cart_price_behind_euro. reflexivity.
Qed.

Lemma euro_sign_in_front_witness :
  Navbar.line_total (Example.line 1 "€ 12,50" 2)
  = Navbar.line_total (Example.line 1 "12,50" 2)
  /\ cart_price (Example.line 1 "€ 12,50" 2) = JS.zero.
Proof.
  apply (euro_sign_in_front (Example.line 1 "€ 12,50" 2)
                            (Example.line 1 "12,50" 2) " " "12,50");
    try reflexivity.
  apply (form_fraction true "12" "50" "" ","); try reflexivity;
    [discriminate | now right].
Defined.

(** ** Reading the backend's total *)

Lemma strip_non_numeric_app (s t : string) :
  JS.strip_non_numeric (s ++ t)
  = (JS.strip_non_numeric s ++ JS.strip_non_numeric t)%string.
Proof.
  induction s as [ | c s IH]; [reflexivity | ].
  cbn [append JS.strip_non_numeric].
  destruct (JS.is_digit c || Ascii.eqb c ".")%bool; cbn [append]; now rewrite IH.
Qed.

Lemma strip_non_numeric_nothing (junk : string) :
  no_numeric_char junk = true -> JS.strip_non_numeric junk = EmptyString.
Proof.
  induction junk as [ | c junk IH]; intros H; [reflexivity | ].
  unfold no_numeric_char in H. cbn in H. apply andb_true_iff in H.
  destruct H as [Hc H]. apply negb_true_iff in Hc.
  cbn [JS.strip_non_numeric]. rewrite Hc. now apply IH.
Qed.

(** X14.  Characters other than digits and dots do not matter to the total,
    wherever they stand in the backend's text: a currency sign, blanks and
    also commas are passed over, so that a text with a decimal comma reads
    as the number its digits spell. *)
Theorem total_text_passes_over_other_characters (before junk after : string) :
  no_numeric_char junk = true ->
  Cart.parseTotalText (before ++ junk ++ after)
  = Cart.parseTotalText (before ++ after).
Proof.
  intros H. unfold Cart.parseTotalText.
  now rewrite !strip_non_numeric_app, (strip_non_numeric_nothing junk H).
Qed.

Lemma total_text_passes_over_other_characters_witness :
  Cart.parseTotalText ("20" ++ "," ++ "00 €") = Cart.parseTotalText ("20" ++ "00 €").
Proof.
  apply total_text_passes_over_other_characters. reflexivity.
Defined.

Lemma strip_of_text_without_digits (t : string) :
  forallb (fun c => negb (JS.is_digit c)) (list_ascii_of_string t) = true ->
  forallb (fun c => Ascii.eqb c ".")
          (list_ascii_of_string (JS.strip_non_numeric t)) = true.
Proof.
  induction t as [ | c t IH]; intros H; [reflexivity | ].
  cbn in H. apply andb_true_iff in H. destruct H as [Hc H].
  apply negb_true_iff in Hc. cbn [JS.strip_non_numeric]. rewrite Hc.
  cbn [orb]. destruct (Ascii.eqb c ".") eqn:Hdot; [ | now apply IH].
  cbn. rewrite Hdot. now apply IH.
Qed.

Lemma parseFloat_of_dots (s : string) :
  forallb (fun c => Ascii.eqb c ".") (list_ascii_of_string s) = true ->
  JS.parseFloat s = JS.NaN.
Proof.
  destruct s as [ | c r]; [reflexivity | ]. cbn. intros H.
  apply andb_true_iff in H. destruct H as [Hc Hr].
  apply Ascii.eqb_eq in Hc. subst c.
  destruct (head_of_number "." r eq_refl) as [Htrim [Hsign Hinf]].
  unfold JS.parseFloat. rewrite Htrim, Hsign, Hinf.
  cbn [JS.scan_digits JS.is_digit N_of_ascii]. cbn.
  destruct r as [ | c2 r2]; [reflexivity | ].
  cbn in Hr. apply andb_true_iff in Hr. destruct Hr as [Hc2 _].
  apply Ascii.eqb_eq in Hc2. subst c2. reflexivity.
Qed.

(** X15.  When the backend's total entry is there and its text holds no
    digit, the page shows the total "NaN", whatever the cart holds. *)
Theorem total_without_digits_shows_NaN (cartData : CartData) (entry : TotalEntry) :
  Cart.totalItem cartData = Some entry ->
  forallb (fun c => negb (JS.is_digit c)) (list_ascii_of_string (text entry)) = true ->
  Cart.totalPrice_text (Cart.computeTotals cartData) = "NaN"%string.
Proof.
  intros Hitem Hnone.
  destruct (totalPrice_text_present cartData entry Hitem) as [_ ->].
  now rewrite (parseFloat_of_dots _ (strip_of_text_without_digits _ Hnone)).
Qed.

Lemma total_without_digits_shows_NaN_witness :
  Cart.totalPrice_text
    (Cart.computeTotals
       (Example.cart [Example.line 1 "4.50" 2]
                     [{| title := "Total"; text := "auf Anfrage." |}] []))
  = "NaN"%string.
Proof.
  apply (total_without_digits_shows_NaN
           (Example.cart [Example.line 1 "4.50" 2]
                         [{| title := "Total"; text := "auf Anfrage." |}] [])
           {| title := "Total"; text := "auf Anfrage." |});
    reflexivity.
Defined.

(** ** The shape of a displayed amount *)

Lemma length_zeros (n : nat) : length (JS.zeros n) = n.
Proof. induction n as [ | n IH]; cbn; [reflexivity | now rewrite IH]. Qed.

Lemma all_digits_zeros (n : nat) : all_digits (JS.zeros n) = true.
Proof. induction n as [ | n IH]; [reflexivity | exact IH]. Qed.

Lemma all_digits_append (s t : string) :
  all_digits (s ++ t) = (all_digits s && all_digits t)%bool.
Proof.
  unfold all_digits. now rewrite list_ascii_of_append, forallb_app.
Qed.

Lemma all_digits_of_uint (d : Decimal.uint) :
  all_digits (NilEmpty.string_of_uint d) = true.
Proof. induction d; cbn; [reflexivity | exact IHd ..]. Qed.

Lemma substring_split (s : string) (a : nat) :
  (a <= length s)%nat ->
  (substring 0 a s ++ substring a (length s - a) s)%string = s
  /\ length (substring 0 a s) = a.
Proof.
  revert s. induction a as [ | a IH]; intros s Ha.
  - rewrite Nat.sub_0_r, substring_all. split; [ | now destruct s].
    now destruct s.
  - destruct s as [ | c s]; cbn [length] in Ha; [lia | ].
    assert (Ha' : (a <= length s)%nat) by lia.
    destruct (IH s Ha') as [Hs Hl].
    cbn [substring length Nat.sub append]. now rewrite Hs, Hl.
Qed.

Lemma fixed_notation_shape (n : Z) :
  exists whole frac,
    JS.fixed_notation n 2 = (whole ++ "." ++ frac)%string
    /\ all_digits whole = true
    /\ whole <> EmptyString
    /\ all_digits frac = true
    /\ length frac = 2%nat.
Proof.
  unfold JS.fixed_notation. cbn [Nat.eqb].
  set (m := JS.digits_of n).
  set (m' := (JS.zeros (2 + 1 - length m) ++ m)%string).
  assert (Hlen : (3 <= length m')%nat).
  { unfold m'. rewrite length_append, length_zeros. lia. }
  assert (Hdigits : all_digits m' = true).
  { unfold m', m, JS.digits_of.
    now rewrite all_digits_append, all_digits_zeros, all_digits_of_uint. }
  assert (Hle : (length m' - 2 <= length m')%nat) by lia.
  destruct (substring_split m' (length m' - 2) Hle) as [Hsplit Hwhole].
  replace (length m' - (length m' - 2))%nat with 2%nat in Hsplit by lia.
  exists (substring 0 (length m' - 2) m'), (substring (length m' - 2) 2 m').
  rewrite <- Hsplit, all_digits_append in Hdigits.
  apply andb_true_iff in Hdigits. destruct Hdigits as [Hd1 Hd2].
  repeat split; try assumption.
  - intros Hempty. rewrite Hempty in Hwhole.
    change (length EmptyString) with 0%nat in Hwhole. lia.
  - pose proof (f_equal length Hsplit) as Hl.
    rewrite length_append, Hwhole in Hl. lia.
Qed.

(** X16.  An amount that is finite and below 10^21 in magnitude is shown
    with exactly two decimals: an optional minus sign, at least one digit, a
    point and two digits. *)
Theorem amount_shown_with_two_decimals (x : JS.Number) :
  prints_fixed x = true ->
  exists sign whole frac,
    JS.toFixed x 2 = (sign ++ whole ++ "." ++ frac)%string
    /\ (sign = EmptyString \/ sign = "-"%string)
    /\ all_digits whole = true
    /\ whole <> EmptyString
    /\ all_digits frac = true
    /\ length frac = 2%nat.
Proof.
  intros Hx. destruct x as [s | s | | s m e]; try discriminate; cbn [JS.toFixed].
  - destruct (fixed_notation_shape 0) as [whole [frac [-> H]]].
    exists EmptyString, whole, frac. split; [reflexivity | split; [now left | exact H]].
  - cbn in Hx. apply negb_true_iff in Hx. rewrite Hx.
    destruct (fixed_notation_shape (JS.nearest_scaled m e 2))
      as [whole [frac [-> H]]].
    exists (if s then "-"%string else EmptyString), whole, frac.
    split; [reflexivity | split; [destruct s; tauto | exact H]].
Qed.

Lemma amount_shown_with_two_decimals_witness :
  exists sign whole frac,
    JS.toFixed (Cart.subTotal
                  (Cart.cartItems
                     (Example.cart [Example.line 1 "4.50" 2] [] []))) 2
    = (sign ++ whole ++ "." ++ frac)%string
    /\ (sign = EmptyString \/ sign = "-"%string)
    /\ all_digits whole = true
    /\ whole <> EmptyString
    /\ all_digits frac = true
    /\ length frac = 2%nat.
Proof.
  apply amount_shown_with_two_decimals. vm_compute. reflexivity.
Defined.

(** ** The dropdown of a navigation entry *)

Lemma clearTimeout_only (id : nat) : NavItem.clearTimeout id [id] = [].
Proof. unfold NavItem.clearTimeout. cbn. now rewrite Nat.eqb_refl. Qed.

(** While the pointer is over the entry no timeout is scheduled; while it is
    away at most one is, the one [timeoutRef] names. *)
Lemma hover_invariant (events : list NavItem.Event) :
  forall (inside : bool) (s : NavItem.State),
    (if inside then NavItem.timers s = []
     else NavItem.timers s = []
          \/ exists id, NavItem.timers s = [id] /\ NavItem.timeoutRef s = Some id) ->
    NavItem.hovers_on_wide_window inside events = true ->
    if NavItem.pointer_inside inside events
    then NavItem.timers (NavItem.run events s) = []
    else NavItem.timers (NavItem.run events s) = []
         \/ exists id, NavItem.timers (NavItem.run events s) = [id]
                       /\ NavItem.timeoutRef (NavItem.run events s) = Some id.
Proof.
  induction events as [ | e events IH]; intros inside s Hinv Hhover.
  - exact Hinv.
  - destruct e as [w | w | | target | id];
      cbn [NavItem.hovers_on_wide_window NavItem.pointer_inside] in *;
      unfold NavItem.run in *; cbn [fold_left NavItem.react].
    + apply andb_true_iff in Hhover. destruct Hhover as [Hhover Hrest].
      apply andb_true_iff in Hhover. destruct Hhover as [Hout Hwide].
      apply negb_true_iff in Hout. subst inside.
      apply (IH true); [ | exact Hrest].
      unfold NavItem.handleMouseEnter. rewrite Hwide. cbn [NavItem.timers].
      destruct Hinv as [Hnone | [id [Hone Href]]].
      * rewrite Hnone. now destruct (NavItem.timeoutRef s).
      * rewrite Href, Hone. apply clearTimeout_only.
    + apply andb_true_iff in Hhover. destruct Hhover as [Hhover Hrest].
      apply andb_true_iff in Hhover. destruct Hhover as [Hin Hwide].
      subst inside. apply (IH false); [ | exact Hrest].
      unfold NavItem.handleMouseLeave. rewrite Hwide.
      cbn [NavItem.timers NavItem.timeoutRef]. right.
      exists (NavItem.next_timer s). now rewrite Hinv.
    + apply (IH inside); [ | exact Hhover]. exact Hinv.
    + apply (IH inside); [ | exact Hhover]. now destruct target.
    + apply (IH inside); [ | exact Hhover].
      unfold NavItem.timeout_fires.
      destruct (existsb (Nat.eqb id) (NavItem.timers s)) eqn:Hscheduled;
        [ | exact Hinv].
      cbn [NavItem.timers NavItem.timeoutRef].
      destruct inside.
      * rewrite Hinv in Hscheduled. discriminate.
      * destruct Hinv as [Hnone | [id' [Hone Href]]].
        -- rewrite Hnone in Hscheduled. discriminate.
        -- left. rewrite Hone in *. cbn in Hscheduled.
           rewrite orb_false_r in Hscheduled. apply Nat.eqb_eq in Hscheduled.
           subst id'. apply clearTimeout_only.
Qed.

Lemma run_app (l1 l2 : list NavItem.Event) (s : NavItem.State) :
  NavItem.run (l1 ++ l2) s = NavItem.run l2 (NavItem.run l1 s).
Proof. unfold NavItem.run. apply fold_left_app. Qed.

Lemma hovers_app (l1 l2 : list NavItem.Event) (inside : bool) :
  NavItem.hovers_on_wide_window inside (l1 ++ l2) = true ->
  NavItem.hovers_on_wide_window inside l1 = true
  /\ NavItem.hovers_on_wide_window (NavItem.pointer_inside inside l1) l2 = true.
Proof.
  revert inside. induction l1 as [ | e l1 IH]; intros inside H; [now split | ].
  destruct e; cbn [app NavItem.hovers_on_wide_window NavItem.pointer_inside] in *;
    try (now apply IH);
    apply andb_true_iff in H; destruct H as [H Hrest];
    destruct (IH _ Hrest) as [H1 H2]; now rewrite H, H1.
Qed.

(** X17.  On a wide window, with the pointer entering and leaving the entry
    in turn: while the pointer is over the entry no timeout is scheduled, so
    no timeout closes the dropdown under the pointer; and right after the
    pointer has entered, the dropdown is open. *)
Theorem dropdown_stays_open_under_pointer (events : list NavItem.Event) :
  NavItem.hovers_on_wide_window false events = true ->
  NavItem.pointer_inside false events = true ->
  NavItem.timers (NavItem.run events NavItem.initial) = []
  /\ (forall id,
         NavItem.timeout_fires id (NavItem.run events NavItem.initial)
         = NavItem.run events NavItem.initial)
  /\ (forall before w,
         events = before ++ [NavItem.MouseEnter w] ->
         NavItem.isOpen (NavItem.run events NavItem.initial) = true).
Proof.
  intros Hhover Hinside.
  pose proof (hover_invariant events false NavItem.initial (or_introl eq_refl) Hhover)
    as Hinv.
  rewrite Hinside in Hinv. split; [exact Hinv | split].
  - intros id. unfold NavItem.timeout_fires. now rewrite Hinv.
  - intros before w ->. rewrite run_app. cbn.
    apply hovers_app in Hhover. destruct Hhover as [_ Hlast].
    cbn in Hlast. apply andb_true_iff in Hlast. destruct Hlast as [Hlast _].
    apply andb_true_iff in Hlast. destruct Hlast as [_ Hwide].
    unfold NavItem.handleMouseEnter. now rewrite Hwide.
Qed.

Lemma dropdown_stays_open_under_pointer_witness :
  NavItem.timers
    (NavItem.run [NavItem.MouseEnter 1280; NavItem.MouseLeave 1280;
                  NavItem.MouseEnter 1280]
                 NavItem.initial)
  = []
  /\ (forall id,
         NavItem.timeout_fires id
           (NavItem.run [NavItem.MouseEnter 1280; NavItem.MouseLeave 1280;
                         NavItem.MouseEnter 1280]
                        NavItem.initial)
         = NavItem.run [NavItem.MouseEnter 1280; NavItem.MouseLeave 1280;
                        NavItem.MouseEnter 1280]
                       NavItem.initial)
  /\ (forall before w,
         [NavItem.MouseEnter 1280; NavItem.MouseLeave 1280; NavItem.MouseEnter 1280]
         = before ++ [NavItem.MouseEnter w] ->
         NavItem.isOpen
           (NavItem.run [NavItem.MouseEnter 1280; NavItem.MouseLeave 1280;
                         NavItem.MouseEnter 1280]
                        NavItem.initial)
         = true).
Proof.
  apply dropdown_stays_open_under_pointer; reflexivity.
Defined.

(** X18.  A press on the title of the entry opens the dropdown and never
    closes it: the [mousedown] lands outside the dropdown panel and closes
    the dropdown, and the click that follows toggles it open, whatever the
    state was before and whatever happened before.  A click without
    [mousedown], as from the keyboard, toggles. *)
Theorem press_on_title_opens (events : list NavItem.Event) (s : NavItem.State) :
  NavItem.isOpen
    (NavItem.run (events ++ [NavItem.MouseDown NavItem.OutsidePanel; NavItem.Click]) s)
  = true
  /\ NavItem.isOpen (NavItem.run (events ++ [NavItem.Click]) s)
     = negb (NavItem.isOpen (NavItem.run events s)).
Proof.
  rewrite !run_app. split; reflexivity.
Qed.

(** ** The two revisions of the checkout side by side *)

Lemma revisions_agree_on_loop (backend : Backend) (cartData : CartData)
      (menuContents : list MenuContent) :
  Forall (fun g =>
            exists ms,
              CartV2Facts.members backend g = Some ms
              /\ CartV1.reportedCount g
                 = CartV2.currentCount (products cartData) ms)
         menuContents ->
  (CartV1.for_contents menuContents = ([RouterPush "/checkout"], Normal tt)
   /\ CartV2.for_contents backend cartData menuContents
      = (CartV2Facts.fetches menuContents ++ [RouterPush "/checkout"], Normal tt))
  \/ (exists pre g post,
         menuContents = pre ++ g :: post
         /\ CartV1.for_contents menuContents
            = ([ToastError
                  (CartV1.minimumMessage (CartV1.requiredCount g) (name g)
                                         (CartV1.reportedCount g))],
               Normal tt)
         /\ CartV2.for_contents backend cartData menuContents
            = (CartV2Facts.fetches (pre ++ [g])
                 ++ [ToastError
                       (CartV2.minimumMessage (CartV1.requiredCount g) (name g)
                                              (CartV1.reportedCount g));
                     SetIsCheckingOut false],
               Normal tt)).
Proof.
  induction 1 as [ | g rest [ms [Hms Hcount]] _ IH].
  - left. now split.
  - assert (Hone : CartV2Facts.fetches [g] = map Fetch (ids g))
      by (unfold CartV2Facts.fetches; cbn; now rewrite app_nil_r).
    destruct (Z_lt_le_dec (CartV1.reportedCount g) (CartV1.requiredCount g))
      as [Hlt | Hle].
    + right. exists [], g, rest. split; [reflexivity | split].
      * cbn [CartV1.for_contents]. apply Z.ltb_lt in Hlt. now rewrite Hlt.
      * rewrite (for_contents_unmet backend cartData g rest ms Hms)
          by (rewrite <- Hcount; exact Hlt).
        cbn [app]. now rewrite Hone, <- Hcount.
    + assert (Hstep1 : CartV1.for_contents (g :: rest) = CartV1.for_contents rest).
      { cbn [CartV1.for_contents]. apply Z.ltb_ge in Hle. now rewrite Hle. }
      rewrite Hstep1.
      rewrite (for_contents_met backend cartData g rest ms Hms)
        by (rewrite <- Hcount; exact Hle).
      destruct IH as [[H1 H2] | [pre [g' [post [Hsplit [H1 H2]]]]]].
      * left. split; [exact H1 | ]. rewrite H2. cbn [fst snd].
        now rewrite fetches_cons, app_assoc.
      * right. exists (g :: pre), g', post. split; [cbn; now rewrite Hsplit | ].
        split; [exact H1 | ]. rewrite H2. cbn [fst snd app].
        now rewrite !fetches_cons, !app_assoc.
Qed.

(** X19.  The second revision decides as the first one did, as far as the
    backend's own counts are right: when every lookup settles and the count
    the backend reports for each menu entry is the count computed from the
    cart, both revisions navigate, or both report the same entry with the
    same required and current count. *)
Theorem revisions_decide_alike (backend : Backend) (cartData : CartData) :
  Forall (fun g =>
            exists ms,
              CartV2Facts.members backend g = Some ms
              /\ CartV1.reportedCount g
                 = CartV2.currentCount (products cartData) ms)
         (contents cartData) ->
  (filter is_toast (trace (CartV1.handleCheckout cartData)) = []
   /\ filter is_toast (trace (CartV2.handleCheckout backend cartData)) = []
   /\ In (RouterPush "/checkout") (trace (CartV1.handleCheckout cartData))
   /\ In (RouterPush "/checkout") (trace (CartV2.handleCheckout backend cartData)))
  \/ (exists g,
         In g (contents cartData)
         /\ filter is_toast (trace (CartV1.handleCheckout cartData))
            = [ToastError
                 (CartV1.minimumMessage (CartV1.requiredCount g) (name g)
                                        (CartV1.reportedCount g))]
         /\ filter is_toast (trace (CartV2.handleCheckout backend cartData))
            = [ToastError
                 (CartV2.minimumMessage (CartV1.requiredCount g) (name g)
                                        (CartV1.reportedCount g))]
         /\ ~ In (RouterPush "/checkout") (trace (CartV1.handleCheckout cartData))
         /\ ~ In (RouterPush "/checkout")
                 (trace (CartV2.handleCheckout backend cartData))).
Proof.
  intros Hall. unfold trace, CartV1.handleCheckout.
  destruct (revisions_agree_on_loop backend cartData (contents cartData) Hall)
    as [[H1 H2] | [pre [g [post [Hsplit [H1 H2]]]]]].
  - left. rewrite H1, (handleCheckout_normal backend cartData _ H2). cbn [fst].
    repeat split.
    + cbn [filter is_toast]. now rewrite filter_app, filter_fetches.
    + now left.
    + right. apply in_or_app. right. now left.
  - right. exists g. rewrite H1, (handleCheckout_normal backend cartData _ H2).
    cbn [fst]. split; [rewrite Hsplit; apply in_or_app; right; now left | ].
    repeat split.
    + cbn [filter is_toast]. now rewrite filter_app, filter_fetches.
    + intros [Hin | []]. discriminate.
    + intros [Hin | Hin]; [discriminate | ].
      apply in_app_or in Hin. destruct Hin as [Hin | Hin].
      * revert Hin. apply not_in_fetches. discriminate.
      * cbn in Hin. destruct Hin as [Hin | [Hin | []]]; discriminate.
Qed.

Lemma revisions_decide_alike_witness :
  (filter is_toast
     (trace (CartV1.handleCheckout
               (Example.cart [Example.line 1 "4.50" 1] [] [Example.salat])))
   = []
   /\ filter is_toast
        (trace (CartV2.handleCheckout Example.backend
                  (Example.cart [Example.line 1 "4.50" 1] [] [Example.salat])))
      = []
   /\ In (RouterPush "/checkout")
         (trace (CartV1.handleCheckout
                   (Example.cart [Example.line 1 "4.50" 1] [] [Example.salat])))
   /\ In (RouterPush "/checkout")
         (trace (CartV2.handleCheckout Example.backend
                   (Example.cart [Example.line 1 "4.50" 1] [] [Example.salat]))))
  \/ (exists g,
         In g (contents (Example.cart [Example.line 1 "4.50" 1] [] [Example.salat]))
         /\ filter is_toast
              (trace (CartV1.handleCheckout
                        (Example.cart [Example.line 1 "4.50" 1] [] [Example.salat])))
            = [ToastError
                 (CartV1.minimumMessage (CartV1.requiredCount g) (name g)
                                        (CartV1.reportedCount g))]
         /\ filter is_toast
              (trace (CartV2.handleCheckout Example.backend
                        (Example.cart [Example.line 1 "4.50" 1] [] [Example.salat])))
            = [ToastError
                 (CartV2.minimumMessage (CartV1.requiredCount g) (name g)
                                        (CartV1.reportedCount g))]
         /\ ~ In (RouterPush "/checkout")
                 (trace (CartV1.handleCheckout
                           (Example.cart [Example.line 1 "4.50" 1] []
                                         [Example.salat])))
         /\ ~ In (RouterPush "/checkout")
                 (trace (CartV2.handleCheckout Example.backend
                           (Example.cart [Example.line 1 "4.50" 1] []
                                         [Example.salat])))).
Proof.
  apply revisions_decide_alike.
  constructor; [ | constructor].
  exists [{| category_product_id := 1 |}; {| category_product_id := 2 |};
          {| category_product_id := 1 |}].
  split; reflexivity.
Defined.

(** ** The further properties at work *)

Lemma checkout_navigates_or_reports_witness :
  (filter is_toast
     (trace (CartV2.handleCheckout Example.backend
               (Example.cart [Example.line 1 "4.50" 2; Example.line 3 "3.00" 1]
                             [] [Example.salat; Example.dessert])))
   = []
   /\ forall flag,
       flag_after
         (trace (CartV2.handleCheckout Example.backend
                   (Example.cart [Example.line 1 "4.50" 2; Example.line 3 "3.00" 1]
                                 [] [Example.salat; Example.dessert])))
         flag
       = true)
  /\ ((exists msg,
          filter is_toast
            (trace (CartV2.handleCheckout Example.backend
                      (Example.cart [Example.line 1 "4.50" 2] []
                                    [Example.salat; Example.extras])))
          = [ToastError msg])
      /\ forall flag,
          flag_after
            (trace (CartV2.handleCheckout Example.backend
                      (Example.cart [Example.line 1 "4.50" 2] []
                                    [Example.salat; Example.extras])))
            flag
          = false).
Proof.
  split.
  - apply (proj1 (checkout_navigates_or_reports
                    Example.backend
                    (Example.cart [Example.line 1 "4.50" 2; Example.line 3 "3.00" 1]
                                  [] [Example.salat; Example.dessert]))).
    vm_compute. tauto.
  - apply (proj2 (checkout_navigates_or_reports
                    Example.backend
                    (Example.cart [Example.line 1 "4.50" 2] []
                                  [Example.salat; Example.extras]))).
    vm_compute. intros H. repeat (destruct H as [H | H]; [discriminate H | ]).
    exact H.
Defined.

Lemma checkout_changes_nothing_witness :
  CartV2Facts.is_mutation (Fetch 10) = false
  /\ is_refetch (Fetch 10) = false
  /\ is_success_toast (Fetch 10) = false.
Proof.
  apply (checkout_changes_nothing
           Example.backend
           (Example.cart [Example.line 1 "4.50" 1] [] [Example.salat])).
  vm_compute. tauto.
Defined.
